(** * Real-time face-detection presentation pipeline

    A shallow embedding of the detection wrappers
    ([YOLOv12FaceDetector] / [YOLOv8FaceDetector]), of the webcam loop
    ([WebcamFaceDetectionGUI.update_frame], [on_quit]) and of the model
    selection of the web front end ([get_detector], [detect_image]).

    Conventions of the embedding:
    - Python [int] is [Z]; [//] is [Z.div] (floor), [%] is [Z.modulo]
      (sign of the divisor), with the [ZeroDivisionError] written out.
    - Python [float]: the scale of the optimized detection, on whose
      rounding the coordinates it returns depend, is a binary64 number
      (a primitive float; the [f64_] operations below).  Clock
      readings, rates and confidences, which the code compares, stores
      and prints, and the single division of the display size, are
      exact rationals [Q] (the [py_] operations).  [int(f)] is
      truncation toward zero.
    - A Python call that may raise returns an [outcome].
    - The neural network, OpenCV, tkinter, werkzeug and the file system
      are collaborators: they are parameters of the sections below. *)

From Stdlib Require Import ZArith QArith Lia Lqa Ascii String.
From Stdlib Require Import PrimFloat FloatOps SpecFloat.
From stdpp Require Import gmap strings list fin_maps.

#[local] Open Scope Z_scope.

(** ** Python exceptions and outcomes *)

Inductive py_exn : Type :=
  | ZeroDivisionError
  | ValueError (msg : string)
  | FileNotFoundError (msg : string)
  | ImportError (msg : string)
  | PlainException (msg : string)
  | OtherError (name : string).

Inductive outcome (A : Type) : Type :=
  | Returns (a : A)
  | Raises (e : py_exn).

Arguments Returns {A} a.
Arguments Raises {A} e.

#[global] Instance outcome_bind : MBind outcome := fun A B k m =>
  match m with
  | Returns a => k a
  | Raises e => Raises e
  end.

(** ** Python numbers *)

(** [int(f)]: truncation toward zero. *)
Definition py_int (f : Q) : Z := Z.quot (Qnum f) (Zpos (Qden f)).

(** [a / b] on two ints (true division). *)
Definition py_truediv (a b : Z) : outcome Q :=
  if Z.eqb b 0 then Raises ZeroDivisionError
  else Returns (inject_Z a / inject_Z b)%Q.

(** [a / f] with an int on the left and a float on the right. *)
Definition py_div_float (a : Z) (f : Q) : outcome Q :=
  if Qeq_bool f 0 then Raises ZeroDivisionError
  else Returns (inject_Z a / f)%Q.

(** [a % b] on two ints. *)
Definition py_mod (a b : Z) : outcome Z :=
  if Z.eqb b 0 then Raises ZeroDivisionError else Returns (a mod b).

(** [f >= 1.0] *)
Definition ge_one (f : Q) : bool := Qle_bool 1 f.

(** ** Binary64 numbers

    Python floats as the machine has them.  Where C would give an
    infinity for a conversion or a division of ints, Python raises
    [OverflowError]. *)

(** The int [a] as mantissa and exponent, before any rounding. *)
Definition exact_int (a : Z) : spec_float :=
  match a with
  | Z0 => S754_zero false
  | Zpos p => S754_finite false p 0
  | Zneg p => S754_finite true p 0
  end.

Definition finite_or_overflow (f : float) : outcome float :=
  if is_infinity f then Raises (OtherError "OverflowError") else Returns f.

(** The conversion of an int operand to a float, to nearest-even. *)
Definition f64_of_int (a : Z) : outcome float :=
  finite_or_overflow (SF2Prim (binary_normalize prec emax a 0 false)).

(** [a / b] on two ints: the quotient of the two integers, rounded
    once. *)
Definition f64_truediv (a b : Z) : outcome float :=
  if Z.eqb b 0 then Raises ZeroDivisionError
  else finite_or_overflow
         (SF2Prim (SFdiv prec emax (exact_int a) (exact_int b))).

(** [a * f] with an int on the left and a float on the right. *)
Definition f64_mul_int (a : Z) (f : float) : outcome float :=
  x ← f64_of_int a;
  Returns (x * f)%float.

(** [a / f] with an int on the left and a float on the right. *)
Definition f64_div_int (a : Z) (f : float) : outcome float :=
  x ← f64_of_int a;
  if (f =? 0)%float then Raises ZeroDivisionError
  else Returns (x / f)%float.

(** [int(f)]: truncation toward zero; an infinity and a NaN raise. *)
Definition f64_int (f : float) : outcome Z :=
  match Prim2SF f with
  | S754_zero _ => Returns 0
  | S754_finite s m e =>
      let magnitude := Z.shiftl (Zpos m) e in
      Returns (if s then - magnitude else magnitude)
  | S754_infinity _ => Raises (OtherError "OverflowError")
  | S754_nan => Raises (ValueError "cannot convert float NaN to integer")
  end.

(** [f < 1.0] *)
Definition f64_lt_one (f : float) : bool := (f <? 1)%float.

(** ** Frames and detection records *)

(** A frame: [image.shape[:2]] is [(height, width)]. *)
Record image : Type := Image {
  height : Z;
  width : Z;
  pixels : list Z
}.

(** What the loop body reads from one [box] of a result:
    [map(int, box.xyxy[0].cpu().numpy())] and [float(box.conf[0]...)]. *)
Record raw_box : Type := RawBox {
  bx1 : Z; by1 : Z; bx2 : Z; by2 : Z;
  bconf : Q
}.

(** Reading a box either gives the five values or raises. *)
Definition box : Type := outcome raw_box.

(** The dict appended to [detections]. *)
Record detection : Type := Detection {
  x1 : Z; y1 : Z; x2 : Z; y2 : Z;
  confidence : Q;
  w : Z; h : Z; cx : Z; cy : Z
}.

Definition make_detection (a1 b1 a2 b2 : Z) (conf : Q) : detection :=
  {| x1 := a1; y1 := b1; x2 := a2; y2 := b2;
     confidence := conf;
     w := a2 - a1;
     h := b2 - b1;
     cx := (a1 + a2) / 2;
     cy := (b1 + b2) / 2 |}.

(** A line printed by [print(f"Detection error: {e}")]. *)
Inductive log_line : Type :=
  | DetectionError (e : py_exn).

(** ** The detector wrappers *)

Section Detector.

(** [self.yolo(image, conf=..., verbose=False)]: the results, each
    with its boxes, or an exception. *)
Variable yolo : image -> Q -> outcome (list (list box)).

(** [cv2.resize(image, (w, h))]. *)
Variable cv2_resize : image -> Z * Z -> outcome image.

(** The two nested [for] loops.  [detections] is the list built so
    far; an exception leaves the loops with what was appended. *)
Fixpoint boxes_loop (body : raw_box -> outcome detection)
    (boxes : list box) (detections : list detection)
    : list detection * option py_exn :=
  match boxes with
  | [] => (detections, None)
  | b :: rest =>
      match (r ← b; body r) with
      | Returns d => boxes_loop body rest (detections ++ [d])
      | Raises e => (detections, Some e)
      end
  end.

Fixpoint results_loop (body : raw_box -> outcome detection)
    (results : list (list box)) (detections : list detection)
    : list detection * option py_exn :=
  match results with
  | [] => (detections, None)
  | result :: rest =>
      match boxes_loop body result detections with
      | (detections', None) => results_loop body rest detections'
      | (detections', Some e) => (detections', Some e)
      end
  end.

(** What a call gives back: its value or the exception that leaves
    it, and the lines it printed. *)
Definition call_result : Type := outcome (list detection) * list log_line.

(** [except Exception as e: print(...)] followed by
    [return detections]. *)
Definition finish (r : list detection * option py_exn) : call_result :=
  match r with
  | (detections, None) => (Returns detections, [])
  | (detections, Some e) => (Returns detections, [DetectionError e])
  end.

Definition plain_body (r : raw_box) : outcome detection :=
  Returns (make_detection (bx1 r) (by1 r) (bx2 r) (by2 r) (bconf r)).

Definition detect_faces (img : image) (conf_threshold : Q)
    : call_result :=
  match yolo img conf_threshold with
  | Raises e => finish ([], Some e)
  | Returns results => finish (results_loop plain_body results [])
  end.

(** The [if width > max_width] block: the scale and the frame given
    to the network. *)
Definition inference_input (img : image) (max_width : Z)
    : outcome (float * image) :=
  if Z.ltb max_width (width img) then
    scale ← f64_truediv max_width (width img);
    scaled ← f64_mul_int (height img) scale;
    new_height ← f64_int scaled;
    inference_image ← cv2_resize img (max_width, new_height);
    Returns (scale, inference_image)
  else Returns (1%float, img).

(** [int(x / scale)] *)
Definition rescale (scale : float) (x : Z) : outcome Z :=
  q ← f64_div_int x scale;
  f64_int q.

(** [if scale < 1.0: x1, y1, x2, y2 = int(x1 / scale), ...] and the
    dict built from the final coordinates. *)
Definition scaled_body (scale : float) (r : raw_box) : outcome detection :=
  if f64_lt_one scale then
    a1 ← rescale scale (bx1 r);
    b1 ← rescale scale (by1 r);
    a2 ← rescale scale (bx2 r);
    b2 ← rescale scale (by2 r);
    Returns (make_detection a1 b1 a2 b2 (bconf r))
  else
    Returns (make_detection (bx1 r) (by1 r) (bx2 r) (by2 r) (bconf r)).

Definition detect_faces_optimized (img : image) (conf_threshold : Q)
    (max_width : Z) : call_result :=
  match inference_input img max_width with
  | Raises e => finish ([], Some e)
  | Returns (scale, inference_image) =>
      match yolo inference_image conf_threshold with
      | Raises e => finish ([], Some e)
      | Returns results =>
          finish (results_loop (scaled_body scale) results [])
      end
  end.

End Detector.

(** ** Drawing on frames

    numpy arrays are mutable and passed by reference: a frame is a
    location of a store, [image.copy()] allocates, and the OpenCV
    drawing calls write into the array they are given. *)

Definition loc : Type := nat.
Definition color : Type := (Z * Z * Z)%type.

Section Drawing.

(** [cv2.rectangle(img, pt1, pt2, color, thickness)]: the new
    contents of [img]. *)
Variable cv2_rectangle : image -> Z * Z -> Z * Z -> color -> Z -> outcome image.

(** [cv2.putText(img, text, org, FONT_HERSHEY_SIMPLEX, scale, color,
    thickness)]: the new contents of [img]. *)
Variable cv2_putText : image -> string -> Z * Z -> Q -> color -> Z -> outcome image.

(** [cv2.getTextSize(text, FONT_HERSHEY_SIMPLEX, scale, thickness)]:
    [((width, height), baseline)]. *)
Variable cv2_getTextSize : string -> Q -> Z -> (Z * Z) * Z.

(** [f"{conf:.1%}"] *)
Variable format_percent : Q -> string.

(** [image.copy()]; a location that the store does not hold stands
    for [None], which has no [copy]. *)
Definition copy (σ : gmap loc image) (l : loc) : outcome (loc * gmap loc image) :=
  match σ !! l with
  | Some img => let l' := fresh (dom σ) in Returns (l', <[l' := img]> σ)
  | None => Raises (OtherError "AttributeError")
  end.

(** A drawing call on the array at [l]: the exception it raised, if
    any, and the store it leaves. *)
Definition draw_on (σ : gmap loc image) (l : loc)
    (f : image -> outcome image) : option py_exn * gmap loc image :=
  match σ !! l with
  | Some img =>
      match f img with
      | Returns img' => (None, <[l := img']> σ)
      | Raises e => (Some e, σ)
      end
  | None => (Some (OtherError "AttributeError"), σ)
  end.

(** The body of [for det in detections] in [draw_faces], drawing on
    [result]. *)
Definition draw_one (result : loc) (c : color) (thickness : Z)
    (show_confidence : bool) (det : detection) (σ : gmap loc image)
    : option py_exn * gmap loc image :=
  let conf := confidence det in
  match draw_on σ result
          (fun img => cv2_rectangle img (x1 det, y1 det) (x2 det, y2 det) c thickness) with
  | (Some e, σ1) => (Some e, σ1)
  | (None, σ1) =>
      if show_confidence then
        let conf_text := format_percent conf in
        let text_size := cv2_getTextSize conf_text (7 # 10) 2 in
        match draw_on σ1 result
                (fun img => cv2_rectangle img
                   (x1 det, y1 det - snd (fst text_size) - 10)
                   (x1 det + fst (fst text_size) + 5, y1 det) c (-1)) with
        | (Some e, σ2) => (Some e, σ2)
        | (None, σ2) =>
            draw_on σ2 result
              (fun img => cv2_putText img conf_text
                 (x1 det + 2, y1 det - 5) (7 # 10) (255, 255, 255) 2)
        end
      else (None, σ1)
  end.

Fixpoint draw_all (result : loc) (c : color) (thickness : Z)
    (show_confidence : bool) (detections : list detection)
    (σ : gmap loc image) : option py_exn * gmap loc image :=
  match detections with
  | [] => (None, σ)
  | det :: rest =>
      match draw_one result c thickness show_confidence det σ with
      | (None, σ') => draw_all result c thickness show_confidence rest σ'
      | (Some e, σ') => (Some e, σ')
      end
  end.

(** [draw_faces(self, image, detections, color, thickness,
    show_confidence)]: the location returned (or the exception) and
    the store afterwards. *)
Definition draw_faces (σ : gmap loc image) (img : loc)
    (detections : list detection) (c : color) (thickness : Z)
    (show_confidence : bool) : outcome loc * gmap loc image :=
  match copy σ img with
  | Raises e => (Raises e, σ)
  | Returns (result, σ0) =>
      match draw_all result c thickness show_confidence detections σ0 with
      | (None, σ') => (Returns result, σ')
      | (Some e, σ') => (Raises e, σ')
      end
  end.

End Drawing.

(** ** The webcam loop *)

(** Calls made on the capture device, on the tkinter root and on
    standard output, in the order they are made. *)
Inductive gui_event : Type :=
  | CapRead
  | CapRelease
  | RootQuit
  | RootDestroy
  | RootAfter
  | Print (l : log_line).

(** The attributes of [WebcamFaceDetectionGUI] assigned in [__init__].
    [cap] is [None] or the capture opened on a device index;
    [current_detections] is [None] or a list. *)
Record gui : Type := Gui {
  conf_threshold : Q;
  skip_frames : Z;
  inference_width : Z;
  cap : option Z;
  running : bool;
  frame_count : Z;
  detection_count : Z;
  fps : Q;
  detection_fps : Q;
  last_time : Q;
  last_detection_time : Q;
  current_detections : option (list detection);
  events : list gui_event
}.

Definition set_running (v : bool) (s : gui) : gui :=
  Gui (conf_threshold s) (skip_frames s) (inference_width s) (cap s) v
      (frame_count s) (detection_count s) (fps s) (detection_fps s)
      (last_time s) (last_detection_time s) (current_detections s) (events s).

Definition set_frame_count (v : Z) (s : gui) : gui :=
  Gui (conf_threshold s) (skip_frames s) (inference_width s) (cap s) (running s)
      v (detection_count s) (fps s) (detection_fps s)
      (last_time s) (last_detection_time s) (current_detections s) (events s).

Definition set_detection_count (v : Z) (s : gui) : gui :=
  Gui (conf_threshold s) (skip_frames s) (inference_width s) (cap s) (running s)
      (frame_count s) v (fps s) (detection_fps s)
      (last_time s) (last_detection_time s) (current_detections s) (events s).

Definition set_fps (v : Q) (s : gui) : gui :=
  Gui (conf_threshold s) (skip_frames s) (inference_width s) (cap s) (running s)
      (frame_count s) (detection_count s) v (detection_fps s)
      (last_time s) (last_detection_time s) (current_detections s) (events s).

Definition set_detection_fps (v : Q) (s : gui) : gui :=
  Gui (conf_threshold s) (skip_frames s) (inference_width s) (cap s) (running s)
      (frame_count s) (detection_count s) (fps s) v
      (last_time s) (last_detection_time s) (current_detections s) (events s).

Definition set_last_time (v : Q) (s : gui) : gui :=
  Gui (conf_threshold s) (skip_frames s) (inference_width s) (cap s) (running s)
      (frame_count s) (detection_count s) (fps s) (detection_fps s)
      v (last_detection_time s) (current_detections s) (events s).

Definition set_last_detection_time (v : Q) (s : gui) : gui :=
  Gui (conf_threshold s) (skip_frames s) (inference_width s) (cap s) (running s)
      (frame_count s) (detection_count s) (fps s) (detection_fps s)
      (last_time s) v (current_detections s) (events s).

Definition set_current_detections (v : option (list detection)) (s : gui) : gui :=
  Gui (conf_threshold s) (skip_frames s) (inference_width s) (cap s) (running s)
      (frame_count s) (detection_count s) (fps s) (detection_fps s)
      (last_time s) (last_detection_time s) v (events s).

Definition emit (evs : list gui_event) (s : gui) : gui :=
  Gui (conf_threshold s) (skip_frames s) (inference_width s) (cap s) (running s)
      (frame_count s) (detection_count s) (fps s) (detection_fps s)
      (last_time s) (last_detection_time s) (current_detections s)
      (events s ++ evs).

(** The state [__init__] leaves when the model loads and the webcam
    opens, just before its call of [update_frame]; [now] is what
    [time.time()] returned. *)
Definition init_gui (conf : Q) (skip inference : Z) (now : Q) : gui :=
  {| conf_threshold := conf; skip_frames := skip; inference_width := inference;
     cap := Some 0; running := true;
     frame_count := 0; detection_count := 0;
     fps := 0; detection_fps := 0;
     last_time := now; last_detection_time := now;
     current_detections := None; events := [] |}.

(** What one scheduler tick finds outside the object: the pair given
    by [cap.read()] ([None] when [ret] is false) and the successive
    values of [time.time()], three at most in each of the two rate
    blocks. *)
Record tick : Type := Tick {
  read : option image;
  detection_clock : Q * Q * Q;
  render_clock : Q * Q * Q
}.

(** What a tick that reaches the end put on screen. *)
Record shown : Type := Shown {
  invoked : bool;
  drawn : list detection;
  info_text : Q * Q * nat
}.

(** The YOLOv8 variant reads the clock once in each rate block. *)
Record tick_v8 : Type := TickV8 {
  read_v8 : option image;
  detection_time : Q;
  render_time : Q
}.

Definition tick_of_v8 (tk : tick_v8) : tick :=
  {| read := read_v8 tk;
     detection_clock := (detection_time tk, detection_time tk, detection_time tk);
     render_clock := (render_time tk, render_time tk, render_time tk) |}.

Section Loop.

Variable yolo : image -> Q -> outcome (list (list box)).
Variable cv2_resize : image -> Z * Z -> outcome image.

(** The [if should_detect:] branch of the YOLOv12 variant. *)
Definition detect_branch (frame : image) (clk : Q * Q * Q) (s : gui)
    : outcome (list detection * gui) :=
  let '(t1, t2, t3) := clk in
  let '(r, printed) :=
    detect_faces_optimized yolo cv2_resize frame (conf_threshold s)
                           (inference_width s) in
  let s := emit (map Print printed) s in
  detections ← r;
  let s := set_current_detections (Some detections) s in
  let s := set_detection_count (detection_count s + 1) s in
  if ge_one (t1 - last_detection_time s)%Q then
    rate ← py_div_float (detection_count s) (t2 - last_detection_time s)%Q;
    let s := set_detection_fps rate s in
    let s := set_detection_count 0 s in
    let s := set_last_detection_time t3 s in
    Returns (detections, s)
  else Returns (detections, s).

(** [self.current_detections if self.current_detections else []] *)
Definition cached (s : gui) : list detection :=
  match current_detections s with
  | Some (d :: ds) => d :: ds
  | Some [] => []
  | None => []
  end.

(** [self.frame_count += 1] and the render-rate block that follows
    it, YOLOv12 variant. *)
Definition render_meter (clk : Q * Q * Q) (s : gui) : outcome gui :=
  let '(t1, t2, t3) := clk in
  let s := set_frame_count (frame_count s + 1) s in
  if ge_one (t1 - last_time s)%Q then
    rate ← py_div_float (frame_count s) (t2 - last_time s)%Q;
    let s := set_fps rate s in
    let s := set_frame_count 0 s in
    let s := set_last_time t3 s in
    Returns s
  else Returns s.

(** [update_frame], YOLOv12 variant: what a tick does to the object.
    The calls that draw the overlay on a copy of the frame, resize it
    and hand it to the label come after the assignments below and
    assign nothing to the object; [shown] records what they are given.
    These calls are not modelled, so that a tick they leave by an
    exception has no counterpart here: the statements about a tick
    take it as returned, and none concludes that it returns.  A tick
    that returns early shows nothing and does not re-arm the timer. *)
Definition update_frame (s : gui) (tk : tick) : outcome (gui * option shown) :=
  if negb (running s) then Returns (s, None)
  else
    let s := emit [CapRead] s in
    match read tk with
    | None => Returns (s, None)
    | Some frame =>
        m ← py_mod (frame_count s) (skip_frames s);
        let should_detect := Z.eqb m 0 in
        '(detections, s) ←
          (if should_detect then detect_branch frame (detection_clock tk) s
           else Returns (cached s, s));
        s ← render_meter (render_clock tk) s;
        let s := emit [RootAfter] s in
        Returns (s, Some (Shown should_detect detections
                                (fps s, detection_fps s, length detections)))
    end.

(** The same three pieces in the YOLOv8 variant, which reads the
    clock once in each rate block ([current_time], [elapsed]). *)
Definition detect_branch_v8 (frame : image) (current_time : Q) (s : gui)
    : outcome (list detection * gui) :=
  let '(r, printed) :=
    detect_faces_optimized yolo cv2_resize frame (conf_threshold s)
                           (inference_width s) in
  let s := emit (map Print printed) s in
  detections ← r;
  let s := set_current_detections (Some detections) s in
  let s := set_detection_count (detection_count s + 1) s in
  let elapsed := (current_time - last_detection_time s)%Q in
  if ge_one elapsed then
    rate ← py_div_float (detection_count s) elapsed;
    let s := set_detection_fps rate s in
    let s := set_detection_count 0 s in
    let s := set_last_detection_time current_time s in
    Returns (detections, s)
  else Returns (detections, s).

Definition render_meter_v8 (current_time : Q) (s : gui) : outcome gui :=
  let s := set_frame_count (frame_count s + 1) s in
  let elapsed := (current_time - last_time s)%Q in
  if ge_one elapsed then
    rate ← py_div_float (frame_count s) elapsed;
    let s := set_fps rate s in
    let s := set_frame_count 0 s in
    let s := set_last_time current_time s in
    Returns s
  else Returns s.

Definition update_frame_v8 (s : gui) (tk : tick_v8) : outcome (gui * option shown) :=
  if negb (running s) then Returns (s, None)
  else
    let s := emit [CapRead] s in
    match read_v8 tk with
    | None => Returns (s, None)
    | Some frame =>
        m ← py_mod (frame_count s) (skip_frames s);
        let should_detect := Z.eqb m 0 in
        '(detections, s) ←
          (if should_detect then detect_branch_v8 frame (detection_time tk) s
           else Returns (cached s, s));
        s ← render_meter_v8 (render_time tk) s;
        let s := emit [RootAfter] s in
        Returns (s, Some (Shown should_detect detections
                                (fps s, detection_fps s, length detections)))
    end.

(** The timer loop: [update_frame] runs again only when the previous
    run re-armed the timer. *)
Fixpoint run (s : gui) (ticks : list tick) : outcome (gui * list shown) :=
  match ticks with
  | [] => Returns (s, [])
  | tk :: rest =>
      '(s', out) ← update_frame s tk;
      match out with
      | None => Returns (s', [])
      | Some o =>
          '(s'', outs) ← run s' rest;
          Returns (s'', o :: outs)
      end
  end.

(** [on_quit] *)
Definition on_quit (s : gui) : gui :=
  let s := set_running false s in
  let s := match cap s with
           | Some _ => emit [CapRelease] s
           | None => s
           end in
  let s := emit [RootQuit] s in
  emit [RootDestroy] s.

End Loop.

(** ** Model selection of the web front end *)

Definition ALLOWED_MODELS : gset string :=
  {[ "yolov12n-face.pt"; "yolov12s-face.pt"; "yolov12m-face.pt"; "yolov12l-face.pt" ]}.

(** Lines written through [logging] and [app.logger]. *)
Inductive web_log : Type :=
  | LogError (msg : string)
  | LogInfo (msg : string).

(** [str(e)] *)
Definition exn_str (e : py_exn) : string :=
  match e with
  | ZeroDivisionError => "division by zero"
  | ValueError msg => msg
  | FileNotFoundError msg => msg
  | ImportError msg => msg
  | PlainException msg => msg
  | OtherError name => name
  end.

Section WebApp.

(** A loaded [YOLOv12FaceDetector]. *)
Variable Detector : Type.

(** [werkzeug.utils.secure_filename] *)
Variable secure_filename : string -> string.

(** [str(MODELS_DIR / name)], [Path.resolve] (on the string of a
    path) and [Path.exists], taken where it answers: an [OSError]
    that [Path.exists] lets through leaves [get_detector] before the
    cache is assigned and is not modelled. *)
Variable models_dir : string.
Variable path_join : string -> string -> string.
Variable resolve : string -> outcome string.
Variable exists_path : string -> bool.

(** [ultralytics.YOLO(model_path)] *)
Variable YOLO : string -> outcome Detector.

(** [YOLOv12FaceDetector(model_path)]: [__init__] turns what the
    import or [YOLO] raises into [ImportError] or [Exception]. *)
Definition load_detector (model_path : string) : outcome Detector :=
  match YOLO model_path with
  | Returns d => Returns d
  | Raises (ImportError _) =>
      Raises (ImportError "ultralytics package not found. pip install ultralytics")
  | Raises e => Raises (PlainException ("Failed to load model: " +:+ exn_str e))
  end.

(** The [try] block of [get_detector] with its [except Exception]:
    the resolved path, or the exception raised in its place. *)
Definition resolve_model_path (safe_name : string)
    : outcome string * list web_log :=
  let model_path := path_join models_dir safe_name in
  let body : outcome string * list web_log :=
    match resolve model_path with
    | Raises e => (Raises e, [])
    | Returns final_path =>
        match resolve models_dir with
        | Raises e => (Raises e, [])
        | Returns safe_root =>
            if negb (String.prefix safe_root final_path) then
              (Raises (ValueError "Invalid model path (Symlink violation)"),
               [LogError ("Security Alert: Symlink attack detected! " +:+ final_path)])
            else (Returns final_path, [])
        end
    end in
  match body with
  | (Raises e, logs) =>
      (Raises (FileNotFoundError ("Model path error: " +:+ exn_str e)),
       logs ++ [LogError ("Error resolving model path: " +:+ exn_str e)])
  | (Returns final_path, logs) => (Returns final_path, logs)
  end.

(** [get_detector(model_name)] on the module-level [detector_cache]:
    its outcome, the cache afterwards and the lines logged. *)
Definition get_detector (model_name : string)
    (detector_cache : gmap string Detector)
    : outcome Detector * gmap string Detector * list web_log :=
  let safe_name := secure_filename model_name in
  if negb (bool_decide (safe_name ∈ ALLOWED_MODELS)) then
    (Raises (ValueError ("Unsupported model: " +:+ safe_name)), detector_cache,
     [LogError ("Attempt to load unsupported model: " +:+ safe_name)])
  else
    match detector_cache !! safe_name with
    | Some d => (Returns d, detector_cache, [])
    | None =>
        match resolve_model_path safe_name with
        | (Raises e, logs) => (Raises e, detector_cache, logs)
        | (Returns final_path, logs) =>
            if negb (exists_path final_path) then
              (Raises (FileNotFoundError ("Model not found: " +:+ final_path)),
               detector_cache,
               logs ++ [LogError ("Model file not found: " +:+ final_path)])
            else
              match load_detector final_path with
              | Raises e => (Raises e, detector_cache, logs)
              | Returns d =>
                  (Returns d, <[safe_name := d]> detector_cache, logs)
              end
        end
    end.

(** [request.form.get('model', 'yolov12l-face.pt')] and the fallback
    that follows it in [detect_image]: the name handed to
    [get_detector]. *)
Definition selected_model (form_model : option string) : string * list web_log :=
  let model := default "yolov12l-face.pt" form_model in
  if negb (bool_decide (model ∈ ALLOWED_MODELS)) then
    ("yolov12l-face.pt",
     [LogInfo ("Invalid model '" +:+ model +:+ "' requested. Fallback to default.")])
  else (model, []).

(** [detect_image] from the model selection to [detector =
    get_detector(model)], for a request that passed the checks on the
    uploaded file. *)
Definition detect_image_detector (form_model : option string)
    (detector_cache : gmap string Detector)
    : outcome Detector * gmap string Detector * list web_log :=
  let '(model, logs) := selected_model form_model in
  let '(r, detector_cache', logs') := get_detector model detector_cache in
  (r, detector_cache', logs ++ logs').

End WebApp.

(** ** Measures used in the statements *)

(** The list a call returned ([[]] if it raised). *)
Definition returned (r : outcome (list detection) * list log_line) : list detection :=
  match fst r with
  | Returns ds => ds
  | Raises _ => []
  end.

(** The arithmetic relations between the fields of one record. *)
Definition consistent (d : detection) : Prop :=
  w d = x2 d - x1 d /\ h d = y2 d - y1 d /\
  cx d = (x1 d + x2 d) / 2 /\ cy d = (y1 d + y2 d) / 2.

(** A record whose coordinates are those of [r], each divided by
    [scale] and truncated: [int(x / scale)]. *)
Definition rescaled_from (scale : float) (r : raw_box) (d : detection) : Prop :=
  rescale scale (bx1 r) = Returns (x1 d) /\
  rescale scale (by1 r) = Returns (y1 d) /\
  rescale scale (bx2 r) = Returns (x2 d) /\
  rescale scale (by2 r) = Returns (y2 d) /\
  confidence d = bconf r.

(** A record whose coordinates are those of [r]. *)
Definition unchanged_from (r : raw_box) (d : detection) : Prop :=
  x1 d = bx1 r /\ y1 d = by1 r /\ x2 d = bx2 r /\ y2 d = by2 r /\
  confidence d = bconf r.

(** Whether a frame of width [width], wider than the cap, has its
    boxes rescaled: the quotient is a float below 1.0. *)
Definition rescales (max_width width : Z) : bool :=
  match f64_truediv max_width width with
  | Returns scale => f64_lt_one scale
  | Raises _ => false
  end.

(** Between two stores: only the array at [result] changed, and it
    did not disappear. *)
Definition frames (result : loc) (σ σ' : gmap loc image) : Prop :=
  (forall l, l <> result -> σ' !! l = σ !! l) /\
  (is_Some (σ !! result) -> is_Some (σ' !! result)).

(** The attributes that belong to neither rate block. *)
Definition same_settings (s s' : gui) : Prop :=
  conf_threshold s' = conf_threshold s /\ skip_frames s' = skip_frames s /\
  inference_width s' = inference_width s /\ cap s' = cap s /\
  running s' = running s.

(** The three attributes of the render-rate block. *)
Definition same_render_rate (s s' : gui) : Prop :=
  frame_count s' = frame_count s /\ fps s' = fps s /\ last_time s' = last_time s.

(** The three attributes of the detection-rate block. *)
Definition same_detection_rate (s s' : gui) : Prop :=
  detection_count s' = detection_count s /\
  detection_fps s' = detection_fps s /\
  last_detection_time s' = last_detection_time s.

(** What a rate block with counter [count], rate [rate] and window
    start [start] leaves in them on a tick whose clock readings are
    [t1], [t2], [t3]. *)
Definition window_step (count : Z) (rate start : Q) (t1 t2 t3 : Q)
    (count' : Z) (rate' start' : Q) : Prop :=
  ((t1 - start < 1)%Q /\
   rate' = rate /\ count' = count + 1 /\ start' = start)
  \/
  ((1 <= t1 - start)%Q /\ ~ (t2 - start == 0)%Q /\
   rate' = (inject_Z (count + 1) / (t2 - start))%Q /\
   count' = 0 /\ start' = t3).

(** A tick with a frame, whose render-rate window (opened at [L])
    stays open and whose clock does not run backwards. *)
Definition steady_tick (L : Q) (tk : tick) : Prop :=
  exists frame r1 r2 r3 d1 d2 d3,
    read tk = Some frame /\
    render_clock tk = (r1, r2, r3) /\ detection_clock tk = (d1, d2, d3) /\
    (r1 - L < 1)%Q /\ (r1 <= r2)%Q /\ (d1 <= d2)%Q.

(** Number of ticks on which the detector was invoked. *)
Definition invocations (outs : list shown) : Z :=
  Z.of_nat (length (filter (fun o => invoked o = true) outs)).

(** [ceil(K / N)] for positive [N]. *)
Definition ceil_div (K N : Z) : Z := (K + N - 1) / N.

Definition is_release (e : gui_event) : bool :=
  match e with CapRelease => true | _ => false end.

Definition is_destroy (e : gui_event) : bool :=
  match e with RootDestroy => true | _ => false end.

(** Number of calls of [release] on the capture. *)
Definition releases (evs : list gui_event) : nat :=
  length (filter (fun e => is_release e = true) evs).

(** Number of calls of [destroy] on the root window. *)
Definition destroys (evs : list gui_event) : nat :=
  length (filter (fun e => is_destroy e = true) evs).

(** ** Sample collaborators, for concrete runs *)

(** A network that finds one face, whatever the frame. *)
Definition one_face_yolo (img : image) (conf : Q) : outcome (list (list box)) :=
  Returns [[Returns (RawBox 100 100 200 200 (9 # 10))]].

(** A network whose call raises. *)
Definition failing_yolo (img : image) (conf : Q) : outcome (list (list box)) :=
  Raises (OtherError "RuntimeError").

(** A resize that refuses empty target sizes, as OpenCV does. *)
Definition sample_resize (img : image) (size : Z * Z) : outcome image :=
  if (fst size <=? 0) || (snd size <=? 0) then Raises (OtherError "cv2.error")
  else Returns {| height := snd size; width := fst size; pixels := [] |}.

Definition frame_1280 : image := {| height := 720; width := 1280; pixels := [] |}.
Definition frame_320 : image := {| height := 240; width := 320; pixels := [] |}.
Definition frame_empty : image := {| height := 0; width := 0; pixels := [] |}.

(** Drawing primitives that record their strokes in the pixel data. *)
Definition stroke_rectangle (img : image) (pt1 pt2 : Z * Z) (c : color)
    (thickness : Z) : outcome image :=
  Returns {| height := height img; width := width img;
             pixels := fst pt1 :: snd pt1 :: fst pt2 :: snd pt2 :: thickness
                         :: pixels img |}.

Definition stroke_putText (img : image) (text : string) (org : Z * Z)
    (scale : Q) (c : color) (thickness : Z) : outcome image :=
  Returns {| height := height img; width := width img;
             pixels := fst org :: snd org :: Z.of_nat (String.length text)
                         :: pixels img |}.

Definition fixed_getTextSize (text : string) (scale : Q) (thickness : Z)
    : (Z * Z) * Z :=
  ((14 * Z.of_nat (String.length text), 16), 6).

Definition fixed_percent (conf : Q) : string := "90.0%".

Definition one_frame_store : gmap loc image := {[ 0%nat := frame_320 ]}.

(** Three ticks half a second apart, each with a frame; every clock
    reading of a tick is the same. *)
Definition tick_at (t : Q) : tick :=
  {| read := Some frame_320;
     detection_clock := (t, t, t);
     render_clock := (t, t, t) |}.

Definition half_second_ticks : list tick :=
  [tick_at (1 # 2); tick_at 1; tick_at (3 # 2)].

(** [n] ticks at [1/n], [2/n], ..., [n/n] seconds. *)
Definition uniform_ticks (n : nat) : list tick :=
  map (fun i => tick_at (Z.of_nat (S i) # Pos.of_nat n)) (seq 0 n).

(** The session one tick after its start, with two frames per
    detection. *)
Definition after_first_tick : gui :=
  match update_frame one_face_yolo sample_resize
          (init_gui (1 # 2) 2 640 0) (tick_at (1 # 2)) with
  | Returns (s, _) => s
  | Raises _ => init_gui (1 # 2) 2 640 0
  end.

(** A session at a frame counter of 1 whose cache was never written. *)
Definition never_stored : gui := set_frame_count 1 (init_gui (1 # 2) 2 640 0).

(** [secure_filename] on file names written in ASCII, after werkzeug:
    bytes above 127 are dropped, [/] becomes a blank, the words are
    joined by [_], only letters, digits, [_], [.] and [-] are kept, and
    leading and trailing [.] and [_] are stripped. *)
Definition code_in (lo hi : N) (c : ascii) : bool :=
  (N.leb lo (N_of_ascii c)) && (N.leb (N_of_ascii c) hi).

Definition is_blank (c : ascii) : bool := code_in 9 13 c || code_in 28 32 c.

Definition kept_char (c : ascii) : bool :=
  code_in 48 57 c || code_in 65 90 c || code_in 97 122 c
  || code_in 95 95 c || code_in 46 46 c || code_in 45 45 c.

Definition dot_or_underscore (c : ascii) : bool :=
  code_in 46 46 c || code_in 95 95 c.

Fixpoint split_blanks (l cur : list ascii) : list (list ascii) :=
  match l with
  | [] => match cur with [] => [] | _ => [rev cur] end
  | c :: rest =>
      if is_blank c then
        match cur with
        | [] => split_blanks rest []
        | _ => rev cur :: split_blanks rest []
        end
      else split_blanks rest (c :: cur)
  end.

Fixpoint join_underscore (ws : list (list ascii)) : list ascii :=
  match ws with
  | [] => []
  | [w0] => w0
  | w0 :: rest => w0 ++ "_"%char :: join_underscore rest
  end.

Fixpoint drop_leading (f : ascii -> bool) (l : list ascii) : list ascii :=
  match l with
  | [] => []
  | c :: rest => if f c then drop_leading f rest else l
  end.

Definition secure_filename_ascii (filename : string) : string :=
  let l := List.filter (code_in 0 127) (list_ascii_of_string filename) in
  let l := map (fun c => if code_in 47 47 c then " "%char else c) l in
  let l := join_underscore (split_blanks l []) in
  let l := List.filter kept_char l in
  let l := rev (drop_leading dot_or_underscore
                  (rev (drop_leading dot_or_underscore l))) in
  string_of_list_ascii l.

(** A models folder in which every file exists and loads; a loaded
    detector is represented by the path it was loaded from. *)
Definition sample_models_dir : string := "/app/models".
Definition sample_path_join (d n : string) : string := d +:+ "/" +:+ n.
Definition sample_resolve (p : string) : outcome string := Returns p.
Definition sample_exists (p : string) : bool := true.
Definition sample_YOLO (p : string) : outcome string := Returns p.

(** ** Further measures on boxes and frames *)

(** The record built from a box that is not rescaled. *)
Definition detection_of_box (r : raw_box) : detection :=
  make_detection (bx1 r) (by1 r) (bx2 r) (by2 r) (bconf r).

(** Number of frames still to come before the next one whose
    [frame_count] is a multiple of [N]. *)
Definition frames_to_detect (fc N : Z) : Z := (- fc) mod N.

(** Events that leave the capture and the window alone. *)
Definition harmless (e : gui_event) : Prop :=
  is_release e = false /\ is_destroy e = false.

(** The state and the frames shown that a run ended with. *)
Definition state_of (r : outcome (gui * list shown)) (otherwise : gui) : gui :=
  match r with
  | Returns (s, _) => s
  | Raises _ => otherwise
  end.

Definition shown_of (r : outcome (gui * list shown)) : list shown :=
  match r with
  | Returns (_, outs) => outs
  | Raises _ => []
  end.

(** The run of three frames half a second apart, with three frames per
    detection. *)
Definition half_second_run : outcome (gui * list shown) :=
  run one_face_yolo sample_resize (init_gui (1 # 2) 3 640 0) half_second_ticks.

(** ** File names and the table of models of the web front end

    File names are strings of ASCII characters. *)

Definition ALLOWED_EXTENSIONS : gset string :=
  {[ "jpg"; "jpeg"; "png"; "gif"; "mp4"; "avi"; "mov"; "mkv" ]}.

(** The two literal sets of [is_image] and [is_video]. *)
Definition IMAGE_EXTENSIONS : gset string := {[ "jpg"; "jpeg"; "png"; "gif" ]}.
Definition VIDEO_EXTENSIONS : gset string := {[ "mp4"; "avi"; "mov"; "mkv" ]}.

(** [str.lower()] *)
Definition lower_char (c : ascii) : ascii :=
  if code_in 65 90 c then ascii_of_N (N_of_ascii c + 32) else c.

Definition lower (s : string) : string :=
  string_of_list_ascii (map lower_char (list_ascii_of_string s)).

Definition is_dot (c : ascii) : bool := code_in 46 46 c.

(** ['.' in filename] *)
Definition has_dot (filename : string) : bool :=
  existsb is_dot (list_ascii_of_string filename).

(** What follows the last ['.'], if there is one. *)
Fixpoint after_last_dot (l : list ascii) : option (list ascii) :=
  match l with
  | [] => None
  | c :: rest =>
      match after_last_dot rest with
      | Some e => Some e
      | None => if is_dot c then Some rest else None
      end
  end.

(** [filename.rsplit('.', 1)[1].lower()]: without a dot the list has
    one element and the index raises. *)
Definition extension (filename : string) : outcome string :=
  match after_last_dot (list_ascii_of_string filename) with
  | Some e => Returns (lower (string_of_list_ascii e))
  | None => Raises (OtherError "IndexError")
  end.

Definition allowed_file (filename : string) : outcome bool :=
  if has_dot filename then
    ext ← extension filename;
    Returns (bool_decide (ext ∈ ALLOWED_EXTENSIONS))
  else Returns false.

Definition is_image (filename : string) : outcome bool :=
  ext ← extension filename;
  Returns (bool_decide (ext ∈ IMAGE_EXTENSIONS)).

Definition is_video (filename : string) : outcome bool :=
  ext ← extension filename;
  Returns (bool_decide (ext ∈ VIDEO_EXTENSIONS)).

(** An entry of the dict [models] of [get_models]. *)
Record model_info : Type := ModelInfo {
  name : string;
  label : string;
  description : string;
  size : string
}.

Definition models : list (string * model_info) :=
  [ ("nano", ModelInfo "yolov12n-face.pt" "Nano (n) - Fastest"
               "Real-time speed, best for CPU/Webcam" "Smallest");
    ("small", ModelInfo "yolov12s-face.pt" "Small (s) - Balanced"
                "Good balance of speed and accuracy" "Small");
    ("medium", ModelInfo "yolov12m-face.pt" "Medium (m) - High Precision"
                 "High accuracy, requires decent GPU" "Medium");
    ("large", ModelInfo "yolov12l-face.pt" "Large (l) - Max Accuracy"
                "Best detection quality, slowest speed" "Large") ].

(** [d[k]] on a dict kept as the list of its items. *)
Fixpoint dict_get {V : Type} (d : list (string * V)) (k : string) : option V :=
  match d with
  | [] => None
  | (k', v) :: rest => if String.eqb k' k then Some v else dict_get rest k
  end.

Section Models.

Variable models_dir : string.
Variable path_join : string -> string -> string.
Variable exists_path : string -> bool.

(** The dict [sorted_available] of [get_models], as the list of its
    items in insertion order. *)
Definition sorted_available : list (string * model_info) :=
  let available :=
    List.filter (fun item => exists_path (path_join models_dir (name (snd item))))
                models in
  let order := ["nano"; "small"; "medium"; "large"] in
  omap (fun k => match dict_get available k with
                 | Some info => Some (k, info)
                 | None => None
                 end) order.

(** [get_models]: [jsonify(sorted_available)], a JSON object.  Its
    members are the items of the dict, in whatever order [jsonify]
    writes them (Flask sorts them by key). *)
Definition get_models : gmap string model_info := list_to_map sorted_available.

End Models.

(** ** Sizes asked of [cv2.resize] for display

    Each function gives [None] when the frame is shown as it is and
    the size [(width, height)] handed to [cv2.resize] otherwise. *)

(** The end of [update_frame], both variants: [display_w = 1000],
    [display_h = int(h * display_w / w)]. *)
Definition display_resize (h w : Z) : outcome (option (Z * Z)) :=
  let display_w := 1000 in
  if Z.ltb display_w w then
    q ← py_truediv (h * display_w) w;
    Returns (Some (display_w, py_int q))
  else Returns None.



Section DisplayImage.

(** [cv2.cvtColor(image, cv2.COLOR_BGR2RGB)] *)
Variable cv2_cvtColor : image -> outcome image.


End DisplayImage.


(** ** The route [/api/detect-image] *)

(** [needle in hay] on strings. *)
Fixpoint contains (needle hay : string) : bool :=
  String.prefix needle hay ||
  match hay with
  | EmptyString => false
  | String _ rest => contains needle rest
  end.

(** The uploaded file: its name and its bytes. *)
Record upload : Type := Upload {
  filename : string;
  data : list Z
}.

(** What the route reads of a request: [request.files.get('file')]
    and [request.form.get('model')]. *)
Record request : Type := Request {
  file : option upload;
  form_model : option string
}.

(** An item of [response['detections']['faces']]. *)
Record face : Type := Face {
  face_id : Z;
  face_confidence : string;
  face_width : Z;
  face_height : Z;
  face_position : string
}.

(** [jsonify({'error': msg}), status] or the [jsonify(response)] of a
    success: the image, [count] and [faces]. *)
Inductive response : Type :=
  | JsonError (msg : string) (status : Z)
  | JsonDetections (image_b64 : string) (count : nat) (faces : list face).

Section DetectImage.

Variable Detector : Type.
Variable secure_filename : string -> string.
Variable models_dir : string.
Variable path_join : string -> string -> string.
Variable resolve : string -> outcome string.
Variable exists_path : string -> bool.
Variable YOLO : string -> outcome Detector.

(** [detector.yolo] *)
Variable yolo_of : Detector -> image -> Q -> outcome (list (list box)).
Variable cv2_resize : image -> Z * Z -> outcome image.
Variable cv2_rectangle : image -> Z * Z -> Z * Z -> color -> Z -> outcome image.
Variable cv2_putText : image -> string -> Z * Z -> Q -> color -> Z -> outcome image.
Variable cv2_getTextSize : string -> Q -> Z -> (Z * Z) * Z.
Variable format_percent : Q -> string.

(** [cv2.imdecode] ([None] for bytes that are no image),
    [cv2.imencode('.jpg', ...)], [base64.b64encode(...).decode()],
    [f"{conf:.2%}"] and [f"({x1}, {y1})"]. *)
Variable imdecode : list Z -> option image.
Variable imencode : image -> outcome (list Z).
Variable b64encode : list Z -> string.
Variable format_percent2 : Q -> string.
Variable format_position : Z -> Z -> string.

(** The list comprehension over [enumerate(detections)], from index
    [i]. *)
Fixpoint faces_from (i : Z) (detections : list detection) : list face :=
  match detections with
  | [] => []
  | det :: rest =>
      {| face_id := i + 1;
         face_confidence := format_percent2 (confidence det);
         face_width := w det;
         face_height := h det;
         face_position := format_position (x1 det) (y1 det) |}
      :: faces_from (i + 1) rest
  end.

(** What the [except Exception] of the route answers. *)
Definition internal_error : response :=
  JsonError "Internal server error during image detection" 500.

(** From [image = cv2.imdecode(...)] to [return jsonify(response)],
    inside the [try]: the answer, or the exception that reaches the
    [except].  The lines that the detector prints are not part of the
    answer and are left out. *)
Definition process_image (detector : Detector) (f : upload) : outcome response :=
  match imdecode (data f) with
  | None =>
      (* the detection absorbs what it raises; [None.copy()] in
         [draw_faces] then raises *)
      Raises (OtherError "AttributeError")
  | Some img =>
      let is_webcam := contains "webcam" (lower (filename f)) in
      detections ←
        fst (if is_webcam
             then detect_faces_optimized (yolo_of detector) cv2_resize img
                    (35 # 100) 480
             else detect_faces (yolo_of detector) img (35 # 100));
      match draw_faces cv2_rectangle cv2_putText cv2_getTextSize format_percent
              {[ 0%nat := img ]} 0%nat detections (0, 255, 0) 2 true with
      | (Raises e, _) => Raises e
      | (Returns result, σ) =>
          match σ !! result with
          | None => Returns (JsonError "Failed to process image" 500)
          | Some result_image =>
              buffer ← imencode result_image;
              Returns (JsonDetections
                         ("data:image/jpeg;base64," +:+ b64encode buffer)
                         (length detections)
                         (faces_from 0 detections))
          end
      end
  end.

(** [not allowed_file(file.filename) or not is_image(file.filename)] *)
Definition upload_refused (f : upload) : outcome bool :=
  allowed ← allowed_file (filename f);
  if negb allowed then Returns true
  else (img ← is_image (filename f); Returns (negb img)).

(** [detect_image]: the answer, the cache of detectors afterwards and
    the lines logged. *)
Definition detect_image (req : request) (detector_cache : gmap string Detector)
    : response * gmap string Detector * list web_log :=
  match file req with
  | None => (JsonError "No file provided" 400, detector_cache, [])
  | Some f =>
      if String.eqb (filename f) "" then
        (JsonError "No file selected" 400, detector_cache, [])
      else
        match upload_refused f with
        | Raises e =>
            (internal_error, detector_cache,
             [LogError "Error during image detection"])
        | Returns true =>
            (JsonError "Only image files allowed" 400, detector_cache, [])
        | Returns false =>
            let '(model, logs) := selected_model (form_model req) in
            match get_detector Detector secure_filename models_dir path_join
                    resolve exists_path YOLO model detector_cache with
            | (Raises e, cache', logs') =>
                (internal_error, cache',
                 logs ++ logs' ++ [LogError "Error during image detection"])
            | (Returns detector, cache', logs') =>
                match process_image detector f with
                | Raises e =>
                    (internal_error, cache',
                     logs ++ logs' ++ [LogError "Error during image detection"])
                | Returns resp => (resp, cache', logs ++ logs')
                end
            end
        end
  end.

End DetectImage.

(** The status of an answer. *)
Definition status_of (r : response) : Z :=
  match r with
  | JsonError _ status => status
  | JsonDetections _ _ _ => 200
  end.

(** Codecs and formats for concrete requests: every upload decodes to
    a 320 by 240 frame. *)
Definition sample_imdecode (bytes : list Z) : option image := Some frame_320.
Definition sample_imencode (img : image) : outcome (list Z) := Returns (pixels img).
Definition sample_b64encode (bytes : list Z) : string := "AAAA".
Definition sample_format_position (a b : Z) : string := "(x, y)".

(** The route with the sample collaborators; a loaded detector is the
    path of its file and finds one face. *)
Definition sample_detect_image (req : request) (cache : gmap string string)
    : response * gmap string string * list web_log :=
  detect_image string secure_filename_ascii sample_models_dir sample_path_join
    sample_resolve sample_exists sample_YOLO (fun _ => one_face_yolo)
    sample_resize stroke_rectangle stroke_putText fixed_getTextSize
    fixed_percent sample_imdecode sample_imencode sample_b64encode
    fixed_percent sample_format_position req cache.

Definition webcam_request : request :=
  {| file := Some {| filename := "webcam_frame.jpg"; data := [255; 216; 255] |};
     form_model := Some "yolov12n-face.pt" |}.

Definition text_request : request :=
  {| file := Some {| filename := "notes.txt"; data := [104; 105] |};
     form_model := None |}.

(** ** Processing a video file *)

(** Calls made on the capture, on the writer and on standard output by
    [detect_from_video], in order. *)
Inductive video_event : Type :=
  | CaptureRelease
  | WriterWrite (result : image)
  | WriterRelease
  | VideoPrint (line : string).

(** [if output_path]: neither [None] nor the empty string. *)
Definition truthy (output_path : option string) : bool :=
  match output_path with
  | Some path => negb (String.eqb path "")
  | None => false
  end.

Section Video.

Variable Detector : Type.
Variable YOLO : string -> outcome Detector.
Variable yolo_of : Detector -> image -> Q -> outcome (list (list box)).
Variable cv2_rectangle : image -> Z * Z -> Z * Z -> color -> Z -> outcome image.
Variable cv2_putText : image -> string -> Z * Z -> Q -> color -> Z -> outcome image.
Variable cv2_getTextSize : string -> Q -> Z -> (Z * Z) * Z.
Variable format_percent : Q -> string.

(** [detections = detector.detect_faces(frame, conf_threshold)] and
    [result = detector.draw_faces(frame, detections)] on a frame just
    read: the contents of [result]. *)
Definition annotate (detector : Detector) (frame : image) (conf_threshold : Q)
    : outcome image :=
  detections ← fst (detect_faces (yolo_of detector) frame conf_threshold);
  match draw_faces cv2_rectangle cv2_putText cv2_getTextSize format_percent
          {[ 0%nat := frame ]} 0%nat detections (0, 255, 0) 2 true with
  | (Raises e, _) => Raises e
  | (Returns result, σ) =>
      match σ !! result with
      | Some img => Returns img
      | None => Raises (OtherError "AttributeError")
      end
  end.

(** The [while True] loop over the frames that [cap.read()] gives
    before its first failure: the exception that left it, if any, and
    the calls made. *)
Fixpoint video_loop (detector : Detector) (writer : bool)
    (frames : list image) (conf_threshold : Q)
    : option py_exn * list video_event :=
  match frames with
  | [] => (None, [])
  | frame :: rest =>
      match annotate detector frame conf_threshold with
      | Raises e => (Some e, [])
      | Returns result =>
          let '(r, evs) := video_loop detector writer rest conf_threshold in
          (r, (if writer then [WriterWrite result] else []) ++ evs)
      end
  end.

(** [detect_from_video], YOLOv12 variant.  [opened] is
    [cap.isOpened()]. *)
Definition detect_from_video (opened : bool) (frames : list image)
    (model_path : string) (output_path : option string) (conf_threshold : Q)
    : outcome unit * list video_event :=
  if negb opened then (Returns tt, [])
  else
    match load_detector Detector YOLO model_path with
    | Raises e => (Raises e, [])
    | Returns detector =>
        let writer := truthy output_path in
        match video_loop detector writer frames conf_threshold with
        | (Some e, evs) => (Raises e, evs)
        | (None, evs) =>
            (Returns tt,
             evs ++ [CaptureRelease]
                 ++ (if writer then [WriterRelease] else [])
                 ++ [VideoPrint "Video processing complete"])
        end
    end.

End Video.

(** The frames written, in order. *)
Definition written (evs : list video_event) : list image :=
  omap (fun e => match e with WriterWrite r => Some r | _ => None end) evs.

Definition no_release (e : video_event) : Prop :=
  e <> CaptureRelease /\ e <> WriterRelease.

(** ** The menu of the YOLOv12 script *)

(** [str.strip()] on ASCII text. *)
Definition strip (s : string) : string :=
  string_of_list_ascii
    (rev (drop_leading is_blank
            (rev (drop_leading is_blank (list_ascii_of_string s))))).

(** The dict [mapping] of [select_model_level]. *)
Definition mapping : list (string * string) :=
  [ ("1", "yolov12n-face.pt"); ("2", "yolov12s-face.pt");
    ("3", "yolov12m-face.pt"); ("4", "yolov12l-face.pt") ].

(** What [select_model_level] prints: the menu, and one line for each
    answer it turns down. *)
Inductive menu_line : Type :=
  | MenuHeader
  | FileNotFound (model_name : string)
  | InvalidChoice.

(** The answer read from a line of input: stripped, the empty answer
    standing for "2". *)
Definition answer (line : string) : string :=
  if String.eqb (strip line) "" then "2" else strip line.

Section Menu.

Variable script_dir : string.
Variable path_join : string -> string -> string.
Variable exists_path : string -> bool.

(** The [while True] loop of [select_model_level] over the lines that
    [input] returns: the path returned (or [EOFError] when the lines
    run out), the lines not read, and what was printed. *)
Fixpoint select_loop (inputs : list string)
    : outcome string * list string * list menu_line :=
  match inputs with
  | [] => (Raises (OtherError "EOFError"), [], [])
  | line :: rest =>
      let choice := strip line in
      let choice := if String.eqb choice "" then "2" else choice in
      match dict_get mapping choice with
      | Some model_name =>
          let model_path := path_join script_dir model_name in
          if exists_path model_path then (Returns model_path, rest, [])
          else
            let '(r, rest', out) := select_loop rest in
            (r, rest', FileNotFound model_name :: out)
      | None =>
          let '(r, rest', out) := select_loop rest in
          (r, rest', InvalidChoice :: out)
      end
  end.

Definition select_model_level (inputs : list string)
    : outcome string * list string * list menu_line :=
  let '(r, rest, out) := select_loop inputs in
  (r, rest, MenuHeader :: out).

End Menu.

(** A line that the menu turned down, with the message printed for
    it: its answer is no key of [mapping], or names a model whose file
    is not in the script's folder. *)
Definition turned_down_with (script_dir : string)
    (path_join : string -> string -> string) (exists_path : string -> bool)
    (line : string) (printed : menu_line) : Prop :=
  match dict_get mapping (answer line) with
  | Some model_name =>
      exists_path (path_join script_dir model_name) = false /\
      printed = FileNotFound model_name
  | None => printed = InvalidChoice
  end.

(** [is_heavy] and [skip] of the webcam task in
    [choose_and_process_file]. *)
Definition webcam_skip (model_path : string) : Z :=
  let is_heavy := contains "l-face" model_path || contains "m-face" model_path in
  if is_heavy then 3 else 1.

(** A models folder that holds the large model only. *)
Definition only_large (p : string) : bool := String.eqb p "/app/models/yolov12l-face.pt".

(** * Properties *)

(** ** Arithmetic of the number model *)

Lemma py_int_Qeq (p q : Q) : (p == q)%Q -> py_int p = py_int q.
Proof.
  unfold Qeq, py_int. destruct p as [n1 d1], q as [n2 d2]; simpl. intros E.
  rewrite <- (Z.quot_mul_cancel_r n1 (Z.pos d1) (Z.pos d2)) by lia.
  rewrite <- (Z.quot_mul_cancel_r n2 (Z.pos d2) (Z.pos d1)) by lia.
  rewrite E. f_equal. lia.
Qed.


Lemma py_int_ratio (a b : Z) :
  b <> 0 -> py_int (inject_Z a / inject_Z b) = Z.quot a b.
Proof.
  intros Hb. unfold py_int, Qdiv, Qmult, Qinv, inject_Z; simpl.
  destruct b as [|b|b]; [lia| |]; simpl; rewrite Pos.mul_1_l.
  - rewrite Z.mul_1_r. reflexivity.
  - change (Z.neg b) with (- Z.pos b).
    rewrite Z.quot_opp_r by lia.
    replace (a * -1) with (- a) by lia.
    rewrite Z.quot_opp_l by lia. reflexivity.
Qed.

(** ** The detector wrappers *)

Section DetectorFacts.

Variable yolo : image -> Q -> outcome (list (list box)).
Variable cv2_resize : image -> Z * Z -> outcome image.

(** Where the records of the list come from: each was already there
    or was made by the body from a box that could be read. *)
Lemma boxes_loop_from body boxes acc :
  Forall (fun d => d ∈ acc \/ exists r, Returns r ∈ boxes /\ body r = Returns d)
         (fst (boxes_loop body boxes acc)).
Proof.
  revert acc. induction boxes as [|b rest IH]; intros acc; simpl.
  - apply Forall_forall. auto.
  - destruct b as [r|e]; simpl.
    + destruct (body r) as [d|e] eqn:Eb.
      * eapply Forall_impl; [apply IH|]. simpl. intros d' [Hin|(r' & Hin & Hr')].
        -- apply elem_of_app in Hin as [Hin|Hin]; [auto|].
           apply list_elem_of_singleton in Hin as ->.
           right. exists r. split; [left|assumption].
        -- right. exists r'. split; [right|]; assumption.
      * apply Forall_forall. auto.
    + apply Forall_forall. auto.
Qed.

Lemma results_loop_from body results acc :
  Forall (fun d => d ∈ acc \/
                   exists r, Returns r ∈ concat results /\ body r = Returns d)
         (fst (results_loop body results acc)).
Proof.
  revert acc. induction results as [|result rest IH]; intros acc; simpl.
  - apply Forall_forall. auto.
  - pose proof (boxes_loop_from body result acc) as Hb.
    destruct (boxes_loop body result acc) as [acc' [e|]]; simpl in *.
    + eapply Forall_impl; [exact Hb|]. simpl. intros d [Hin|(r & Hin & Hr)]; [auto|].
      right. exists r. split; [|assumption]. apply elem_of_app. auto.
    + rewrite Forall_forall in Hb.
      eapply Forall_impl; [apply IH|]. simpl. intros d [Hin|(r & Hin & Hr)].
      * destruct (Hb d Hin) as [?|(r & Hin' & Hr)]; [auto|].
        right. exists r. split; [|assumption]. apply elem_of_app. auto.
      * right. exists r. split; [|assumption]. apply elem_of_app. auto.
Qed.

Lemma results_loop_made body results :
  Forall (fun d => exists r, Returns r ∈ concat results /\ body r = Returns d)
         (fst (results_loop body results [])).
Proof.
  eapply Forall_impl; [apply results_loop_from|]. simpl.
  intros d [Hin|H]; [|exact H]. inversion Hin.
Qed.

Lemma returned_finish r : returned (finish r) = fst r.
Proof. destruct r as [ds [e|]]; reflexivity. Qed.

Lemma finish_returns r : fst (finish r) = Returns (fst r).
Proof. destruct r as [ds [e|]]; reflexivity. Qed.

Lemma make_detection_consistent a1 b1 a2 b2 c :
  consistent (make_detection a1 b1 a2 b2 c).
Proof. repeat split. Qed.

Lemma plain_body_spec r d :
  plain_body r = Returns d -> unchanged_from r d /\ consistent d.
Proof.
  unfold plain_body. intros [= <-].
  split; [repeat split | apply make_detection_consistent].
Qed.

Lemma scaled_body_spec scale r d :
  scaled_body scale r = Returns d ->
  consistent d /\
  (if f64_lt_one scale then rescaled_from scale r d else unchanged_from r d).
Proof.
  unfold scaled_body, rescaled_from. destruct (f64_lt_one scale).
  - destruct (rescale scale (bx1 r)) as [a1|e]; simpl; [|discriminate].
    destruct (rescale scale (by1 r)) as [b1|e]; simpl; [|discriminate].
    destruct (rescale scale (bx2 r)) as [a2|e]; simpl; [|discriminate].
    destruct (rescale scale (by2 r)) as [b2|e]; simpl; [|discriminate].
    intros [= <-]. split; [apply make_detection_consistent | repeat split].
  - intros [= <-]. split; [apply make_detection_consistent | repeat split].
Qed.

(** The detections of [detect_faces] are made by [plain_body] from
    the boxes of the network's results on the frame itself. *)
Lemma detect_faces_made img conf :
  Forall (fun d => exists results r,
              yolo img conf = Returns results /\
              Returns r ∈ concat results /\ plain_body r = Returns d)
         (returned (detect_faces yolo img conf)).
Proof.
  unfold detect_faces. destruct (yolo img conf) as [results|e] eqn:Ey.
  - rewrite returned_finish.
    eapply Forall_impl; [apply results_loop_made|]. simpl.
    intros d (r & Hin & Hr). eauto.
  - constructor.
Qed.

(** The detections of [detect_faces_optimized] are made by
    [scaled_body] from the boxes of the results on the frame that
    [inference_input] chose. *)
Lemma detect_faces_optimized_made img conf max_width :
  Forall (fun d => exists scale inference_image results r,
              inference_input cv2_resize img max_width
                = Returns (scale, inference_image) /\
              yolo inference_image conf = Returns results /\
              Returns r ∈ concat results /\ scaled_body scale r = Returns d)
         (returned (detect_faces_optimized yolo cv2_resize img conf max_width)).
Proof.
  unfold detect_faces_optimized.
  destruct (inference_input cv2_resize img max_width) as [[scale inf]|e];
    [|constructor].
  destruct (yolo inf conf) as [results|e] eqn:Ey; [|constructor].
  rewrite returned_finish.
  eapply Forall_impl; [apply results_loop_made|]. simpl.
  intros d (r & Hin & Hr). exists scale, inf, results, r. auto.
Qed.

(** Neither wrapper lets an exception out. *)
Lemma detect_faces_returns img conf :
  exists ds, fst (detect_faces yolo img conf) = Returns ds.
Proof.
  unfold detect_faces. destruct (yolo img conf); rewrite finish_returns; eauto.
Qed.

Lemma detect_faces_optimized_returns img conf max_width :
  exists ds, fst (detect_faces_optimized yolo cv2_resize img conf max_width)
             = Returns ds.
Proof.
  unfold detect_faces_optimized.
  destruct (inference_input cv2_resize img max_width) as [[scale inf]|e];
    [|rewrite finish_returns; eauto].
  destruct (yolo inf conf); rewrite finish_returns; eauto.
Qed.

(** Without a resize the optimized path is the standard one. *)
Lemma scaled_body_one : scaled_body 1%float = plain_body.
Proof. reflexivity. Qed.

Lemma detect_faces_optimized_small img conf max_width :
  width img <= max_width ->
  inference_input cv2_resize img max_width = Returns (1%float, img) /\
  detect_faces_optimized yolo cv2_resize img conf max_width
    = detect_faces yolo img conf.
Proof.
  intros Hw. unfold detect_faces_optimized, detect_faces, inference_input.
  destruct (Z.ltb_spec max_width (width img)); [lia|].
  split; [reflexivity|].
  destruct (yolo img conf); [rewrite scaled_body_one|]; reflexivity.
Qed.

(** With a resize, the scale is the quotient of the cap by the width
    and the frame given to the network is the one [cv2.resize] made
    for the cap and the truncated product of the height by the
    scale. *)
Lemma inference_input_large img max_width scale inference_image :
  max_width < width img ->
  inference_input cv2_resize img max_width = Returns (scale, inference_image) ->
  f64_truediv max_width (width img) = Returns scale /\
  exists scaled new_height,
    f64_mul_int (height img) scale = Returns scaled /\
    f64_int scaled = Returns new_height /\
    cv2_resize img (max_width, new_height) = Returns inference_image.
Proof.
  intros Hw. unfold inference_input.
  destruct (Z.ltb_spec max_width (width img)); [|lia].
  destruct (f64_truediv max_width (width img)) as [sc|e]; simpl; [|discriminate].
  destruct (f64_mul_int (height img) sc) as [scaled|e] eqn:Em; simpl;
    [|discriminate].
  destruct (f64_int scaled) as [new_height|e] eqn:Ei; simpl; [|discriminate].
  destruct (cv2_resize img (max_width, new_height)) as [inf|e] eqn:Er; simpl;
    [|discriminate].
  intros [= <- <-]. split; [reflexivity|]. exists scaled, new_height. auto.
Qed.

(** The records of the optimized path come from the boxes the network
    found on the frame that [inference_input] chose, rescaled when the
    scale is below 1 and as they are otherwise. *)
Lemma detect_faces_optimized_from img conf max_width scale inference_image :
  inference_input cv2_resize img max_width = Returns (scale, inference_image) ->
  Forall (fun d => exists results r,
              yolo inference_image conf = Returns results /\
              Returns r ∈ concat results /\
              (if f64_lt_one scale then rescaled_from scale r d
               else unchanged_from r d))
         (returned (detect_faces_optimized yolo cv2_resize img conf max_width)).
Proof.
  intros Hi.
  eapply Forall_impl; [apply detect_faces_optimized_made|]. simpl.
  intros d (scale' & inf & results & r & Hi' & Hy & Hin & Hb).
  rewrite Hi in Hi'. injection Hi' as <- <-.
  exists results, r. split; [exact Hy|]. split; [exact Hin|].
  apply scaled_body_spec in Hb. tauto.
Qed.

(** The test [scale < 1.0] checked on every width of a range. *)
Lemma rescales_checked (M lo n W : Z) :
  forallb (rescales M) (seqZ lo n) = true ->
  lo <= W < lo + n -> rescales M W = true.
Proof.
  intros Hall HW. rewrite forallb_forall in Hall. apply Hall.
  apply list_elem_of_In, elem_of_seqZ. exact HW.
Qed.

End DetectorFacts.

(** C2: for a frame of width [W] and a cap [M], when [W > M] the
    scale is the float [M / W], and every record that
    [detect_faces_optimized] returns is made from a box that the
    network found on the resized frame: when the scale is below 1.0
    (the test the code makes; it holds for the caps 480 and 640 that
    the callers pass and every width up to 8192) each coordinate is
    [int(x / scale)], the coordinate of that box divided by the scale
    and truncated toward zero.  When [W <= M] the scale is exactly 1.0,
    the network is given the frame itself and the coordinates are those
    of its boxes.  At [W = 1280], [M = 640] the scale is 0.5 and the
    box (100,100,200,200) comes out as (200,200,400,400). *)
Theorem optimized_detection_scaling
    (yolo : image -> Q -> outcome (list (list box)))
    (cv2_resize : image -> Z * Z -> outcome image)
    (img : image) (conf : Q) (max_width : Z) :
  (max_width < width img ->
   forall scale inference_image,
     inference_input cv2_resize img max_width
       = Returns (scale, inference_image) ->
     f64_truediv max_width (width img) = Returns scale /\
     (f64_lt_one scale = true ->
      Forall (fun d => exists results r,
                  yolo inference_image conf = Returns results /\
                  Returns r ∈ concat results /\
                  rescaled_from scale r d)
             (returned (detect_faces_optimized yolo cv2_resize img conf
                          max_width))) /\
     (f64_lt_one scale = false ->
      Forall (fun d => exists results r,
                  yolo inference_image conf = Returns results /\
                  Returns r ∈ concat results /\
                  unchanged_from r d)
             (returned (detect_faces_optimized yolo cv2_resize img conf
                          max_width))))
  /\
  (width img <= max_width ->
   inference_input cv2_resize img max_width = Returns (1%float, img) /\
   Forall (fun d => exists results r,
               yolo img conf = Returns results /\
               Returns r ∈ concat results /\
               unchanged_from r d)
          (returned (detect_faces_optimized yolo cv2_resize img conf max_width)))
  /\
  (forall W, 480 < W <= 8192 -> rescales 480 W = true) /\
  (forall W, 640 < W <= 8192 -> rescales 640 W = true) /\
  inference_input sample_resize frame_1280 640
    = Returns (0.5%float, {| height := 360; width := 640; pixels := [] |}) /\
  detect_faces_optimized one_face_yolo sample_resize frame_1280 (1 # 2) 640
    = (Returns [make_detection 200 200 400 400 (9 # 10)], []).
Proof.
  split; [|split; [|split; [|split; [|split]]]].
  - intros HM scale inf Hi.
    destruct (inference_input_large _ _ _ _ _ HM Hi) as (Hs & _).
    split; [exact Hs|].
    pose proof (detect_faces_optimized_from yolo cv2_resize img conf max_width
                  scale inf Hi) as Hfrom.
    split; intros Hlt; rewrite Hlt in Hfrom; exact Hfrom.
  - intros HM.
    destruct (detect_faces_optimized_small yolo cv2_resize img conf _ HM) as [Hi ->].
    split; [exact Hi|].
    eapply Forall_impl; [apply detect_faces_made|]. simpl.
    intros d (results & r & Hy & Hin & Hb).
    exists results, r. apply plain_body_spec in Hb. tauto.
  - intros W HW. apply (rescales_checked 480 481 7712); [|lia].
    vm_compute. reflexivity.
  - intros W HW. apply (rescales_checked 640 641 7552); [|lia].
    vm_compute. reflexivity.
  - vm_compute. reflexivity.
  - vm_compute. reflexivity.
Qed.

Lemma optimized_detection_scaling_witness :
  Forall (fun d => exists results r,
              one_face_yolo {| height := 360; width := 640; pixels := [] |} (1 # 2)
                = Returns results /\
              Returns r ∈ concat results /\
              rescaled_from 0.5%float r d)
         (returned (detect_faces_optimized one_face_yolo sample_resize
                      frame_1280 (1 # 2) 640)) /\
  Forall (fun d => exists results r,
              one_face_yolo frame_320 (1 # 2) = Returns results /\
              Returns r ∈ concat results /\
              unchanged_from r d)
         (returned (detect_faces_optimized one_face_yolo sample_resize
                      frame_320 (1 # 2) 640)).
Proof.
  split.
  - apply (proj1 (optimized_detection_scaling one_face_yolo sample_resize
                    frame_1280 (1 # 2) 640)
             ltac:(simpl; lia) 0.5%float
             {| height := 360; width := 640; pixels := [] |} eq_refl).
    reflexivity.
  - apply (proj1 (proj2 (optimized_detection_scaling one_face_yolo sample_resize
                           frame_320 (1 # 2) 640))).
    simpl. lia.
Defined.

(** C3: in every record returned by [detect_faces] and by
    [detect_faces_optimized] (whose coordinates may have been
    rescaled), [w = x2 - x1], [h = y2 - y1], [cx = (x1 + x2) // 2] and
    [cy = (y1 + y2) // 2] hold of the coordinates stored in the same
    record. *)
Theorem derived_fields_consistent
    (yolo : image -> Q -> outcome (list (list box)))
    (cv2_resize : image -> Z * Z -> outcome image)
    (img : image) (conf : Q) (max_width : Z) :
  Forall consistent (returned (detect_faces yolo img conf)) /\
  Forall consistent
    (returned (detect_faces_optimized yolo cv2_resize img conf max_width)).
Proof.
  split.
  - eapply Forall_impl; [apply detect_faces_made|]. simpl.
    intros d (results & r & _ & _ & Hb). apply plain_body_spec in Hb. tauto.
  - eapply Forall_impl; [apply detect_faces_optimized_made|]. simpl.
    intros d (scale & inf & results & r & _ & _ & _ & Hb).
    apply scaled_body_spec in Hb. tauto.
Qed.

(** C6: when the call of the network raises, [detect_faces] and
    [detect_faces_optimized] return the empty list and print one
    diagnostic line; whatever happens inside, neither lets an
    exception out. *)
Theorem detector_failure_absorbed
    (yolo : image -> Q -> outcome (list (list box)))
    (cv2_resize : image -> Z * Z -> outcome image)
    (img : image) (conf : Q) (max_width : Z) (e : py_exn) :
  (yolo img conf = Raises e ->
   detect_faces yolo img conf = (Returns [], [DetectionError e])) /\
  (forall scale inference_image,
      inference_input cv2_resize img max_width
        = Returns (scale, inference_image) ->
      yolo inference_image conf = Raises e ->
      detect_faces_optimized yolo cv2_resize img conf max_width
        = (Returns [], [DetectionError e])) /\
  (exists ds, fst (detect_faces yolo img conf) = Returns ds) /\
  (exists ds, fst (detect_faces_optimized yolo cv2_resize img conf max_width)
              = Returns ds).
Proof.
  split; [|split; [|split]].
  - intros Hy. unfold detect_faces. rewrite Hy. reflexivity.
  - intros scale inf Hi Hy. unfold detect_faces_optimized.
    rewrite Hi, Hy. reflexivity.
  - apply detect_faces_returns.
  - apply detect_faces_optimized_returns.
Qed.

Lemma detector_failure_absorbed_witness :
  detect_faces failing_yolo frame_320 (1 # 2)
    = (Returns [], [DetectionError (OtherError "RuntimeError")]) /\
  detect_faces_optimized failing_yolo sample_resize frame_1280 (1 # 2) 640
    = (Returns [], [DetectionError (OtherError "RuntimeError")]).
Proof.
  split.
  - apply (detector_failure_absorbed failing_yolo sample_resize
             frame_320 (1 # 2) 640 (OtherError "RuntimeError")).
    reflexivity.
  - eapply (detector_failure_absorbed failing_yolo sample_resize
              frame_1280 (1 # 2) 640 (OtherError "RuntimeError"));
      reflexivity.
Defined.

(** C7 fails as stated: a frame of width 0 is not rejected.  The call
    returns, and returns the face the network found on that frame. *)
Lemma empty_frame_not_rejected :
  width frame_empty <= 0 /\
  detect_faces_optimized one_face_yolo sample_resize frame_empty (1 # 2) 640
    = (Returns [make_detection 100 100 200 200 (9 # 10)], []) /\
  ~ (exists e, fst (detect_faces_optimized one_face_yolo sample_resize
                      frame_empty (1 # 2) 640) = Raises e).
Proof.
  split; [simpl; lia|]. split; [reflexivity|].
  intros [e He]. discriminate He.
Qed.

(** C7 as the code has it: [detect_faces_optimized] raises for no
    frame; a frame of width [<= 0] under a cap [>= 0] takes the branch
    without resize, with scale 1, and is handed to the network as it
    is, so that the call gives what [detect_faces] gives on it. *)
Theorem nonpositive_width_not_rejected
    (yolo : image -> Q -> outcome (list (list box)))
    (cv2_resize : image -> Z * Z -> outcome image)
    (img : image) (conf : Q) (max_width : Z) :
  width img <= 0 -> 0 <= max_width ->
  inference_input cv2_resize img max_width = Returns (1%float, img) /\
  detect_faces_optimized yolo cv2_resize img conf max_width
    = detect_faces yolo img conf /\
  exists ds, fst (detect_faces_optimized yolo cv2_resize img conf max_width)
             = Returns ds.
Proof.
  intros HW HM.
  destruct (detect_faces_optimized_small yolo cv2_resize img conf max_width)
    as [Hi He]; [lia|].
  split; [exact Hi|]. split; [exact He|].
  apply detect_faces_optimized_returns.
Qed.

Lemma nonpositive_width_not_rejected_witness :
  detect_faces_optimized one_face_yolo sample_resize frame_empty (1 # 2) 640
    = detect_faces one_face_yolo frame_empty (1 # 2).
Proof.
  apply (nonpositive_width_not_rejected one_face_yolo sample_resize
           frame_empty (1 # 2) 640); simpl; lia.
Defined.

(** ** Drawing never writes into the frame it is given *)

Section DrawingFacts.

Variable cv2_rectangle : image -> Z * Z -> Z * Z -> color -> Z -> outcome image.
Variable cv2_putText : image -> string -> Z * Z -> Q -> color -> Z -> outcome image.
Variable cv2_getTextSize : string -> Q -> Z -> (Z * Z) * Z.
Variable format_percent : Q -> string.

Lemma frames_refl result σ : frames result σ σ.
Proof. split; auto. Qed.

Lemma frames_trans result σ1 σ2 σ3 :
  frames result σ1 σ2 -> frames result σ2 σ3 -> frames result σ1 σ3.
Proof.
  intros [H1 K1] [H2 K2]. split.
  - intros l Hl. rewrite H2, H1; auto.
  - auto.
Qed.

Lemma draw_on_frames σ result f : frames result σ (snd (draw_on σ result f)).
Proof.
  unfold draw_on. destruct (σ !! result) as [img|] eqn:E; simpl.
  - destruct (f img) as [img'|e]; simpl.
    + split.
      * intros l Hl. apply lookup_insert_ne. auto.
      * intros _. rewrite lookup_insert_eq. eauto.
    + apply frames_refl.
  - apply frames_refl.
Qed.

Lemma draw_one_frames result c th show det σ :
  frames result σ
    (snd (draw_one cv2_rectangle cv2_putText cv2_getTextSize format_percent
            result c th show det σ)).
Proof.
  unfold draw_one.
  match goal with |- context [draw_on σ result ?f] =>
    pose proof (draw_on_frames σ result f) as H1;
    destruct (draw_on σ result f) as [[e|] σ1] end; simpl in *; [exact H1|].
  destruct show; [|exact H1].
  match goal with |- context [draw_on σ1 result ?f] =>
    pose proof (draw_on_frames σ1 result f) as H2;
    destruct (draw_on σ1 result f) as [[e|] σ2] end; simpl in *.
  - eapply frames_trans; eassumption.
  - eapply frames_trans; [exact H1|].
    eapply frames_trans; [exact H2|]. apply draw_on_frames.
Qed.

Lemma draw_all_frames result c th show dets σ :
  frames result σ
    (snd (draw_all cv2_rectangle cv2_putText cv2_getTextSize format_percent
            result c th show dets σ)).
Proof.
  revert σ. induction dets as [|det rest IH]; intros σ; simpl.
  - apply frames_refl.
  - pose proof (draw_one_frames result c th show det σ) as H1.
    destruct (draw_one _ _ _ _ result c th show det σ) as [[e|] σ1]; simpl in *.
    + exact H1.
    + eapply frames_trans; [exact H1|]. apply IH.
Qed.

(** When the drawing calls do not raise, none of the loops does. *)
Lemma draw_on_total σ result f :
  is_Some (σ !! result) -> (forall im, exists im', f im = Returns im') ->
  fst (draw_on σ result f) = None.
Proof.
  intros [im Him] Hf. unfold draw_on. rewrite Him.
  destruct (Hf im) as [im' ->]. reflexivity.
Qed.

Lemma draw_one_total result c th show det σ :
  is_Some (σ !! result) ->
  (forall im p1 p2 c0 t, exists im', cv2_rectangle im p1 p2 c0 t = Returns im') ->
  (forall im tx o sc c0 t, exists im', cv2_putText im tx o sc c0 t = Returns im') ->
  fst (draw_one cv2_rectangle cv2_putText cv2_getTextSize format_percent
         result c th show det σ) = None.
Proof.
  intros Hs Hrect Hput. unfold draw_one.
  match goal with |- context [draw_on σ result ?f] =>
    pose proof (draw_on_frames σ result f) as [_ H1];
    pose proof (draw_on_total σ result f Hs ltac:(intros; apply Hrect)) as T1;
    destruct (draw_on σ result f) as [o1 σ1] end.
  simpl in *. subst o1. destruct show; [|reflexivity].
  match goal with |- context [draw_on σ1 result ?f] =>
    pose proof (draw_on_frames σ1 result f) as [_ H2];
    pose proof (draw_on_total σ1 result f (H1 Hs) ltac:(intros; apply Hrect)) as T2;
    destruct (draw_on σ1 result f) as [o2 σ2] end.
  simpl in *. subst o2.
  apply draw_on_total; [auto|]. intros; apply Hput.
Qed.

Lemma draw_all_total result c th show dets σ :
  is_Some (σ !! result) ->
  (forall im p1 p2 c0 t, exists im', cv2_rectangle im p1 p2 c0 t = Returns im') ->
  (forall im tx o sc c0 t, exists im', cv2_putText im tx o sc c0 t = Returns im') ->
  fst (draw_all cv2_rectangle cv2_putText cv2_getTextSize format_percent
         result c th show dets σ) = None.
Proof.
  intros Hs Hrect Hput. revert σ Hs.
  induction dets as [|det rest IH]; intros σ Hs; simpl; [reflexivity|].
  pose proof (draw_one_frames result c th show det σ) as [_ H1].
  pose proof (draw_one_total result c th show det σ Hs Hrect Hput) as T1.
  destruct (draw_one _ _ _ _ result c th show det σ) as [o1 σ1].
  simpl in *. subst o1. apply IH. auto.
Qed.

End DrawingFacts.

(** C8: [draw_faces] returns a newly allocated frame and leaves the
    frame it was given, and every other frame that existed, as it was:
    for a store in which [img] holds [i], the store after the call
    still holds [i] at [img], whatever the detections and also when a
    drawing call raises, and the location returned is different from
    [img] and was not allocated before.  When the OpenCV calls do not
    raise, a frame is returned. *)
Theorem draw_faces_preserves_input
    (cv2_rectangle : image -> Z * Z -> Z * Z -> color -> Z -> outcome image)
    (cv2_putText : image -> string -> Z * Z -> Q -> color -> Z -> outcome image)
    (cv2_getTextSize : string -> Q -> Z -> (Z * Z) * Z)
    (format_percent : Q -> string)
    (σ : gmap loc image) (img : loc) (i : image)
    (detections : list detection) (c : color) (thickness : Z)
    (show_confidence : bool) :
  σ !! img = Some i ->
  let r := draw_faces cv2_rectangle cv2_putText cv2_getTextSize format_percent
             σ img detections c thickness show_confidence in
  snd r !! img = Some i /\
  (forall l v, σ !! l = Some v -> snd r !! l = Some v) /\
  (forall result, fst r = Returns result ->
     result <> img /\ σ !! result = None /\ is_Some (snd r !! result)) /\
  ((forall im p1 p2 c0 t, exists im', cv2_rectangle im p1 p2 c0 t = Returns im') ->
   (forall im tx o sc c0 t, exists im', cv2_putText im tx o sc c0 t = Returns im') ->
   exists result, fst r = Returns result).
Proof.
  intros Hi. unfold draw_faces, copy. rewrite Hi.
  set (result := fresh (dom σ)).
  assert (σ !! result = None) as Hfresh.
  { apply not_elem_of_dom. apply is_fresh. }
  assert (result <> img) as Hne by congruence.
  pose proof (draw_all_frames cv2_rectangle cv2_putText cv2_getTextSize
                format_percent result c thickness show_confidence detections
                (<[result := i]> σ)) as [Hother Hsome].
  assert (forall l v, σ !! l = Some v ->
            snd (draw_all cv2_rectangle cv2_putText cv2_getTextSize
                   format_percent result c thickness show_confidence detections
                   (<[result := i]> σ)) !! l = Some v) as Hkeep.
  { intros l v Hl. rewrite Hother by congruence.
    rewrite lookup_insert_ne by congruence. exact Hl. }
  pose proof (draw_all_total cv2_rectangle cv2_putText cv2_getTextSize
                format_percent result c thickness show_confidence detections
                (<[result := i]> σ)) as Htotal.
  rewrite lookup_insert_eq in Htotal.
  destruct (draw_all _ _ _ _ result c thickness show_confidence detections _)
    as [[e|] σ']; simpl in *.
  - split; [auto|]. split; [auto|]. split; [discriminate|].
    intros Hrect Hput. discriminate (Htotal ltac:(eauto) Hrect Hput).
  - split; [auto|]. split; [auto|]. split; [|eauto].
    intros ? [= <-]. split; [assumption|]. split; [assumption|].
    apply Hsome. rewrite lookup_insert_eq. eauto.
Qed.

Lemma draw_faces_preserves_input_witness :
  snd (draw_faces stroke_rectangle stroke_putText fixed_getTextSize fixed_percent
         one_frame_store 0%nat [make_detection 100 100 200 200 (9 # 10)]
         (0, 255, 0) 2 true) !! 0%nat = Some frame_320.
Proof.
  refine (proj1 (draw_faces_preserves_input stroke_rectangle stroke_putText
                   fixed_getTextSize fixed_percent one_frame_store 0%nat
                   frame_320 _ _ _ _ _)).
  reflexivity.
Defined.

(** ** Stopping the session *)

Lemma releases_app (a b : list gui_event) :
  releases (a ++ b) = (releases a + releases b)%nat.
Proof. unfold releases. rewrite filter_app, length_app. reflexivity. Qed.

Lemma on_quit_events (s : gui) :
  events (on_quit s) =
  events s ++ match cap s with Some _ => [CapRelease] | None => [] end
           ++ [RootQuit; RootDestroy].
Proof.
  unfold on_quit. destruct s as [? ? ? [c|] ? ? ? ? ? ? ? ? evs]; simpl.
  - rewrite <- !app_assoc. reflexivity.
  - rewrite <- !app_assoc. reflexivity.
Qed.

Lemma on_quit_cap (s : gui) : cap (on_quit s) = cap s.
Proof. unfold on_quit. destruct s as [? ? ? [c|] ? ? ? ? ? ? ? ? evs]; reflexivity. Qed.

Lemma on_quit_running (s : gui) : running (on_quit s) = false.
Proof. unfold on_quit. destruct s as [? ? ? [c|] ? ? ? ? ? ? ? ? evs]; reflexivity. Qed.

(** C9 fails as stated: stopping a running session twice calls
    [release] on the capture twice (and [destroy] on the window
    twice). *)
Lemma stop_twice_releases_twice :
  releases (events (on_quit (on_quit (init_gui (1 # 2) 2 640 0)))) = 2%nat /\
  releases (events (on_quit (on_quit (init_gui (1 # 2) 2 640 0)))) <> 1%nat /\
  destroys (events (on_quit (on_quit (init_gui (1 # 2) 2 640 0)))) = 2%nat.
Proof. split; [reflexivity|]. split; [discriminate|reflexivity]. Qed.

(** C9 as the code has it: [on_quit] has no guard of its own.  Each
    invocation on a session with a capture clears [running], calls
    [release] once, then [quit] and [destroy] on the window, and keeps
    the capture in [cap]; so one invocation releases once, two
    invocations release twice.  After it, [update_frame] does nothing
    and does not re-arm the timer. *)
Theorem on_quit_releases_per_call
    (yolo : image -> Q -> outcome (list (list box)))
    (cv2_resize : image -> Z * Z -> outcome image)
    (s : gui) (c : Z) (tk : tick) :
  cap s = Some c ->
  running (on_quit s) = false /\
  cap (on_quit s) = Some c /\
  events (on_quit s) = events s ++ [CapRelease; RootQuit; RootDestroy] /\
  releases (events (on_quit s)) = S (releases (events s)) /\
  releases (events (on_quit (on_quit s))) = S (S (releases (events s))) /\
  update_frame yolo cv2_resize (on_quit s) tk = Returns (on_quit s, None).
Proof.
  intros Hc.
  assert (events (on_quit s) = events s ++ [CapRelease; RootQuit; RootDestroy]) as He.
  { rewrite on_quit_events, Hc. reflexivity. }
  assert (releases (events (on_quit s)) = S (releases (events s))) as Hr.
  { rewrite He, releases_app.
    change (releases [CapRelease; RootQuit; RootDestroy]) with 1%nat. lia. }
  split; [apply on_quit_running|].
  split; [rewrite on_quit_cap; exact Hc|].
  split; [exact He|]. split; [exact Hr|]. split.
  - rewrite on_quit_events, on_quit_cap, Hc, !releases_app, Hr.
    change (releases [CapRelease]) with 1%nat.
    change (releases [RootQuit; RootDestroy]) with 0%nat. lia.
  - unfold update_frame. rewrite on_quit_running. reflexivity.
Qed.

Lemma on_quit_releases_per_call_witness :
  releases (events (on_quit (init_gui (1 # 2) 2 640 0))) = 1%nat /\
  update_frame one_face_yolo sample_resize
    (on_quit (init_gui (1 # 2) 2 640 0)) (tick_at 1)
    = Returns (on_quit (init_gui (1 # 2) 2 640 0), None).
Proof.
  destruct (on_quit_releases_per_call one_face_yolo sample_resize
              (init_gui (1 # 2) 2 640 0) 0 (tick_at 1) eq_refl)
    as (_ & _ & _ & Hr & _ & Hu).
  split; [exact Hr | exact Hu].
Defined.

(** ** The webcam loop *)

Lemma ge_one_true (q : Q) : ge_one q = true <-> (1 <= q)%Q.
Proof. apply Qle_bool_iff. Qed.

Lemma ge_one_false (q : Q) : ge_one q = false <-> (q < 1)%Q.
Proof.
  unfold ge_one. split.
  - intros E. apply Qnot_le_lt. intros H. apply Qle_bool_iff in H. congruence.
  - intros H. destruct (Qle_bool 1 q) eqn:E; [|reflexivity].
    apply Qle_bool_iff in E. exfalso. exact (Qle_not_lt _ _ E H).
Qed.

Lemma py_div_float_returns (a : Z) (f q : Q) :
  py_div_float a f = Returns q -> q = (inject_Z a / f)%Q /\ ~ (f == 0)%Q.
Proof.
  unfold py_div_float. destruct (Qeq_bool f 0) eqn:E; [discriminate|].
  intros [= <-]. split; [reflexivity|].
  intros H. apply Qeq_bool_iff in H. congruence.
Qed.

Lemma py_div_float_ok (a : Z) (f : Q) :
  ~ (f == 0)%Q -> py_div_float a f = Returns (inject_Z a / f)%Q.
Proof.
  intros H. unfold py_div_float. destruct (Qeq_bool f 0) eqn:E; [|reflexivity].
  apply Qeq_bool_iff in E. contradiction.
Qed.

Lemma ceil_div_step (c N : Z) :
  0 < N ->
  ceil_div (c + 1) N - ceil_div c N = if Z.eqb (c mod N) 0 then 1 else 0.
Proof.
  intros HN. unfold ceil_div.
  pose proof (Z.div_mod c N ltac:(lia)) as Hdm.
  pose proof (Z.mod_pos_bound c N HN) as Hb.
  replace (c + 1 + N - 1) with (c + 1 * N) by lia.
  rewrite Z.div_add by lia.
  destruct (Z.eqb_spec (c mod N) 0) as [E|E].
  - assert (c / N = (c + N - 1) / N) as <-; [|lia].
    apply (Z.div_unique _ _ _ (N - 1)); lia.
  - assert (c / N + 1 = (c + N - 1) / N) as <-; [|lia].
    apply (Z.div_unique _ _ _ (c mod N - 1)); lia.
Qed.

Lemma ceil_div_0 (N : Z) : 0 < N -> ceil_div 0 N = 0.
Proof. intros HN. unfold ceil_div. apply Z.div_small. lia. Qed.

Lemma invocations_cons (o : shown) (outs : list shown) :
  invocations (o :: outs) = (if invoked o then 1 else 0) + invocations outs.
Proof.
  unfold invocations. rewrite filter_cons.
  destruct (decide (invoked o = true)) as [E|E].
  - rewrite E. simpl length. lia.
  - destruct (invoked o); [congruence|]. lia.
Qed.

Section LoopFacts.

Variable yolo : image -> Q -> outcome (list (list box)).
Variable cv2_resize : image -> Z * Z -> outcome image.

(** The render-rate block assigns [frame_count], [fps] and
    [last_time] and nothing else. *)
Lemma render_meter_spec r1 r2 r3 s s' :
  render_meter (r1, r2, r3) s = Returns s' ->
  same_settings s s' /\ same_detection_rate s s' /\
  current_detections s' = current_detections s /\ events s' = events s /\
  window_step (frame_count s) (fps s) (last_time s) r1 r2 r3
              (frame_count s') (fps s') (last_time s').
Proof.
  unfold render_meter. cbn [last_time set_frame_count frame_count].
  destruct (ge_one (r1 - last_time s)) eqn:E.
  - apply ge_one_true in E.
    destruct (py_div_float (frame_count s + 1) (r2 - last_time s)) as [q|e] eqn:Ed;
      simpl; [|discriminate].
    apply py_div_float_returns in Ed as [-> Hnz].
    intros [= <-]. unfold same_settings, same_detection_rate, window_step. simpl.
    repeat split; try reflexivity. right. auto.
  - apply ge_one_false in E. intros [= <-].
    unfold same_settings, same_detection_rate, window_step. simpl.
    repeat split; try reflexivity. left. auto.
Qed.

(** The detect branch stores the list it got, and of the numbers it
    assigns [detection_count], [detection_fps] and
    [last_detection_time] only. *)
Lemma detect_branch_spec frame d1 d2 d3 s ds s' :
  detect_branch yolo cv2_resize frame (d1, d2, d3) s = Returns (ds, s') ->
  ds = returned (detect_faces_optimized yolo cv2_resize frame (conf_threshold s)
                   (inference_width s)) /\
  current_detections s' = Some ds /\
  same_settings s s' /\ same_render_rate s s' /\
  window_step (detection_count s) (detection_fps s) (last_detection_time s)
              d1 d2 d3
              (detection_count s') (detection_fps s') (last_detection_time s').
Proof.
  unfold detect_branch, returned.
  destruct (detect_faces_optimized yolo cv2_resize frame (conf_threshold s)
              (inference_width s)) as [[ds0|e] printed]; simpl; [|discriminate].
  destruct (ge_one (d1 - last_detection_time s)) eqn:E.
  - apply ge_one_true in E.
    destruct (py_div_float (detection_count s + 1) (d2 - last_detection_time s))
      as [q|e] eqn:Ed; simpl; [|discriminate].
    apply py_div_float_returns in Ed as [-> Hnz].
    intros [= <- <-]. unfold same_settings, same_render_rate, window_step. simpl.
    repeat split; try reflexivity. right. auto.
  - apply ge_one_false in E. intros [= <- <-].
    unfold same_settings, same_render_rate, window_step. simpl.
    repeat split; try reflexivity. left. auto.
Qed.

(** What a tick that reached the end went through. *)
Lemma update_frame_shown s tk s' out :
  update_frame yolo cv2_resize s tk = Returns (s', Some out) ->
  running s = true /\
  exists frame m s1 s2,
    read tk = Some frame /\
    py_mod (frame_count s) (skip_frames s) = Returns m /\
    invoked out = Z.eqb m 0 /\
    (if Z.eqb m 0
     then detect_branch yolo cv2_resize frame (detection_clock tk)
            (emit [CapRead] s) = Returns (drawn out, s1)
     else s1 = emit [CapRead] s /\ drawn out = cached s) /\
    render_meter (render_clock tk) s1 = Returns s2 /\
    s' = emit [RootAfter] s2.
Proof.
  unfold update_frame. destruct (running s); simpl; [|discriminate].
  destruct (read tk) as [frame|]; [|discriminate].
  cbn [frame_count skip_frames emit].
  destruct (py_mod (frame_count s) (skip_frames s)) as [m|e]; simpl; [|discriminate].
  intros H. split; [reflexivity|]. exists frame, m.
  destruct (Z.eqb m 0).
  - destruct (detect_branch yolo cv2_resize frame (detection_clock tk)
                (emit [CapRead] s)) as [[ds s1]|e]; simpl in H; [|discriminate].
    destruct (render_meter (render_clock tk) s1) as [s2|e] eqn:Er;
      simpl in H; [|discriminate].
    injection H as <- <-. exists s1, s2. simpl. repeat split; auto.
  - simpl in H.
    destruct (render_meter (render_clock tk) (emit [CapRead] s)) as [s2|e] eqn:Er;
      simpl in H; [|discriminate].
    injection H as <- <-. exists (emit [CapRead] s), s2. simpl.
    repeat split; auto.
Qed.

(** What a tick that reached the end did to the state: the render
    block stepped its three attributes; the detection block stepped
    its own on a detect frame and was not run on a skip frame; the
    cache was written on a detect frame and read on a skip frame. *)
Lemma update_frame_effect s tk s' out r1 r2 r3 d1 d2 d3 :
  update_frame yolo cv2_resize s tk = Returns (s', Some out) ->
  render_clock tk = (r1, r2, r3) -> detection_clock tk = (d1, d2, d3) ->
  same_settings s s' /\
  invoked out = Z.eqb (frame_count s mod skip_frames s) 0 /\
  window_step (frame_count s) (fps s) (last_time s) r1 r2 r3
              (frame_count s') (fps s') (last_time s') /\
  (invoked out = true ->
   window_step (detection_count s) (detection_fps s) (last_detection_time s)
               d1 d2 d3
               (detection_count s') (detection_fps s') (last_detection_time s') /\
   current_detections s' = Some (drawn out) /\
   exists frame,
     read tk = Some frame /\
     drawn out = returned (detect_faces_optimized yolo cv2_resize frame
                             (conf_threshold s) (inference_width s))) /\
  (invoked out = false ->
   same_detection_rate s s' /\
   current_detections s' = current_detections s /\
   drawn out = cached s).
Proof.
  intros Hu Hr Hd.
  apply update_frame_shown in Hu
    as (Hrun & frame & m & s1 & s2 & Hread & Hm & Hinv & Hbr & Hrm & ->).
  rewrite Hr in Hrm. apply render_meter_spec in Hrm
    as ((c1 & c2 & c3 & c4 & c5) & (e1 & e2 & e3) & Hcur & Hev & Hw).
  assert (m = frame_count s mod skip_frames s) as Em.
  { revert Hm. unfold py_mod. destruct (Z.eqb (skip_frames s) 0); congruence. }
  rewrite Hinv, <- Em. cbn [frame_count fps last_time detection_count
    detection_fps last_detection_time current_detections emit
    conf_threshold skip_frames inference_width cap running].
  unfold same_settings.
  cbn [frame_count fps last_time detection_count
    detection_fps last_detection_time current_detections emit
    conf_threshold skip_frames inference_width cap running].
  destruct (Z.eqb m 0).
  - rewrite Hd in Hbr. apply detect_branch_spec in Hbr
      as (Hds & Hcd & (a1 & a2 & a3 & a4 & a5) & (b1 & b2 & b3) & Hdw).
    simpl in *.
    rewrite c1, c2, c3, c4, c5, a1, a2, a3, a4, a5.
    rewrite b1, b2, b3 in Hw. rewrite e1, e2, e3, Hcur.
    split; [auto|]. split; [reflexivity|]. split; [exact Hw|].
    split; [|discriminate].
    intros _. split; [exact Hdw|]. split; [exact Hcd|].
    exists frame. auto.
  - destruct Hbr as [-> Hdr]. simpl in *.
    rewrite c1, c2, c3, c4, c5.
    split; [auto|]. split; [reflexivity|]. split; [exact Hw|].
    split; [discriminate|].
    intros _. unfold same_detection_rate. auto.
Qed.

(** With a clock that does not run backwards between two readings of
    a block, neither rate block divides by zero. *)
Lemma render_meter_total r1 r2 r3 s :
  (r1 <= r2)%Q -> exists s', render_meter (r1, r2, r3) s = Returns s'.
Proof.
  intros Hm. unfold render_meter. cbn [last_time set_frame_count frame_count].
  destruct (ge_one (r1 - last_time s)) eqn:E; [|eauto].
  apply ge_one_true in E. rewrite py_div_float_ok; [simpl; eauto|].
  intros H0. lra.
Qed.

Lemma detect_branch_total frame d1 d2 d3 s :
  (d1 <= d2)%Q ->
  exists ds s', detect_branch yolo cv2_resize frame (d1, d2, d3) s = Returns (ds, s').
Proof.
  intros Hm. unfold detect_branch.
  destruct (detect_faces_optimized_returns yolo cv2_resize frame
              (conf_threshold s) (inference_width s)) as [ds Hds].
  destruct (detect_faces_optimized yolo cv2_resize frame (conf_threshold s)
              (inference_width s)) as [r printed]. simpl in Hds. subst r. simpl.
  destruct (ge_one (d1 - last_detection_time s)) eqn:E; [|eauto].
  apply ge_one_true in E. rewrite py_div_float_ok; [simpl; eauto|].
  intros H0. lra.
Qed.

#[local] Arguments detect_branch : simpl never.
#[local] Arguments render_meter : simpl never.

Lemma run_cons s tk rest s1 o :
  update_frame yolo cv2_resize s tk = Returns (s1, Some o) ->
  run yolo cv2_resize s (tk :: rest)
  = match run yolo cv2_resize s1 rest with
    | Returns (s2, outs) => Returns (s2, o :: outs)
    | Raises e => Raises e
    end.
Proof. intros Hu. simpl. rewrite Hu. simpl. destruct (run _ _ s1 rest) as [[? ?]|]; reflexivity. Qed.

Lemma run_cons_inv s tk rest s' outs :
  run yolo cv2_resize s (tk :: rest) = Returns (s', outs) ->
  length outs = S (length rest) ->
  exists s1 o outs',
    update_frame yolo cv2_resize s tk = Returns (s1, Some o) /\
    run yolo cv2_resize s1 rest = Returns (s', outs') /\
    outs = o :: outs'.
Proof.
  simpl. destruct (update_frame yolo cv2_resize s tk) as [[s1 [o|]]|e]; simpl.
  - destruct (run yolo cv2_resize s1 rest) as [[s2 outs']|e] eqn:Hrest; simpl;
      [|discriminate].
    intros [= <- <-] _. exists s1, o, outs'. auto.
  - intros [= <- <-]. discriminate.
  - discriminate.
Qed.

(** While the render-rate window stays open, [frame_count] is the
    index of the frame: in a run that showed every frame the detector
    ran on the indices that are multiples of [skip_frames], and the
    number of its runs over [K] frames is the difference of two
    ceilings. *)
Lemma run_steady ticks : forall s N s' outs,
  skip_frames s = N -> 0 < N ->
  Forall (steady_tick (last_time s)) ticks ->
  run yolo cv2_resize s ticks = Returns (s', outs) ->
  length outs = length ticks ->
  invocations outs
    = ceil_div (frame_count s + Z.of_nat (length ticks)) N
      - ceil_div (frame_count s) N /\
  (forall (i : nat) o, outs !! i = Some o ->
     invoked o = Z.eqb ((frame_count s + Z.of_nat i) mod N) 0).
Proof.
  induction ticks as [|tk rest IH]; intros s N s' outs Hskip HN Hst Hrun Hlen.
  - simpl in Hrun. injection Hrun as <- <-.
    split; [rewrite Z.add_0_r; unfold invocations; simpl; lia|].
    intros i o Hi. destruct i; discriminate Hi.
  - apply Forall_cons in Hst as [Htk Hrest].
    destruct Htk as (frame & r1 & r2 & r3 & d1 & d2 & d3 &
                     Hread & Hr & Hd & Hopen & Hrm & Hdm).
    simpl in Hlen.
    destruct (run_cons_inv s tk rest s' outs Hrun Hlen)
      as (s1 & o & outs' & Hu & Hrun1 & ->).
    destruct (update_frame_effect s tk s1 o r1 r2 r3 d1 d2 d3 Hu Hr Hd)
      as ((_ & Hsk & _ & _ & Hrn) & Hinv & Hw & _).
    destruct Hw as [(_ & _ & Hfc & HL) | (Hclose & _)]; [|lra].
    destruct (IH s1 N s' outs') as (Hcount & Hidx).
    { congruence. } { assumption. } { rewrite HL. exact Hrest. }
    { exact Hrun1. } { simpl in Hlen. lia. }
    split.
    + rewrite invocations_cons, Hcount, Hinv, Hskip, Hfc.
      pose proof (ceil_div_step (frame_count s) N HN) as Hstep.
      replace (frame_count s + Z.of_nat (length (tk :: rest)))
        with (frame_count s + 1 + Z.of_nat (length rest))
        by (simpl length; lia).
      lia.
    + intros [|i] o' Hi; simpl in Hi.
      * injection Hi as <-. rewrite Hinv, Hskip, Z.add_0_r. reflexivity.
      * rewrite (Hidx i o' Hi), Hfc. f_equal. f_equal. lia.
Qed.

(** The YOLOv8 variant is the YOLOv12 one with every clock reading of
    a block equal. *)
Lemma update_frame_v8_as_v12 s tk :
  update_frame_v8 yolo cv2_resize s tk
  = update_frame yolo cv2_resize s (tick_of_v8 tk).
Proof. reflexivity. Qed.

End LoopFacts.

(** Within one render-rate window that starts with [frame_count = 0],
    a run that showed each of its [K] frames ran the detector exactly
    [ceil(K / N)] times, on the frames whose index is a multiple of
    [N]. *)
Lemma steady_run_cadence
    (yolo : image -> Q -> outcome (list (list box)))
    (cv2_resize : image -> Z * Z -> outcome image)
    (s : gui) (ticks : list tick) (s' : gui) (outs : list shown) :
  0 < skip_frames s -> frame_count s = 0 ->
  Forall (steady_tick (last_time s)) ticks ->
  run yolo cv2_resize s ticks = Returns (s', outs) ->
  length outs = length ticks ->
  invocations outs = ceil_div (Z.of_nat (length ticks)) (skip_frames s) /\
  (forall (i : nat) o, outs !! i = Some o ->
     invoked o = Z.eqb (Z.of_nat i mod skip_frames s) 0).
Proof.
  intros HN Hfc Hst Hrun Hlen.
  destruct (run_steady yolo cv2_resize ticks s (skip_frames s) s' outs
              eq_refl HN Hst Hrun Hlen) as (Hcount & Hidx).
  rewrite Hfc, ceil_div_0 in Hcount by assumption.
  split.
  - rewrite Hcount, Z.add_0_l. lia.
  - intros i o Hi. rewrite (Hidx i o Hi), Hfc. reflexivity.
Qed.

(** C1, evaluated where it fails: with [skip_frames = 3] and three
    frames half a second apart, the render-rate block resets
    [frame_count] on the second frame, so the detector runs on the
    first and on the third frame: two runs where [ceil(3 / 3)] is
    one, the second of them on index 2. *)
Theorem skip_cadence_restarts_on_rate_reset :
  exists s' outs,
    run one_face_yolo sample_resize (init_gui (1 # 2) 3 640 0) half_second_ticks
      = Returns (s', outs) /\
    map invoked outs = [true; false; true] /\
    invocations outs = 2 /\
    ceil_div 3 3 = 1 /\
    2 mod 3 <> 0.
Proof.
  eexists _, _. split; [vm_compute; reflexivity|].
  split; [reflexivity|]. split; [reflexivity|]. split; [reflexivity|].
  discriminate.
Qed.

(** C4: on a tick that returns after showing a frame, each of the two
    rate blocks has stepped its own counter, rate and window start and
    no other attribute.  While less than a second has elapsed since
    the window opened the rate keeps its last value and the counter
    grows by one; once a second or more has elapsed the rate becomes
    counter over elapsed time (positive when the clock does not run
    backwards), the counter returns to zero and the window reopens at
    the current time.  The detection block is not run on a skip
    frame.  With a clock that does not run backwards neither block
    divides by zero.  Thirty frames spread evenly over one second
    report a rate of 30.  The YOLOv8 variant is the same function with
    a single clock reading per block. *)
Theorem rate_meters_windowed
    (yolo : image -> Q -> outcome (list (list box)))
    (cv2_resize : image -> Z * Z -> outcome image)
    (s : gui) (tk : tick) (s' : gui) (out : shown)
    (r1 r2 r3 d1 d2 d3 : Q) :
  update_frame yolo cv2_resize s tk = Returns (s', Some out) ->
  render_clock tk = (r1, r2, r3) -> detection_clock tk = (d1, d2, d3) ->
  (same_settings s s' /\
   ((r1 - last_time s < 1)%Q ->
    fps s' = fps s /\ frame_count s' = frame_count s + 1 /\
    last_time s' = last_time s) /\
   ((1 <= r1 - last_time s)%Q ->
    fps s' = (inject_Z (frame_count s + 1) / (r2 - last_time s))%Q /\
    frame_count s' = 0 /\ last_time s' = r3 /\
    ((r1 <= r2)%Q -> 0 <= frame_count s -> (0 < fps s')%Q)) /\
   (invoked out = false -> same_detection_rate s s') /\
   (invoked out = true -> (d1 - last_detection_time s < 1)%Q ->
    detection_fps s' = detection_fps s /\
    detection_count s' = detection_count s + 1 /\
    last_detection_time s' = last_detection_time s) /\
   (invoked out = true -> (1 <= d1 - last_detection_time s)%Q ->
    detection_fps s'
      = (inject_Z (detection_count s + 1) / (d2 - last_detection_time s))%Q /\
    detection_count s' = 0 /\ last_detection_time s' = d3))
  /\
  ((r1 <= r2)%Q ->
   forall s0, exists s1, render_meter (r1, r2, r3) s0 = Returns s1) /\
  ((d1 <= d2)%Q ->
   forall frame s0, exists ds s1,
     detect_branch yolo cv2_resize frame (d1, d2, d3) s0 = Returns (ds, s1))
  /\
  (exists s30 outs,
     run one_face_yolo sample_resize (init_gui (1 # 2) 1 640 0) (uniform_ticks 30)
       = Returns (s30, outs) /\
     length outs = 30%nat /\
     (fps s30 == 30)%Q /\ (detection_fps s30 == 30)%Q /\
     frame_count s30 = 0 /\ detection_count s30 = 0 /\ (last_time s30 == 1)%Q)
  /\
  (forall tk8 : tick_v8,
     update_frame_v8 yolo cv2_resize s tk8
     = update_frame yolo cv2_resize s (tick_of_v8 tk8)).
Proof.
  intros Hu Hr Hd. split; [|split; [|split; [|split]]].
  - destruct (update_frame_effect yolo cv2_resize s tk s' out r1 r2 r3 d1 d2 d3
                Hu Hr Hd) as (Hset & _ & Hw & Hdet & Hskp).
    split; [exact Hset|].
    split; [|split; [|split; [|split]]].
    + intros Hopen. destruct Hw as [(_ & H)|(Hc & _)]; [exact H|lra].
    + intros Hclose.
      destruct Hw as [(Ho & _)|(_ & Hnz & Hf & Hc & Hl)]; [lra|].
      split; [exact Hf|]. split; [exact Hc|]. split; [exact Hl|].
      intros Hrm Hpos. rewrite Hf. apply Qlt_shift_div_l; [lra|].
      rewrite Qmult_0_l. change 0%Q with (inject_Z 0). rewrite <- Zlt_Qlt.
      lia.
    + intros Hi. apply Hskp in Hi. tauto.
    + intros Hi Hopen. apply Hdet in Hi as (Hdw & _).
      destruct Hdw as [(_ & H)|(Hc & _)]; [exact H|lra].
    + intros Hi Hclose. apply Hdet in Hi as (Hdw & _).
      destruct Hdw as [(Ho & _)|(_ & _ & H)]; [lra|exact H].
  - intros Hrm s0. apply render_meter_total. exact Hrm.
  - intros Hdm frame s0. apply detect_branch_total. exact Hdm.
  - eexists _, _. split; [vm_compute; reflexivity|].
    repeat split; vm_compute; reflexivity.
  - intros tk8. apply update_frame_v8_as_v12.
Qed.

Lemma rate_meters_windowed_witness :
  exists s' out,
    update_frame one_face_yolo sample_resize (init_gui (1 # 2) 2 640 0)
      (tick_at (1 # 2)) = Returns (s', Some out) /\
    fps s' = 0%Q /\ frame_count s' = 1 /\ last_time s' = 0%Q.
Proof.
  eexists _, _. split; [vm_compute; reflexivity|].
  pose proof (rate_meters_windowed one_face_yolo sample_resize
                (init_gui (1 # 2) 2 640 0) (tick_at (1 # 2)) _ _
                (1 # 2) (1 # 2) (1 # 2) (1 # 2) (1 # 2) (1 # 2)
                eq_refl eq_refl eq_refl)
    as ((_ & Hopen & _) & _).
  apply Hopen. reflexivity.
Defined.

(** C5: [current_detections] starts as [None], and reading the cache
    gives the empty list when nothing was ever stored.  A tick that
    returns after showing a skip frame (frame index not a multiple of
    [skip_frames]) did not run the detector, left the cache as it was
    and drew the empty list when nothing was ever stored and the
    stored list otherwise.  A detect frame stores the list it
    draws. *)
Theorem skip_frame_reads_cache
    (yolo : image -> Q -> outcome (list (list box)))
    (cv2_resize : image -> Z * Z -> outcome image)
    (s : gui) (tk : tick) (s' : gui) (out : shown)
    (conf : Q) (skip inference : Z) (now : Q) :
  update_frame yolo cv2_resize s tk = Returns (s', Some out) ->
  frame_count s mod skip_frames s <> 0 ->
  (current_detections (init_gui conf skip inference now) = None /\
   cached (init_gui conf skip inference now) = []) /\
  (invoked out = false /\
   drawn out = cached s /\
   current_detections s' = current_detections s /\
   (current_detections s = None -> drawn out = []) /\
   (forall ds, current_detections s = Some ds -> drawn out = ds)) /\
  (forall s0 tk0 s1 out0,
     update_frame yolo cv2_resize s0 tk0 = Returns (s1, Some out0) ->
     invoked out0 = true ->
     current_detections s1 = Some (drawn out0) /\ cached s1 = drawn out0).
Proof.
  intros Hu Hmod. split; [split; reflexivity|]. split.
  - destruct (render_clock tk) as [[r1 r2] r3] eqn:Hr.
    destruct (detection_clock tk) as [[d1 d2] d3] eqn:Hd.
    destruct (update_frame_effect yolo cv2_resize s tk s' out r1 r2 r3 d1 d2 d3
                Hu Hr Hd) as (_ & Hinv & _ & _ & Hskp).
    assert (invoked out = false) as Hfalse.
    { rewrite Hinv. apply Z.eqb_neq. exact Hmod. }
    destruct (Hskp Hfalse) as (_ & Hcur & Hdrawn).
    split; [exact Hfalse|]. split; [exact Hdrawn|]. split; [exact Hcur|].
    rewrite Hdrawn. unfold cached. split.
    + intros ->. reflexivity.
    + intros ds ->. destruct ds; reflexivity.
  - intros s0 tk0 s1 out0 Hu0 Hinv.
    destruct (render_clock tk0) as [[a1 a2] a3] eqn:Ha.
    destruct (detection_clock tk0) as [[b1 b2] b3] eqn:Hb.
    destruct (update_frame_effect yolo cv2_resize s0 tk0 s1 out0 _ _ _ _ _ _
                Hu0 Ha Hb) as (_ & _ & _ & Hdet & _).
    destruct (Hdet Hinv) as (_ & Hcur & _).
    split; [exact Hcur|]. unfold cached. rewrite Hcur.
    destruct (drawn out0); reflexivity.
Qed.

Lemma skip_frame_reads_cache_witness :
  (current_detections never_stored = None /\
   exists s' out,
     update_frame one_face_yolo sample_resize never_stored (tick_at (1 # 2))
       = Returns (s', Some out) /\
     invoked out = false /\ drawn out = []) /\
  (current_detections after_first_tick
     = Some [make_detection 100 100 200 200 (9 # 10)] /\
   exists s' out,
     update_frame one_face_yolo sample_resize after_first_tick (tick_at 1)
       = Returns (s', Some out) /\
     invoked out = false /\
     drawn out = [make_detection 100 100 200 200 (9 # 10)]).
Proof.
  split; (split; [reflexivity|]); eexists _, _;
    (split; [vm_compute; reflexivity|]).
  - pose proof (skip_frame_reads_cache one_face_yolo sample_resize
                  never_stored (tick_at (1 # 2)) _ _ (1 # 2) 2 640 0
                  eq_refl ltac:(discriminate))
      as (_ & (Hinv & _ & _ & Hnone & _) & _).
    split; [exact Hinv|]. apply Hnone. reflexivity.
  - pose proof (skip_frame_reads_cache one_face_yolo sample_resize
                  after_first_tick (tick_at 1) _ _ (1 # 2) 2 640 0
                  eq_refl ltac:(discriminate))
      as (_ & (Hinv & _ & _ & _ & Hsome) & _).
    split; [exact Hinv|]. apply Hsome. reflexivity.
Defined.

(** ** Model selection of the web front end *)

Section WebFacts.

Variable Detector : Type.
Variable secure_filename : string -> string.
Variable models_dir : string.
Variable path_join : string -> string -> string.
Variable resolve : string -> outcome string.
Variable exists_path : string -> bool.
Variable YOLO : string -> outcome Detector.

(** The [except] of the path check lets out [FileNotFoundError] only. *)
Lemma resolve_model_path_raises safe_name e :
  fst (resolve_model_path models_dir path_join resolve safe_name) = Raises e ->
  exists msg, e = FileNotFoundError msg.
Proof.
  unfold resolve_model_path.
  destruct (resolve (path_join models_dir safe_name)) as [final_path|e1]; simpl.
  - destruct (resolve models_dir) as [safe_root|e2]; simpl.
    + destruct (negb (String.prefix safe_root final_path)); simpl.
      * intros [= <-]. eauto.
      * discriminate.
    + intros [= <-]. eauto.
  - intros [= <-]. eauto.
Qed.

(** The constructor of the detector lets out [ImportError] or
    [Exception]. *)
Lemma load_detector_raises path e :
  load_detector Detector YOLO path = Raises e ->
  (exists msg, e = ImportError msg) \/ (exists msg, e = PlainException msg).
Proof.
  unfold load_detector. destruct (YOLO path) as [d|e0]; [discriminate|].
  destruct e0; intros [= <-]; eauto.
Qed.

(** A [ValueError] leaves [get_detector] exactly when the sanitised
    name is not in the allow-list. *)
Lemma get_detector_value_error model_name cache :
  (exists msg,
     fst (fst (get_detector Detector secure_filename models_dir path_join
                 resolve exists_path YOLO model_name cache))
     = Raises (ValueError msg))
  <-> secure_filename model_name ∉ ALLOWED_MODELS.
Proof.
  unfold get_detector.
  destruct (bool_decide_reflect (secure_filename model_name ∈ ALLOWED_MODELS))
    as [Hin|Hout]; simpl.
  - split; [|contradiction]. intros [msg H]. exfalso. revert H.
    destruct (cache !! secure_filename model_name) as [d|]; simpl; [discriminate|].
    destruct (resolve_model_path models_dir path_join resolve
                (secure_filename model_name)) as [[final_path|e] logs] eqn:Er; simpl.
    + destruct (negb (exists_path final_path)); simpl; [discriminate|].
      destruct (load_detector Detector YOLO final_path) as [d|e] eqn:El; simpl;
        [discriminate|].
      apply load_detector_raises in El as [[m ->]|[m ->]]; discriminate.
    + pose proof (resolve_model_path_raises (secure_filename model_name) e) as H.
      rewrite Er in H. destruct (H eq_refl) as [m ->]. discriminate.
  - split; [auto|]. intros _. eauto.
Qed.

(** A detector that [get_detector] returns sits in the cache under the
    sanitised name, which is in the allow-list; the keys of the cache
    stay in the allow-list. *)
Lemma get_detector_returns model_name cache d :
  fst (fst (get_detector Detector secure_filename models_dir path_join
              resolve exists_path YOLO model_name cache)) = Returns d ->
  secure_filename model_name ∈ ALLOWED_MODELS /\
  snd (fst (get_detector Detector secure_filename models_dir path_join
              resolve exists_path YOLO model_name cache))
    !! secure_filename model_name = Some d.
Proof.
  unfold get_detector.
  destruct (bool_decide_reflect (secure_filename model_name ∈ ALLOWED_MODELS))
    as [Hin|Hout]; simpl; [|discriminate].
  destruct (cache !! secure_filename model_name) as [d0|] eqn:Ec; simpl.
  - intros [= <-]. auto.
  - destruct (resolve_model_path models_dir path_join resolve
                (secure_filename model_name)) as [[final_path|e] logs]; simpl;
      [|discriminate].
    destruct (negb (exists_path final_path)); simpl; [discriminate|].
    destruct (load_detector Detector YOLO final_path) as [d0|e]; simpl;
      [|discriminate].
    intros [= <-]. split; [assumption|]. apply lookup_insert_eq.
Qed.

Lemma get_detector_keys model_name cache :
  dom cache ⊆ ALLOWED_MODELS ->
  dom (snd (fst (get_detector Detector secure_filename models_dir path_join
                   resolve exists_path YOLO model_name cache)))
    ⊆ ALLOWED_MODELS.
Proof.
  intros Hdom. unfold get_detector.
  destruct (bool_decide_reflect (secure_filename model_name ∈ ALLOWED_MODELS))
    as [Hin|Hout]; simpl; [|assumption].
  destruct (cache !! secure_filename model_name) as [d0|]; simpl; [assumption|].
  destruct (resolve_model_path models_dir path_join resolve
              (secure_filename model_name)) as [[final_path|e] logs]; simpl;
    [|assumption].
  destruct (negb (exists_path final_path)); simpl; [assumption|].
  destruct (load_detector Detector YOLO final_path) as [d0|e]; simpl;
    [|assumption].
  rewrite dom_insert_L. apply union_subseteq. split; [|assumption].
  apply singleton_subseteq_l. assumption.
Qed.

(** The name that [detect_image] hands to [get_detector]. *)
Lemma selected_model_spec form_model :
  fst (selected_model form_model) ∈ ALLOWED_MODELS /\
  (default "yolov12l-face.pt" form_model ∈ ALLOWED_MODELS ->
   selected_model form_model = (default "yolov12l-face.pt" form_model, [])) /\
  (default "yolov12l-face.pt" form_model ∉ ALLOWED_MODELS ->
   fst (selected_model form_model) = "yolov12l-face.pt" /\
   exists msg, snd (selected_model form_model) = [LogInfo msg]).
Proof.
  unfold selected_model.
  destruct (bool_decide_reflect
              (default "yolov12l-face.pt" form_model ∈ ALLOWED_MODELS))
    as [Hin|Hout]; simpl.
  - split; [assumption|]. split; [reflexivity|]. contradiction.
  - split; [unfold ALLOWED_MODELS; set_solver|].
    split; [contradiction|]. intros _. split; [reflexivity|]. eauto.
Qed.

Lemma detect_image_detector_unfold form_model cache :
  fst (detect_image_detector Detector secure_filename models_dir path_join
         resolve exists_path YOLO form_model cache)
  = fst (get_detector Detector secure_filename models_dir path_join
           resolve exists_path YOLO (fst (selected_model form_model)) cache).
Proof.
  unfold detect_image_detector.
  destruct (selected_model form_model) as [model logs]. simpl.
  destruct (get_detector _ _ _ _ _ _ _ model cache) as [[r c] l]. reflexivity.
Qed.

End WebFacts.

(** C10: in [detect_image] a requested model name outside the four
    allowed file names is replaced by ['yolov12l-face.pt'], with an
    info line and no error, and an allowed one is kept; [get_detector]
    raises [ValueError] only for names outside the allow-list; so on
    this route [get_detector] raises no [ValueError], and a detector it
    returns is the one cached under the selected, allowed name.
    ([secure_filename] is taken to leave the four allowed names as
    they are.) *)
Theorem detect_image_model_fallback
    (Detector : Type) (secure_filename : string -> string)
    (models_dir : string) (path_join : string -> string -> string)
    (resolve : string -> outcome string) (exists_path : string -> bool)
    (YOLO : string -> outcome Detector)
    (form_model : option string) (cache : gmap string Detector) :
  (forall n, n ∈ ALLOWED_MODELS -> secure_filename n = n) ->
  let requested := default "yolov12l-face.pt" form_model in
  let route := detect_image_detector Detector secure_filename models_dir
                 path_join resolve exists_path YOLO form_model cache in
  (requested ∉ ALLOWED_MODELS ->
   fst (selected_model form_model) = "yolov12l-face.pt" /\
   exists msg, snd (selected_model form_model) = [LogInfo msg]) /\
  (requested ∈ ALLOWED_MODELS -> selected_model form_model = (requested, [])) /\
  fst (selected_model form_model) ∈ ALLOWED_MODELS /\
  (forall model_name c msg,
     fst (fst (get_detector Detector secure_filename models_dir path_join
                 resolve exists_path YOLO model_name c))
     = Raises (ValueError msg) ->
     model_name ∉ ALLOWED_MODELS) /\
  (forall msg, fst (fst route) <> Raises (ValueError msg)) /\
  (forall d, fst (fst route) = Returns d ->
     snd (fst route) !! fst (selected_model form_model) = Some d) /\
  (dom cache ⊆ ALLOWED_MODELS -> dom (snd (fst route)) ⊆ ALLOWED_MODELS).
Proof.
  intros Hsf requested route.
  destruct (selected_model_spec form_model) as (Hsel & Hkeep & Hfall).
  pose proof (detect_image_detector_unfold Detector secure_filename models_dir
                path_join resolve exists_path YOLO form_model cache) as Hroute.
  fold route in Hroute.
  split; [exact Hfall|]. split; [exact Hkeep|]. split; [exact Hsel|].
  split; [|split; [|split]].
  - intros model_name c msg Hraise Hin.
    assert (secure_filename model_name ∉ ALLOWED_MODELS) as Hout.
    { apply (get_detector_value_error Detector secure_filename models_dir
               path_join resolve exists_path YOLO model_name c). eauto. }
    rewrite (Hsf _ Hin) in Hout. contradiction.
  - intros msg Hraise. rewrite Hroute in Hraise.
    assert (secure_filename (fst (selected_model form_model)) ∉ ALLOWED_MODELS)
      as Hout.
    { apply (get_detector_value_error Detector secure_filename models_dir
               path_join resolve exists_path YOLO _ cache). eauto. }
    rewrite (Hsf _ Hsel) in Hout. contradiction.
  - intros d Hret. rewrite Hroute in *.
    apply get_detector_returns in Hret as [_ Hlook].
    rewrite (Hsf _ Hsel) in Hlook. exact Hlook.
  - intros Hdom. rewrite Hroute. apply get_detector_keys. exact Hdom.
Qed.

Lemma secure_filename_ascii_allowed (n : string) :
  n ∈ ALLOWED_MODELS -> secure_filename_ascii n = n.
Proof.
  unfold ALLOWED_MODELS. rewrite !elem_of_union, !elem_of_singleton.
  intros [[[-> | ->] | ->] | ->]; reflexivity.
Qed.

Lemma detect_image_model_fallback_witness :
  fst (selected_model (Some "yolov8n.pt")) = "yolov12l-face.pt" /\
  fst (fst (detect_image_detector string secure_filename_ascii sample_models_dir
              sample_path_join sample_resolve sample_exists sample_YOLO
              (Some "yolov8n.pt") ∅))
    = Returns "/app/models/yolov12l-face.pt".
Proof.
  destruct (detect_image_model_fallback string secure_filename_ascii
              sample_models_dir sample_path_join sample_resolve sample_exists
              sample_YOLO (Some "yolov8n.pt") ∅ secure_filename_ascii_allowed)
    as (Hfall & _).
  split.
  - apply Hfall. vm_compute. intros H. discriminate H.
  - vm_compute. reflexivity.
Defined.

(** * Further properties *)

(** ** The detector wrappers: what is kept of the network's boxes *)

Section MoreDetectorFacts.

Variable yolo : image -> Q -> outcome (list (list box)).
Variable cv2_resize : image -> Z * Z -> outcome image.

Lemma boxes_loop_readable body (f : raw_box -> detection) raws acc :
  (forall r, body r = Returns (f r)) ->
  boxes_loop body (map Returns raws) acc = (acc ++ map f raws, None).
Proof.
  intros Hb. revert acc. induction raws as [|r rest IH]; intros acc; simpl.
  - rewrite app_nil_r. reflexivity.
  - rewrite Hb, IH, <- app_assoc. reflexivity.
Qed.

Lemma results_loop_readable body (f : raw_box -> detection) raws acc :
  (forall r, body r = Returns (f r)) ->
  results_loop body (map (map Returns) raws) acc
  = (acc ++ map f (concat raws), None).
Proof.
  intros Hb. revert acc. induction raws as [|rs rest IH]; intros acc; simpl.
  - rewrite app_nil_r. reflexivity.
  - rewrite (boxes_loop_readable body f rs acc Hb), IH, map_app, app_assoc.
    reflexivity.
Qed.

Lemma boxes_loop_unreadable body (f : raw_box -> detection) good e rest acc :
  (forall r, body r = Returns (f r)) ->
  boxes_loop body (map Returns good ++ Raises e :: rest) acc
  = (acc ++ map f good, Some e).
Proof.
  intros Hb. revert acc. induction good as [|r good IH]; intros acc; simpl.
  - rewrite app_nil_r. reflexivity.
  - rewrite Hb, IH, <- app_assoc. reflexivity.
Qed.

Lemma results_loop_unreadable body (f : raw_box -> detection)
    before good e rest after acc :
  (forall r, body r = Returns (f r)) ->
  results_loop body
    (map (map Returns) before ++ (map Returns good ++ Raises e :: rest) :: after)
    acc
  = (acc ++ map f (concat before ++ good), Some e).
Proof.
  intros Hb. revert acc. induction before as [|rs before IH]; intros acc; simpl.
  - rewrite (boxes_loop_unreadable body f good e rest acc Hb). reflexivity.
  - rewrite (boxes_loop_readable body f rs acc Hb), IH.
    rewrite !map_app, !app_assoc. reflexivity.
Qed.

(** When every box can be read and the loops end without an
    exception, the body made one record from each box, in order. *)
Lemma boxes_loop_all body raws : forall acc ds,
  boxes_loop body (map Returns raws) acc = (ds, None) ->
  exists made,
    ds = acc ++ made /\ Forall2 (fun r d => body r = Returns d) raws made.
Proof.
  induction raws as [|r rest IH]; intros acc ds; simpl.
  - intros [= <-]. exists []. rewrite app_nil_r. split; [reflexivity|constructor].
  - destruct (body r) as [d|e] eqn:Eb; [|discriminate].
    intros H. apply IH in H as (made & -> & HF).
    exists (d :: made). rewrite <- app_assoc. split; [reflexivity|].
    constructor; assumption.
Qed.

Lemma results_loop_all body raws : forall acc ds,
  results_loop body (map (map Returns) raws) acc = (ds, None) ->
  exists made,
    ds = acc ++ made /\
    Forall2 (fun r d => body r = Returns d) (concat raws) made.
Proof.
  induction raws as [|rs rest IH]; intros acc ds; simpl.
  - intros [= <-]. exists []. rewrite app_nil_r. split; [reflexivity|constructor].
  - destruct (boxes_loop body (map Returns rs) acc) as [acc' [e|]] eqn:Eb;
      [discriminate|].
    apply boxes_loop_all in Eb as (made1 & -> & HF1).
    intros H. apply IH in H as (made2 & -> & HF2).
    exists (made1 ++ made2). rewrite app_assoc. split; [reflexivity|].
    apply Forall2_app; assumption.
Qed.

Lemma finish_silent r ds :
  finish r = (Returns ds, []) -> r = (ds, None).
Proof. destruct r as [ds0 [e|]]; simpl; [discriminate|]. intros [= <-]. reflexivity. Qed.

End MoreDetectorFacts.

(** X1: when the network returns and every box can be read,
    [detect_faces] gives one record per box, in the order of the
    results and of their boxes, with the coordinates and the
    confidence of the box, and prints nothing.  When
    [detect_faces_optimized] prints nothing, it too gives one record
    per box in that order: the record of a box has its confidence and
    its coordinates, each turned into [int(x / scale)] when the scale
    is below 1.0. *)
Theorem one_record_per_box
    (yolo : image -> Q -> outcome (list (list box)))
    (cv2_resize : image -> Z * Z -> outcome image)
    (img : image) (conf : Q) (max_width : Z)
    (raws : list (list raw_box)) :
  (yolo img conf = Returns (map (map Returns) raws) ->
   detect_faces yolo img conf
   = (Returns (map detection_of_box (concat raws)), [])) /\
  (forall scale inference_image ds,
     inference_input cv2_resize img max_width
       = Returns (scale, inference_image) ->
     yolo inference_image conf = Returns (map (map Returns) raws) ->
     detect_faces_optimized yolo cv2_resize img conf max_width
       = (Returns ds, []) ->
     Forall2 (fun r d =>
                consistent d /\
                (if f64_lt_one scale then rescaled_from scale r d
                 else unchanged_from r d))
             (concat raws) ds).
Proof.
  split.
  - intros Hy. unfold detect_faces. rewrite Hy.
    rewrite (results_loop_readable plain_body detection_of_box); [reflexivity|].
    intros r. reflexivity.
  - intros scale inf ds Hi Hy. unfold detect_faces_optimized. rewrite Hi, Hy.
    intros Hf. apply finish_silent in Hf.
    apply results_loop_all in Hf as (made & -> & HF). simpl.
    eapply Forall2_impl; [exact HF|]. simpl.
    intros r d Hb. apply scaled_body_spec in Hb. exact Hb.
Qed.

Lemma one_record_per_box_witness :
  detect_faces (fun _ _ => Returns (map (map Returns)
                  [[RawBox 1 2 3 4 (1 # 2)]; []; [RawBox 5 6 9 9 (3 # 4)]]))
    frame_320 (1 # 2)
  = (Returns [detection_of_box (RawBox 1 2 3 4 (1 # 2));
              detection_of_box (RawBox 5 6 9 9 (3 # 4))], []) /\
  Forall2 (fun r d =>
             consistent d /\
             (if f64_lt_one 0.5%float then rescaled_from 0.5%float r d
              else unchanged_from r d))
          (concat [[RawBox 100 100 200 200 (9 # 10)]])
          [make_detection 200 200 400 400 (9 # 10)].
Proof.
  split.
  - apply (one_record_per_box _ sample_resize frame_320 (1 # 2) 640
             [[RawBox 1 2 3 4 (1 # 2)]; []; [RawBox 5 6 9 9 (3 # 4)]]).
    reflexivity.
  - apply (proj2 (one_record_per_box one_face_yolo sample_resize frame_1280
                    (1 # 2) 640 [[RawBox 100 100 200 200 (9 # 10)]])
             0.5%float {| height := 360; width := 640; pixels := [] |}
             [make_detection 200 200 400 400 (9 # 10)]);
      vm_compute; reflexivity.
Defined.

(** X2: when reading a box raises, [detect_faces] does not return the
    empty list: it returns the records of the boxes read before that
    one, leaves the later boxes and results out, and prints one
    line. *)
Theorem unreadable_box_keeps_earlier_records
    (yolo : image -> Q -> outcome (list (list box)))
    (img : image) (conf : Q)
    (before : list (list raw_box)) (good : list raw_box) (e : py_exn)
    (rest : list box) (after : list (list box)) :
  yolo img conf
    = Returns (map (map Returns) before
               ++ (map Returns good ++ Raises e :: rest) :: after) ->
  detect_faces yolo img conf
  = (Returns (map detection_of_box (concat before ++ good)),
     [DetectionError e]).
Proof.
  intros Hy. unfold detect_faces. rewrite Hy.
  rewrite (results_loop_unreadable plain_body detection_of_box);
    [reflexivity|].
  intros r. reflexivity.
Qed.

Lemma unreadable_box_keeps_earlier_records_witness :
  detect_faces
    (fun _ _ => Returns [[Returns (RawBox 1 2 3 4 (1 # 2));
                          Raises (ValueError "cannot convert float NaN to integer");
                          Returns (RawBox 5 6 9 9 (3 # 4))]])
    frame_320 (1 # 2)
  = (Returns [detection_of_box (RawBox 1 2 3 4 (1 # 2))],
     [DetectionError (ValueError "cannot convert float NaN to integer")]).
Proof.
  apply (unreadable_box_keeps_earlier_records _ frame_320 (1 # 2)
           [] [RawBox 1 2 3 4 (1 # 2)]
           (ValueError "cannot convert float NaN to integer")
           [Returns (RawBox 5 6 9 9 (3 # 4))] []).
  reflexivity.
Defined.

(** ** The webcam loop: how often the detector runs *)

Lemma ceil_div_mono (a b N : Z) : 0 < N -> a <= b -> ceil_div a N <= ceil_div b N.
Proof. intros HN Hab. unfold ceil_div. apply Z.div_le_mono; lia. Qed.

Lemma ceil_div_shift (a N : Z) : 0 < N -> ceil_div (a - N) N = ceil_div a N - 1.
Proof.
  intros HN. unfold ceil_div.
  replace (a - N + N - 1) with (a + N - 1 + (-1) * N) by lia.
  rewrite Z.div_add by lia. lia.
Qed.

Lemma ceil_div_1 (N : Z) : 0 < N -> ceil_div 1 N = 1.
Proof.
  intros HN. unfold ceil_div. replace (1 + N - 1) with N by lia.
  apply Z.div_same. lia.
Qed.

Lemma frames_to_detect_bound (fc N : Z) :
  0 < N -> 0 <= frames_to_detect fc N < N.
Proof. intros HN. apply Z.mod_pos_bound. assumption. Qed.

Lemma frames_to_detect_zero (fc N : Z) :
  0 < N -> (fc mod N = 0 <-> frames_to_detect fc N = 0).
Proof.
  intros HN. unfold frames_to_detect.
  rewrite !Z.mod_divide by lia. split; intros H.
  - apply (proj2 (Z.divide_opp_r N fc)). exact H.
  - apply (proj1 (Z.divide_opp_r N fc)). exact H.
Qed.

Lemma frames_to_detect_next (fc N : Z) :
  0 < N -> fc mod N <> 0 ->
  frames_to_detect (fc + 1) N = frames_to_detect fc N - 1.
Proof.
  intros HN Hnz.
  pose proof (frames_to_detect_bound fc N HN) as Hb.
  assert (frames_to_detect fc N <> 0) as Hd.
  { intros E. apply Hnz. apply frames_to_detect_zero; assumption. }
  unfold frames_to_detect in *.
  symmetry. apply (Z.mod_unique _ _ ((- fc) / N)); [lia|].
  pose proof (Z.div_mod (- fc) N ltac:(lia)). lia.
Qed.

Section CadenceFacts.

Variable yolo : image -> Q -> outcome (list (list box)).
Variable cv2_resize : image -> Z * Z -> outcome image.

(** A run that shows every frame runs the detector at least as often
    as a steady run that starts as many frames before the next
    multiple of [skip_frames]. *)
Lemma run_invocations_lower ticks : forall s s' outs,
  0 < skip_frames s ->
  run yolo cv2_resize s ticks = Returns (s', outs) ->
  length outs = length ticks ->
  ceil_div (Z.of_nat (length ticks)
            - frames_to_detect (frame_count s) (skip_frames s))
           (skip_frames s)
  <= invocations outs.
Proof.
  induction ticks as [|tk rest IH]; intros s s' outs HN Hrun Hlen.
  - simpl in Hrun. injection Hrun as <- <-.
    pose proof (frames_to_detect_bound (frame_count s) (skip_frames s) HN).
    change (invocations []) with 0. unfold ceil_div. simpl.
    apply Z.lt_succ_r. apply Z.div_lt_upper_bound; lia.
  - simpl in Hlen.
    destruct (run_cons_inv yolo cv2_resize s tk rest s' outs Hrun Hlen)
      as (s1 & o & outs' & Hu & Hrest & ->).
    destruct (render_clock tk) as [[r1 r2] r3] eqn:Hr.
    destruct (detection_clock tk) as [[d1 d2] d3] eqn:Hd.
    destruct (update_frame_effect yolo cv2_resize s tk s1 o _ _ _ _ _ _ Hu Hr Hd)
      as ((_ & Hsk & _) & Hinv & Hw & _).
    assert (0 < skip_frames s1) as HN1 by lia.
    pose proof (IH s1 s' outs' HN1 Hrest ltac:(simpl in Hlen; lia)) as HI.
    rewrite Hsk in HI.
    pose proof (frames_to_detect_bound (frame_count s1) (skip_frames s) HN) as Hb1.
    rewrite invocations_cons, Hinv.
    replace (Z.of_nat (length (tk :: rest))) with (Z.of_nat (length rest) + 1)
      by (simpl length; lia).
    destruct (Z.eqb_spec (frame_count s mod skip_frames s) 0) as [E|E].
    + apply frames_to_detect_zero in E; [|assumption]. rewrite E.
      pose proof (ceil_div_shift (Z.of_nat (length rest) + 1 - 0)
                    (skip_frames s) HN) as Hs.
      pose proof (ceil_div_mono
                    (Z.of_nat (length rest) + 1 - 0 - skip_frames s)
                    (Z.of_nat (length rest) - frames_to_detect (frame_count s1)
                                                (skip_frames s))
                    (skip_frames s) HN ltac:(lia)).
      lia.
    + assert (frames_to_detect (frame_count s1) (skip_frames s)
              <= frames_to_detect (frame_count s) (skip_frames s) - 1) as Hd1.
      { destruct Hw as [(_ & _ & -> & _)|(_ & _ & _ & -> & _)].
        - rewrite frames_to_detect_next by assumption. lia.
        - pose proof (frames_to_detect_bound (frame_count s) (skip_frames s) HN).
          assert (frames_to_detect (frame_count s) (skip_frames s) <> 0).
          { intros E0. apply E. apply frames_to_detect_zero; assumption. }
          change (frames_to_detect 0 (skip_frames s)) with 0. lia. }
      pose proof (ceil_div_mono
                    (Z.of_nat (length rest) + 1
                     - frames_to_detect (frame_count s) (skip_frames s))
                    (Z.of_nat (length rest)
                     - frames_to_detect (frame_count s1) (skip_frames s))
                    (skip_frames s) HN ltac:(lia)).
      lia.
Qed.

(** What one call of [update_frame] adds to the calls made so far. *)
Lemma update_frame_events s tk s' o :
  update_frame yolo cv2_resize s tk = Returns (s', o) ->
  cap s' = cap s /\
  exists evs, events s' = events s ++ evs /\ Forall harmless evs.
Proof.
  unfold update_frame. destruct (running s); simpl.
  2:{ intros [= <- <-]. split; [reflexivity|]. exists [].
      rewrite app_nil_r. auto. }
  destruct (read tk) as [frame|].
  2:{ intros [= <- <-]. split; [reflexivity|]. exists [CapRead]. simpl.
      split; [reflexivity|]. repeat constructor. }
  cbn [frame_count skip_frames emit].
  destruct (py_mod (frame_count s) (skip_frames s)) as [m|e]; simpl;
    [|discriminate].
  destruct (Z.eqb m 0).
  - destruct (detect_branch yolo cv2_resize frame (detection_clock tk)
                (emit [CapRead] s)) as [[ds s1]|e] eqn:Eb; simpl; [|discriminate].
    destruct (render_clock tk) as [[r1 r2] r3].
    destruct (render_meter (r1, r2, r3) s1) as [s2|e] eqn:Er; simpl;
      [|discriminate].
    intros [= <- <-].
    apply render_meter_spec in Er as ((_ & _ & _ & c4 & _) & _ & _ & Hev & _).
    revert Eb. unfold detect_branch.
    destruct (detection_clock tk) as [[d1 d2] d3].
    destruct (detect_faces_optimized yolo cv2_resize frame
                (conf_threshold (emit [CapRead] s))
                (inference_width (emit [CapRead] s))) as [[ds0|e] printed];
      simpl; [|discriminate].
    match goal with |- context [ge_one ?q] => destruct (ge_one q) end.
    + match goal with |- context [py_div_float ?a ?b] =>
        destruct (py_div_float a b) end; simpl; [|discriminate].
      intros [= <- <-]. simpl in *. split; [exact c4|].
      exists ([CapRead] ++ map Print printed ++ [RootAfter]).
      rewrite Hev. simpl. rewrite <- !app_assoc. split; [reflexivity|].
      simpl. constructor; [split; reflexivity|].
      apply Forall_app. split; [|repeat constructor].
      apply Forall_forall. intros ev Hin.
      apply list_elem_of_fmap in Hin as (l & -> & _). split; reflexivity.
    + intros [= <- <-]. simpl in *. split; [exact c4|].
      exists ([CapRead] ++ map Print printed ++ [RootAfter]).
      rewrite Hev. simpl. rewrite <- !app_assoc. split; [reflexivity|].
      simpl. constructor; [split; reflexivity|].
      apply Forall_app. split; [|repeat constructor].
      apply Forall_forall. intros ev Hin.
      apply list_elem_of_fmap in Hin as (l & -> & _). split; reflexivity.
  - simpl. destruct (render_clock tk) as [[r1 r2] r3].
    destruct (render_meter (r1, r2, r3) (emit [CapRead] s)) as [s2|e] eqn:Er;
      simpl; [|discriminate].
    intros [= <- <-].
    apply render_meter_spec in Er as ((_ & _ & _ & c4 & _) & _ & _ & Hev & _).
    simpl in *. split; [exact c4|].
    exists [CapRead; RootAfter]. rewrite Hev. rewrite <- app_assoc.
    split; [reflexivity|]. repeat constructor.
Qed.

Lemma harmless_counts evs :
  Forall harmless evs -> releases evs = 0%nat /\ destroys evs = 0%nat.
Proof.
  induction 1 as [|e evs [Hr Hd] _ [IHr IHd]]; [split; reflexivity|].
  unfold releases, destroys in *. rewrite !filter_cons.
  destruct (decide (is_release e = true)); [congruence|].
  destruct (decide (is_destroy e = true)); [congruence|]. auto.
Qed.

Lemma destroys_app (a b : list gui_event) :
  destroys (a ++ b) = (destroys a + destroys b)%nat.
Proof. unfold destroys. rewrite filter_app, length_app. reflexivity. Qed.

Lemma run_events ticks : forall s s' outs,
  run yolo cv2_resize s ticks = Returns (s', outs) ->
  cap s' = cap s /\
  releases (events s') = releases (events s) /\
  destroys (events s') = destroys (events s).
Proof.
  induction ticks as [|tk rest IH]; intros s s' outs; simpl.
  - intros [= <- <-]. auto.
  - destruct (update_frame yolo cv2_resize s tk) as [[s1 o]|e] eqn:Hu; simpl;
      [|discriminate].
    apply update_frame_events in Hu as (Hc & evs & Hev & Hh).
    apply harmless_counts in Hh as [Hr Hd].
    assert (releases (events s1) = releases (events s) /\
            destroys (events s1) = destroys (events s)) as [Hr1 Hd1].
    { rewrite Hev, releases_app, destroys_app, Hr, Hd. lia. }
    destruct o as [o|].
    + destruct (run yolo cv2_resize s1 rest) as [[s2 outs']|e] eqn:Hrest; simpl;
        [|discriminate].
      intros [= <- <-]. destruct (IH _ _ _ Hrest) as (Hc2 & Hr2 & Hd2).
      repeat split; congruence.
    + intros [= <- <-]. auto.
Qed.

End CadenceFacts.

(** X5: whatever the clock does, a run that starts on a multiple of
    [skip_frames = N > 0] and shows [K] frames runs the detector at
    least [ceil(K / N)] times: resets of [frame_count] by the
    render-rate block only add runs. *)
Theorem detector_runs_at_least_every_nth
    (yolo : image -> Q -> outcome (list (list box)))
    (cv2_resize : image -> Z * Z -> outcome image)
    (s : gui) (ticks : list tick) (s' : gui) (outs : list shown) :
  0 < skip_frames s -> frame_count s mod skip_frames s = 0 ->
  run yolo cv2_resize s ticks = Returns (s', outs) ->
  length outs = length ticks ->
  ceil_div (Z.of_nat (length ticks)) (skip_frames s) <= invocations outs.
Proof.
  intros HN Hfc Hrun Hlen.
  pose proof (run_invocations_lower yolo cv2_resize ticks s s' outs HN Hrun Hlen)
    as H.
  apply frames_to_detect_zero in Hfc; [|assumption].
  rewrite Hfc, Z.sub_0_r in H. exact H.
Qed.

Lemma detector_runs_at_least_every_nth_witness :
  ceil_div 3 3 <= invocations (shown_of half_second_run).
Proof.
  apply (detector_runs_at_least_every_nth one_face_yolo sample_resize
           (init_gui (1 # 2) 3 640 0) half_second_ticks
           (state_of half_second_run (init_gui (1 # 2) 3 640 0))
           (shown_of half_second_run));
    [simpl; lia | reflexivity | vm_compute; reflexivity | reflexivity].
Defined.

(** X6: the cached detections are never older than [skip_frames]
    frames: from any state with [skip_frames = N > 0], a run that shows
    [N] frames or more runs the detector on at least one of them. *)
Theorem no_stretch_without_detection
    (yolo : image -> Q -> outcome (list (list box)))
    (cv2_resize : image -> Z * Z -> outcome image)
    (s : gui) (ticks : list tick) (s' : gui) (outs : list shown) :
  0 < skip_frames s -> skip_frames s <= Z.of_nat (length ticks) ->
  run yolo cv2_resize s ticks = Returns (s', outs) ->
  length outs = length ticks ->
  exists o, o ∈ outs /\ invoked o = true.
Proof.
  intros HN HK Hrun Hlen.
  pose proof (run_invocations_lower yolo cv2_resize ticks s s' outs HN Hrun Hlen)
    as H.
  pose proof (frames_to_detect_bound (frame_count s) (skip_frames s) HN) as Hb.
  pose proof (ceil_div_mono 1
                (Z.of_nat (length ticks)
                 - frames_to_detect (frame_count s) (skip_frames s))
                (skip_frames s) HN ltac:(lia)) as Hm.
  rewrite ceil_div_1 in Hm by assumption.
  unfold invocations in H.
  destruct (filter (fun o => invoked o = true) outs) as [|o l] eqn:Ef.
  - simpl in H. lia.
  - exists o.
    assert (o ∈ filter (fun o => invoked o = true) outs) as Hin.
    { rewrite Ef. left. }
    apply list_elem_of_filter in Hin as [Hi Ho]. auto.
Qed.

Lemma no_stretch_without_detection_witness :
  exists o, o ∈ shown_of half_second_run /\ invoked o = true.
Proof.
  apply (no_stretch_without_detection one_face_yolo sample_resize
           (init_gui (1 # 2) 3 640 0) half_second_ticks
           (state_of half_second_run (init_gui (1 # 2) 3 640 0))
           (shown_of half_second_run));
    [simpl; lia | simpl; lia | vm_compute; reflexivity | reflexivity].
Defined.

(** X7: the loop itself never calls [release] on the capture nor
    [destroy] on the window, and keeps the capture in [cap]: over any
    run that returns, also one that a failed read ended, the numbers
    of those calls are what they were. *)
Theorem loop_never_releases_capture
    (yolo : image -> Q -> outcome (list (list box)))
    (cv2_resize : image -> Z * Z -> outcome image)
    (s : gui) (ticks : list tick) (s' : gui) (outs : list shown) :
  run yolo cv2_resize s ticks = Returns (s', outs) ->
  cap s' = cap s /\
  releases (events s') = releases (events s) /\
  destroys (events s') = destroys (events s).
Proof. apply run_events. Qed.

Lemma loop_never_releases_capture_witness :
  releases (events (state_of half_second_run (init_gui (1 # 2) 3 640 0))) = 0%nat.
Proof.
  apply (loop_never_releases_capture one_face_yolo sample_resize
           (init_gui (1 # 2) 3 640 0) half_second_ticks
           (state_of half_second_run (init_gui (1 # 2) 3 640 0))
           (shown_of half_second_run)).
  vm_compute. reflexivity.
Defined.

(** ** The cache of detectors *)

Section CacheFacts.

Variable Detector : Type.
Variable secure_filename : string -> string.
Variable models_dir : string.
Variable path_join : string -> string -> string.
Variable resolve : string -> outcome string.
Variable exists_path : string -> bool.
Variable YOLO : string -> outcome Detector.

(** Every way out of [get_detector], with what it does to the cache. *)
Lemma get_detector_cases model_name cache :
  let r := get_detector Detector secure_filename models_dir path_join
             resolve exists_path YOLO model_name cache in
  (exists e, fst (fst r) = Raises e /\ snd (fst r) = cache /\
     ((exists msg, e = ValueError msg) \/ (exists msg, e = FileNotFoundError msg) \/
      (exists msg, e = ImportError msg) \/ (exists msg, e = PlainException msg)))
  \/
  (exists d, fst (fst r) = Returns d /\
     ((cache !! secure_filename model_name = Some d /\ snd (fst r) = cache /\
       snd r = []) \/
      (cache !! secure_filename model_name = None /\
       snd (fst r) = <[secure_filename model_name := d]> cache))).
Proof.
  unfold get_detector.
  destruct (negb (bool_decide (secure_filename model_name ∈ ALLOWED_MODELS)));
    simpl; [left; eauto 10|].
  destruct (cache !! secure_filename model_name) as [d|] eqn:Ec; simpl;
    [right; eauto 10|].
  destruct (resolve_model_path models_dir path_join resolve
              (secure_filename model_name)) as [[final_path|e] logs] eqn:Er; simpl.
  - destruct (negb (exists_path final_path)); simpl; [left; eauto 10|].
    destruct (load_detector Detector YOLO final_path) as [d|e] eqn:El; simpl.
    + right. eauto 10.
    + left. exists e. split; [reflexivity|]. split; [reflexivity|].
      apply load_detector_raises in El as [H|H]; auto.
  - left. exists e. split; [reflexivity|]. split; [reflexivity|].
    pose proof (resolve_model_path_raises models_dir path_join resolve
                  (secure_filename model_name) e) as H.
    rewrite Er in H. auto.
Qed.

End CacheFacts.

(** X8: a detector that [get_detector] returned is served from the
    cache from then on: a later call for a name with the same
    sanitised form returns the same detector, leaves the cache as it
    is and logs nothing, whatever has become of the file system and of
    the loader in between. *)
Theorem get_detector_serves_from_cache
    (Detector : Type) (secure_filename : string -> string)
    (models_dir : string) (path_join : string -> string -> string)
    (resolve : string -> outcome string) (exists_path : string -> bool)
    (YOLO : string -> outcome Detector)
    (models_dir' : string) (path_join' : string -> string -> string)
    (resolve' : string -> outcome string) (exists_path' : string -> bool)
    (YOLO' : string -> outcome Detector)
    (model_name again : string) (cache : gmap string Detector) (d : Detector) :
  fst (fst (get_detector Detector secure_filename models_dir path_join
              resolve exists_path YOLO model_name cache)) = Returns d ->
  secure_filename again = secure_filename model_name ->
  let cache' := snd (fst (get_detector Detector secure_filename models_dir
                            path_join resolve exists_path YOLO model_name cache)) in
  get_detector Detector secure_filename models_dir' path_join'
    resolve' exists_path' YOLO' again cache'
  = (Returns d, cache', []).
Proof.
  intros Hret Hsame cache'.
  destruct (get_detector_returns Detector secure_filename models_dir path_join
              resolve exists_path YOLO model_name cache d Hret) as [Hin Hlook].
  fold cache' in Hlook.
  unfold get_detector. rewrite Hsame.
  rewrite (bool_decide_eq_true_2 _ Hin). simpl. rewrite Hlook. reflexivity.
Qed.

Lemma get_detector_serves_from_cache_witness :
  let cache' := snd (fst (get_detector string secure_filename_ascii
                            sample_models_dir sample_path_join sample_resolve
                            sample_exists sample_YOLO "yolov12n-face.pt" ∅)) in
  get_detector string secure_filename_ascii sample_models_dir sample_path_join
    (fun _ => Raises (OtherError "OSError")) (fun _ => false)
    (fun _ => Raises (ImportError "no ultralytics"))
    "../yolov12n-face.pt" cache'
  = (Returns "/app/models/yolov12n-face.pt", cache', []).
Proof.
  apply (get_detector_serves_from_cache string secure_filename_ascii
           sample_models_dir sample_path_join sample_resolve sample_exists
           sample_YOLO); reflexivity.
Defined.

(** X9: a call of [get_detector] that raises leaves the cache as it
    was; a call that returns a detector leaves it in the cache under
    the sanitised name and changes the cache under no other name. *)
Theorem get_detector_failure_keeps_cache
    (Detector : Type) (secure_filename : string -> string)
    (models_dir : string) (path_join : string -> string -> string)
    (resolve : string -> outcome string) (exists_path : string -> bool)
    (YOLO : string -> outcome Detector)
    (model_name : string) (cache : gmap string Detector) :
  let r := get_detector Detector secure_filename models_dir path_join
             resolve exists_path YOLO model_name cache in
  (forall e, fst (fst r) = Raises e -> snd (fst r) = cache) /\
  (forall d, fst (fst r) = Returns d ->
     snd (fst r) !! secure_filename model_name = Some d) /\
  (forall k, k <> secure_filename model_name -> snd (fst r) !! k = cache !! k).
Proof.
  intros r. subst r.
  destruct (get_detector_cases Detector secure_filename models_dir path_join
              resolve exists_path YOLO model_name cache)
    as [(e & He & Hc & Hk)|(d & Hd & [(Hl & Hc & _)|(Hl & Hc)])]; simpl in *.
  - split; [|split].
    + intros e' He'. exact Hc.
    + intros d Hd. rewrite He in Hd. discriminate.
    + intros k _. rewrite Hc. reflexivity.
  - split; [|split].
    + intros e He. rewrite Hd in He. discriminate.
    + intros d' Hd'. rewrite Hd in Hd'. injection Hd' as <-.
      rewrite Hc. exact Hl.
    + intros k _. rewrite Hc. reflexivity.
  - split; [|split].
    + intros e He. rewrite Hd in He. discriminate.
    + intros d' Hd'. rewrite Hd in Hd'. injection Hd' as <-.
      rewrite Hc. apply lookup_insert_eq.
    + intros k Hk. rewrite Hc. apply lookup_insert_ne. auto.
Qed.

Lemma get_detector_failure_keeps_cache_witness :
  snd (fst (get_detector string secure_filename_ascii sample_models_dir
              sample_path_join sample_resolve (fun _ => false) sample_YOLO
              "yolov12n-face.pt" ∅)) = ∅.
Proof.
  eapply (get_detector_failure_keeps_cache string secure_filename_ascii
            sample_models_dir sample_path_join sample_resolve (fun _ => false)
            sample_YOLO "yolov12n-face.pt" ∅).
  reflexivity.
Defined.

(** ** File names *)

Lemma after_last_dot_has_dot (l : list ascii) :
  existsb is_dot l = true <-> is_Some (after_last_dot l).
Proof.
  induction l as [|c rest IH]; simpl.
  - split; [discriminate|]. intros [? H]. discriminate H.
  - destruct (after_last_dot rest) as [e|].
    + split; [eauto|]. intros _. apply orb_true_iff. right. apply IH. eauto.
    + destruct (is_dot c); simpl; [split; eauto|].
      rewrite IH. reflexivity.
Qed.

Lemma allowed_extension_kinds (e : string) :
  e ∈ ALLOWED_EXTENSIONS <-> e ∈ IMAGE_EXTENSIONS \/ e ∈ VIDEO_EXTENSIONS.
Proof.
  unfold ALLOWED_EXTENSIONS, IMAGE_EXTENSIONS, VIDEO_EXTENSIONS.
  rewrite !elem_of_union, !elem_of_singleton. tauto.
Qed.

Lemma image_not_video (e : string) :
  e ∈ IMAGE_EXTENSIONS -> e ∈ VIDEO_EXTENSIONS -> False.
Proof.
  unfold IMAGE_EXTENSIONS, VIDEO_EXTENSIONS.
  rewrite !elem_of_union, !elem_of_singleton.
  intros [[[-> | ->] | ->] | ->] [[[H | H] | H] | H]; discriminate H.
Qed.

(** X10: the checks on the name of an upload.  [allowed_file] never
    raises, and is false for a name without a dot, on which [is_image]
    and [is_video] raise [IndexError].  A name that [allowed_file]
    accepts is an image or a video and not both, and a name that
    [is_image] or [is_video] accepts is accepted by [allowed_file]. *)
Theorem upload_kinds_partition (filename : string) :
  (exists b, allowed_file filename = Returns b) /\
  (has_dot filename = false ->
   allowed_file filename = Returns false /\
   is_image filename = Raises (OtherError "IndexError") /\
   is_video filename = Raises (OtherError "IndexError")) /\
  (allowed_file filename = Returns true ->
   (is_image filename = Returns true /\ is_video filename = Returns false) \/
   (is_image filename = Returns false /\ is_video filename = Returns true)) /\
  (is_image filename = Returns true \/ is_video filename = Returns true ->
   allowed_file filename = Returns true).
Proof.
  unfold allowed_file, is_image, is_video, extension, has_dot.
  pose proof (after_last_dot_has_dot (list_ascii_of_string filename)) as Hd.
  destruct (after_last_dot (list_ascii_of_string filename)) as [e|].
  - assert (existsb is_dot (list_ascii_of_string filename) = true) as ->
      by (apply Hd; eauto).
    simpl. set (ext := lower (string_of_list_ascii e)).
    pose proof (allowed_extension_kinds ext) as Hk.
    pose proof (image_not_video ext) as Hx.
    split; [eauto|]. split; [discriminate|].
    destruct (bool_decide_reflect (ext ∈ ALLOWED_EXTENSIONS)) as [Ha|Ha];
      destruct (bool_decide_reflect (ext ∈ IMAGE_EXTENSIONS)) as [Hi|Hi];
      destruct (bool_decide_reflect (ext ∈ VIDEO_EXTENSIONS)) as [Hv|Hv];
      try (exfalso; tauto); split;
      try discriminate; try tauto; intros [H|H]; discriminate H.
  - assert (existsb is_dot (list_ascii_of_string filename) = false) as ->.
    { destruct (existsb is_dot (list_ascii_of_string filename)); [|reflexivity].
      destruct (proj1 Hd eq_refl) as [? H]. discriminate H. }
    simpl. split; [eauto|]. split; [auto|]. split; [discriminate|].
    intros [H|H]; discriminate H.
Qed.

Lemma upload_kinds_partition_witness :
  is_image "holiday.photo.JPG" = Returns true /\
  is_video "holiday.photo.JPG" = Returns false.
Proof.
  destruct (upload_kinds_partition "holiday.photo.JPG") as (_ & _ & H & _).
  destruct (H eq_refl) as [H1|[H1 _]]; [exact H1|discriminate H1].
Defined.

Lemma lower_char_idempotent (c : ascii) : lower_char (lower_char c) = lower_char c.
Proof. destruct c as [[] [] [] [] [] [] [] []]; reflexivity. Qed.

Lemma is_dot_lower_char (c : ascii) : is_dot (lower_char c) = is_dot c.
Proof. destruct c as [[] [] [] [] [] [] [] []]; reflexivity. Qed.

Lemma after_last_dot_lower (l : list ascii) :
  after_last_dot (map lower_char l) = option_map (map lower_char) (after_last_dot l).
Proof.
  induction l as [|c rest IH]; simpl; [reflexivity|].
  rewrite IH, is_dot_lower_char.
  destruct (after_last_dot rest); simpl; [reflexivity|].
  destruct (is_dot c); reflexivity.
Qed.

Lemma extension_lower (filename : string) :
  extension (lower filename) = extension filename.
Proof.
  unfold extension, lower at 1.
  rewrite list_ascii_of_string_of_list_ascii, after_last_dot_lower.
  destruct (after_last_dot (list_ascii_of_string filename)) as [e|]; simpl;
    [|reflexivity].
  unfold lower. rewrite !list_ascii_of_string_of_list_ascii.
  rewrite map_map. do 2 f_equal. apply map_ext. apply lower_char_idempotent.
Qed.

Lemma has_dot_lower (filename : string) : has_dot (lower filename) = has_dot filename.
Proof.
  unfold has_dot, lower. rewrite list_ascii_of_string_of_list_ascii.
  induction (list_ascii_of_string filename) as [|c rest IH]; simpl;
    [reflexivity|].
  rewrite is_dot_lower_char, IH. reflexivity.
Qed.

(** X11: the three checks do not depend on the case of the letters of
    the name: they give on a name what they give on its lower-case
    form. *)
Theorem upload_checks_ignore_case (filename : string) :
  allowed_file (lower filename) = allowed_file filename /\
  is_image (lower filename) = is_image filename /\
  is_video (lower filename) = is_video filename.
Proof.
  unfold allowed_file, is_image, is_video.
  rewrite has_dot_lower, extension_lower. auto.
Qed.

(** ** The table of models *)

Section ModelsFacts.

Variable models_dir : string.
Variable path_join : string -> string -> string.
Variable exists_path : string -> bool.

(** Going through [order] gives the items of [available] in the order
    they have in [models]. *)
Lemma sorted_available_filter :
  sorted_available models_dir path_join exists_path
  = List.filter (fun item => exists_path (path_join models_dir (name (snd item))))
                models.
Proof.
  unfold sorted_available, models. simpl.
  destruct (exists_path (path_join models_dir "yolov12n-face.pt"));
    destruct (exists_path (path_join models_dir "yolov12s-face.pt"));
    destruct (exists_path (path_join models_dir "yolov12m-face.pt"));
    destruct (exists_path (path_join models_dir "yolov12l-face.pt"));
    reflexivity.
Qed.

Lemma sorted_available_keys :
  NoDup (sorted_available models_dir path_join exists_path).*1.
Proof.
  rewrite sorted_available_filter. unfold models. simpl.
  destruct (exists_path (path_join models_dir "yolov12n-face.pt"));
    destruct (exists_path (path_join models_dir "yolov12s-face.pt"));
    destruct (exists_path (path_join models_dir "yolov12m-face.pt"));
    destruct (exists_path (path_join models_dir "yolov12l-face.pt"));
    simpl; repeat (apply NoDup_cons; split;
                   [rewrite ?elem_of_cons, elem_of_nil;
                    intros H; repeat destruct H as [H|H]; discriminate H || exact H
                   |]);
    apply NoDup_nil_2.
Qed.

(** The members of the response are the items of [models] whose file
    exists. *)
Lemma get_models_lookup k info :
  get_models models_dir path_join exists_path !! k = Some info <->
  (k, info) ∈ models /\
  exists_path (path_join models_dir (name info)) = true.
Proof.
  unfold get_models.
  rewrite <- (elem_of_list_to_map _ _ _ sorted_available_keys).
  rewrite sorted_available_filter, list_elem_of_In, filter_In,
    <- list_elem_of_In.
  reflexivity.
Qed.

End ModelsFacts.

Lemma models_names k info :
  (k, info) ∈ models -> name info ∈ ALLOWED_MODELS /\ dict_get models k = Some info.
Proof.
  unfold models. rewrite !elem_of_cons, elem_of_nil.
  intros [[= -> ->]|[[= -> ->]|[[= -> ->]|[[= -> ->]|[]]]]];
    (split; [unfold ALLOWED_MODELS; simpl;
             rewrite !elem_of_union, !elem_of_singleton; tauto
            | reflexivity]).
Qed.

Lemma models_items k info :
  dict_get models k = Some info -> (k, info) ∈ models.
Proof.
  unfold models. cbn [dict_get].
  repeat (destruct (String.eqb _ k) eqn:E;
          [apply String.eqb_eq in E as <-; intros [= <-];
           rewrite !elem_of_cons; auto 10
          | clear E]).
  discriminate.
Qed.

Lemma allowed_in_models n :
  n ∈ ALLOWED_MODELS -> exists k info, (k, info) ∈ models /\ name info = n.
Proof.
  unfold ALLOWED_MODELS. rewrite !elem_of_union, !elem_of_singleton.
  unfold models.
  intros [[[-> | ->] | ->] | ->].
  - exists "nano"; eexists; split; [apply list_elem_of_here|reflexivity].
  - exists "small"; eexists; split;
      [apply list_elem_of_further, list_elem_of_here|reflexivity].
  - exists "medium"; eexists; split;
      [do 2 apply list_elem_of_further; apply list_elem_of_here|reflexivity].
  - exists "large"; eexists; split;
      [do 3 apply list_elem_of_further; apply list_elem_of_here|reflexivity].
Qed.

(** X12: the response of [get_models] offers exactly the allowed
    models whose file exists in the models folder, each under its key
    of the table; every name it offers is accepted as it is by the
    model selection of [detect_image], without the fallback. *)
Theorem offered_models_are_allowed
    (models_dir : string) (path_join : string -> string -> string)
    (exists_path : string -> bool) :
  (forall k info,
     get_models models_dir path_join exists_path !! k = Some info ->
     name info ∈ ALLOWED_MODELS /\
     exists_path (path_join models_dir (name info)) = true /\
     dict_get models k = Some info /\
     selected_model (Some (name info)) = (name info, [])) /\
  (forall k info,
     dict_get models k = Some info ->
     exists_path (path_join models_dir (name info)) = true ->
     get_models models_dir path_join exists_path !! k = Some info) /\
  (forall n,
     n ∈ ALLOWED_MODELS -> exists_path (path_join models_dir n) = true ->
     exists k info,
       get_models models_dir path_join exists_path !! k = Some info /\
       name info = n).
Proof.
  split; [|split].
  - intros k info Hin. apply get_models_lookup in Hin as [Hin Hex].
    destruct (models_names k info Hin) as [Hn Hg].
    split; [exact Hn|]. split; [exact Hex|]. split; [exact Hg|].
    unfold selected_model. simpl.
    rewrite (bool_decide_eq_true_2 _ Hn). reflexivity.
  - intros k info Hg Hex. apply get_models_lookup. split; [|exact Hex].
    apply models_items. exact Hg.
  - intros n Hn Hex. destruct (allowed_in_models n Hn) as (k & info & Hin & <-).
    exists k, info. split; [|reflexivity].
    apply get_models_lookup. auto.
Qed.

Lemma offered_models_are_allowed_witness :
  exists k info,
    get_models sample_models_dir sample_path_join sample_exists !! k = Some info /\
    name info = "yolov12m-face.pt".
Proof.
  apply (offered_models_are_allowed sample_models_dir sample_path_join
           sample_exists).
  - unfold ALLOWED_MODELS. rewrite !elem_of_union, !elem_of_singleton. tauto.
  - reflexivity.
Defined.

(** ** Sizes asked for display *)







Lemma quot_shrinks (H M W : Z) :
  0 <= H -> 0 < M -> M < W -> 0 <= Z.quot (H * M) W <= H.
Proof.
  intros HH HM HW. rewrite Z.quot_div_nonneg by nia. split.
  - apply Z.div_pos; nia.
  - apply Z.div_le_upper_bound; nia.
Qed.

(** X13: the frame put on screen by [update_frame] is never wider than
    1000 pixels and never enlarged: a frame of width at most 1000 is
    shown as it is, a wider one of height [h >= 0] is resized to width
    1000 and height [h * 1000 quot w], which lies between 0 and [h];
    the computation does not divide by zero. *)
Theorem display_width_capped (h w : Z) :
  0 <= h ->
  (w <= 1000 -> display_resize h w = Returns None) /\
  (1000 < w ->
   display_resize h w = Returns (Some (1000, Z.quot (h * 1000) w)) /\
   0 <= Z.quot (h * 1000) w <= h).
Proof.
  intros Hh. unfold display_resize, py_truediv.
  split.
  - intros Hw. destruct (Z.ltb_spec 1000 w); [lia|reflexivity].
  - intros Hw. destruct (Z.ltb_spec 1000 w); [|lia].
    destruct (Z.eqb_spec w 0); [lia|]. simpl.
    rewrite py_int_ratio by assumption.
    split; [reflexivity|]. apply quot_shrinks; lia.
Qed.

Lemma display_width_capped_witness :
  display_resize 1080 1920 = Returns (Some (1000, 562)).
Proof.
  apply (display_width_capped 1080 1920); lia.
Defined.




(** ** The route [/api/detect-image] *)

(** The check on the name of the upload never raises, and lets
    through exactly the names that [is_image] accepts. *)
Lemma upload_refused_spec (f : upload) :
  (upload_refused f = Returns true /\ is_image (filename f) <> Returns true) \/
  (upload_refused f = Returns false /\ is_image (filename f) = Returns true).
Proof.
  unfold upload_refused, allowed_file, is_image, extension, has_dot.
  pose proof (after_last_dot_has_dot (list_ascii_of_string (filename f))) as Hd.
  destruct (after_last_dot (list_ascii_of_string (filename f))) as [e|].
  - assert (existsb is_dot (list_ascii_of_string (filename f)) = true) as ->
      by (apply Hd; eauto).
    simpl. set (ext := lower (string_of_list_ascii e)).
    pose proof (allowed_extension_kinds ext) as Hk.
    destruct (bool_decide_reflect (ext ∈ ALLOWED_EXTENSIONS)) as [Ha|Ha];
      destruct (bool_decide_reflect (ext ∈ IMAGE_EXTENSIONS)) as [Hi|Hi];
      simpl; try (exfalso; tauto);
      first [right; split; reflexivity | left; split; [reflexivity|discriminate]].
  - assert (existsb is_dot (list_ascii_of_string (filename f)) = false) as ->.
    { destruct (existsb is_dot (list_ascii_of_string (filename f)));
        [|reflexivity].
      destruct (proj1 Hd eq_refl) as [? H]. discriminate H. }
    simpl. left. split; [reflexivity|discriminate].
Qed.

Lemma faces_from_spec
    (format_percent2 : Q -> string) (format_position : Z -> Z -> string)
    (detections : list detection) : forall i,
  length (faces_from format_percent2 format_position i detections)
    = length detections /\
  map face_id (faces_from format_percent2 format_position i detections)
    = seqZ (i + 1) (Z.of_nat (length detections)) /\
  map face_width (faces_from format_percent2 format_position i detections)
    = map w detections /\
  map face_height (faces_from format_percent2 format_position i detections)
    = map h detections.
Proof.
  induction detections as [|det rest IH]; intros i; simpl.
  - repeat split; reflexivity.
  - destruct (IH (i + 1)) as (H1 & H2 & H3 & H4).
    rewrite H1, H2, H3, H4. repeat split; try reflexivity.
    rewrite (seqZ_cons (i + 1)) by lia. do 2 f_equal; lia.
Qed.

(** The frame that [draw_faces] returns is held by the store. *)
Lemma draw_faces_result_held
    (cv2_rectangle : image -> Z * Z -> Z * Z -> color -> Z -> outcome image)
    (cv2_putText : image -> string -> Z * Z -> Q -> color -> Z -> outcome image)
    (cv2_getTextSize : string -> Q -> Z -> (Z * Z) * Z)
    (format_percent : Q -> string)
    (σ : gmap loc image) (l : loc) detections c th show result :
  fst (draw_faces cv2_rectangle cv2_putText cv2_getTextSize format_percent
         σ l detections c th show) = Returns result ->
  is_Some (snd (draw_faces cv2_rectangle cv2_putText cv2_getTextSize
                  format_percent σ l detections c th show) !! result).
Proof.
  unfold draw_faces, copy. destruct (σ !! l) as [i|]; simpl; [|discriminate].
  pose proof (draw_all_frames cv2_rectangle cv2_putText cv2_getTextSize
                format_percent (fresh (dom σ)) c th show detections
                (<[fresh (dom σ) := i]> σ)) as [_ Hsome].
  destruct (draw_all _ _ _ _ (fresh (dom σ)) c th show detections _)
    as [[e|] σ']; simpl in *; [discriminate|].
  intros [= <-]. apply Hsome. rewrite lookup_insert_eq. eauto.
Qed.

Section DetectImageFacts.

Variable Detector : Type.
Variable secure_filename : string -> string.
Variable models_dir : string.
Variable path_join : string -> string -> string.
Variable resolve : string -> outcome string.
Variable exists_path : string -> bool.
Variable YOLO : string -> outcome Detector.
Variable yolo_of : Detector -> image -> Q -> outcome (list (list box)).
Variable cv2_resize : image -> Z * Z -> outcome image.
Variable cv2_rectangle : image -> Z * Z -> Z * Z -> color -> Z -> outcome image.
Variable cv2_putText : image -> string -> Z * Z -> Q -> color -> Z -> outcome image.
Variable cv2_getTextSize : string -> Q -> Z -> (Z * Z) * Z.
Variable format_percent : Q -> string.
Variable imdecode : list Z -> option image.
Variable imencode : image -> outcome (list Z).
Variable b64encode : list Z -> string.
Variable format_percent2 : Q -> string.
Variable format_position : Z -> Z -> string.

(** An answer built inside the [try] is the answer of a success. *)
Lemma process_image_returns detector f resp :
  process_image Detector yolo_of cv2_resize cv2_rectangle cv2_putText
    cv2_getTextSize format_percent imdecode imencode b64encode
    format_percent2 format_position detector f = Returns resp ->
  exists img result_image buffer,
    imdecode (data f) = Some img /\
    imencode result_image = Returns buffer /\
    let detections :=
      returned (if contains "webcam" (lower (filename f))
                then detect_faces_optimized (yolo_of detector) cv2_resize img
                       (35 # 100) 480
                else detect_faces (yolo_of detector) img (35 # 100)) in
    resp = JsonDetections ("data:image/jpeg;base64," +:+ b64encode buffer)
             (length detections)
             (faces_from format_percent2 format_position 0 detections).
Proof.
  unfold process_image, returned.
  destruct (imdecode (data f)) as [img|]; [|discriminate].
  destruct (fst (if contains "webcam" (lower (filename f))
                 then detect_faces_optimized (yolo_of detector) cv2_resize img
                        (35 # 100) 480
                 else detect_faces (yolo_of detector) img (35 # 100)))
    as [detections|e] eqn:Ed; simpl; [|discriminate].
  pose proof (draw_faces_result_held cv2_rectangle cv2_putText cv2_getTextSize
                format_percent {[ 0%nat := img ]} 0%nat detections (0, 255, 0)
                2 true) as Hheld.
  destruct (draw_faces cv2_rectangle cv2_putText cv2_getTextSize format_percent
              {[ 0%nat := img ]} 0%nat detections (0, 255, 0) 2 true)
    as [[result|e] σ]; simpl in *; [|discriminate].
  destruct (Hheld result eq_refl) as [result_image Hr]. rewrite Hr.
  destruct (imencode result_image) as [buffer|e] eqn:Eb; simpl; [|discriminate].
  intros [= <-]. exists img, result_image, buffer.
  split; [reflexivity|]. split; [exact Eb|]. simpl. rewrite Ed. reflexivity.
Qed.

End DetectImageFacts.

Section DetectImageAnswers.

Variable Detector : Type.
Variable secure_filename : string -> string.
Variable models_dir : string.
Variable path_join : string -> string -> string.
Variable resolve : string -> outcome string.
Variable exists_path : string -> bool.
Variable YOLO : string -> outcome Detector.
Variable yolo_of : Detector -> image -> Q -> outcome (list (list box)).
Variable cv2_resize : image -> Z * Z -> outcome image.
Variable cv2_rectangle : image -> Z * Z -> Z * Z -> color -> Z -> outcome image.
Variable cv2_putText : image -> string -> Z * Z -> Q -> color -> Z -> outcome image.
Variable cv2_getTextSize : string -> Q -> Z -> (Z * Z) * Z.
Variable format_percent : Q -> string.
Variable imdecode : list Z -> option image.
Variable imencode : image -> outcome (list Z).
Variable b64encode : list Z -> string.
Variable format_percent2 : Q -> string.
Variable format_position : Z -> Z -> string.

(** The five ways through the route. *)
Lemma detect_image_cases req cache :
  (file req = None /\
   (detect_image Detector secure_filename models_dir path_join
     resolve exists_path YOLO yolo_of cv2_resize cv2_rectangle cv2_putText
     cv2_getTextSize format_percent imdecode imencode b64encode
     format_percent2 format_position req cache) = (JsonError "No file provided" 400, cache, []))
  \/
  (exists f, file req = Some f /\ filename f = "" /\
     (detect_image Detector secure_filename models_dir path_join
     resolve exists_path YOLO yolo_of cv2_resize cv2_rectangle cv2_putText
     cv2_getTextSize format_percent imdecode imencode b64encode
     format_percent2 format_position req cache) = (JsonError "No file selected" 400, cache, []))
  \/
  (exists f, file req = Some f /\ filename f <> "" /\
     is_image (filename f) <> Returns true /\
     (detect_image Detector secure_filename models_dir path_join
     resolve exists_path YOLO yolo_of cv2_resize cv2_rectangle cv2_putText
     cv2_getTextSize format_percent imdecode imencode b64encode
     format_percent2 format_position req cache) = (JsonError "Only image files allowed" 400, cache, []))
  \/
  (exists f, file req = Some f /\ filename f <> "" /\
     is_image (filename f) = Returns true /\
     fst (fst (detect_image Detector secure_filename models_dir path_join
     resolve exists_path YOLO yolo_of cv2_resize cv2_rectangle cv2_putText
     cv2_getTextSize format_percent imdecode imencode b64encode
     format_percent2 format_position req cache)) = internal_error)
  \/
  (exists f detector img buffer,
     file req = Some f /\ filename f <> "" /\
     is_image (filename f) = Returns true /\
     imdecode (data f) = Some img /\
     fst (fst (detect_image Detector secure_filename models_dir path_join
     resolve exists_path YOLO yolo_of cv2_resize cv2_rectangle cv2_putText
     cv2_getTextSize format_percent imdecode imencode b64encode
     format_percent2 format_position req cache))
     = JsonDetections ("data:image/jpeg;base64," +:+ b64encode buffer)
         (length (returned (if contains "webcam" (lower (filename f))
               then detect_faces_optimized (yolo_of detector) cv2_resize img
                      (35 # 100) 480
               else detect_faces (yolo_of detector) img (35 # 100))))
         (faces_from format_percent2 format_position 0
            (returned (if contains "webcam" (lower (filename f))
               then detect_faces_optimized (yolo_of detector) cv2_resize img
                      (35 # 100) 480
               else detect_faces (yolo_of detector) img (35 # 100))))).
Proof.
  unfold detect_image. destruct (file req) as [f|]; [|left; auto].
  right. destruct (String.eqb_spec (filename f) "") as [E|E].
  { left. exists f. auto. }
  right. destruct (upload_refused_spec f) as [[-> Hi]|[-> Hi]].
  { left. exists f. auto. }
  right. destruct (selected_model (form_model req)) as [model logs].
  destruct (get_detector Detector secure_filename models_dir path_join resolve
              exists_path YOLO model cache) as [[[detector|e] cache'] logs'].
  2:{ left. exists f. auto. }
  destruct (process_image Detector yolo_of cv2_resize cv2_rectangle cv2_putText
              cv2_getTextSize format_percent imdecode imencode b64encode
              format_percent2 format_position detector f) as [resp|e] eqn:Ep.
  2:{ left. exists f. auto. }
  right. apply process_image_returns in Ep
    as (img & result_image & buffer & Hdec & _ & ->).
  exists f, detector, img, buffer. auto.
Qed.

(** In a case of [detect_image_cases] the upload is the one at hand. *)
Ltac same_upload :=
  match goal with
  | H1 : file ?r = Some ?f, H2 : file ?r = Some ?g |- _ =>
      assert (g = f) by congruence; subst g; clear H2
  end.

(** X15: [detect_image] checks the upload before it touches a model.
    Without a file, with an empty file name, or with a name that
    [is_image] does not accept, the answer is a 400 with its message,
    the cache of detectors is as it was and nothing is logged; with a
    name that [is_image] accepts the answer is a success or a 500. *)
Theorem detect_image_checks_before_loading req cache :
  (file req = None ->
   (detect_image Detector secure_filename models_dir path_join
     resolve exists_path YOLO yolo_of cv2_resize cv2_rectangle cv2_putText
     cv2_getTextSize format_percent imdecode imencode b64encode
     format_percent2 format_position req cache) = (JsonError "No file provided" 400, cache, [])) /\
  (forall f, file req = Some f -> filename f = "" ->
   (detect_image Detector secure_filename models_dir path_join
     resolve exists_path YOLO yolo_of cv2_resize cv2_rectangle cv2_putText
     cv2_getTextSize format_percent imdecode imencode b64encode
     format_percent2 format_position req cache) = (JsonError "No file selected" 400, cache, [])) /\
  (forall f, file req = Some f -> filename f <> "" ->
   is_image (filename f) <> Returns true ->
   (detect_image Detector secure_filename models_dir path_join
     resolve exists_path YOLO yolo_of cv2_resize cv2_rectangle cv2_putText
     cv2_getTextSize format_percent imdecode imencode b64encode
     format_percent2 format_position req cache) = (JsonError "Only image files allowed" 400, cache, [])) /\
  (forall f, file req = Some f -> filename f <> "" ->
   is_image (filename f) = Returns true ->
   status_of (fst (fst (detect_image Detector secure_filename models_dir path_join
     resolve exists_path YOLO yolo_of cv2_resize cv2_rectangle cv2_putText
     cv2_getTextSize format_percent imdecode imencode b64encode
     format_percent2 format_position req cache))) = 200 \/
   status_of (fst (fst (detect_image Detector secure_filename models_dir path_join
     resolve exists_path YOLO yolo_of cv2_resize cv2_rectangle cv2_putText
     cv2_getTextSize format_percent imdecode imencode b64encode
     format_percent2 format_position req cache))) = 500) /\
  (status_of (fst (fst (detect_image Detector secure_filename models_dir path_join
     resolve exists_path YOLO yolo_of cv2_resize cv2_rectangle cv2_putText
     cv2_getTextSize format_percent imdecode imencode b64encode
     format_percent2 format_position req cache))) = 400 ->
   snd (fst (detect_image Detector secure_filename models_dir path_join
     resolve exists_path YOLO yolo_of cv2_resize cv2_rectangle cv2_putText
     cv2_getTextSize format_percent imdecode imencode b64encode
     format_percent2 format_position req cache)) = cache /\ snd (detect_image Detector secure_filename models_dir path_join
     resolve exists_path YOLO yolo_of cv2_resize cv2_rectangle cv2_putText
     cv2_getTextSize format_percent imdecode imencode b64encode
     format_percent2 format_position req cache) = []).
Proof.
  destruct (detect_image_cases req cache)
    as [(Hf & Hr)|[(f & Hf & Hn & Hr)|[(f & Hf & Hn & Hi & Hr)|
        [(f & Hf & Hn & Hi & Hr)|(f & d & img & buf & Hf & Hn & Hi & _ & Hr)]]]].
  - rewrite Hr. simpl. repeat split; auto; intros; congruence.
  - rewrite Hr. simpl. repeat split; auto; try (intros; congruence);
      intros; same_upload; congruence.
  - rewrite Hr. simpl. repeat split; auto; try (intros; congruence);
      intros; same_upload; congruence.
  - rewrite Hr. simpl. split; [intros; congruence|].
    split; [intros; same_upload; congruence|].
    split; [intros; same_upload; congruence|].
    split; [auto|discriminate].
  - rewrite Hr. simpl. split; [intros; congruence|].
    split; [intros; same_upload; congruence|].
    split; [intros; same_upload; congruence|].
    split; [auto|discriminate].
Qed.

(** X16: the error answers of [detect_image] carry fixed texts only:
    a 400 with one of three messages, or a 500 with the message of the
    [except]; the text of an exception never reaches the client, and
    the answer 'Failed to process image' is never given. *)
Theorem detect_image_errors_are_fixed req cache msg status :
  fst (fst (detect_image Detector secure_filename models_dir path_join
     resolve exists_path YOLO yolo_of cv2_resize cv2_rectangle cv2_putText
     cv2_getTextSize format_percent imdecode imencode b64encode
     format_percent2 format_position req cache)) = JsonError msg status ->
  (status = 400 /\
   (msg = "No file provided" \/ msg = "No file selected" \/
    msg = "Only image files allowed")) \/
  (status = 500 /\ msg = "Internal server error during image detection").
Proof.
  destruct (detect_image_cases req cache)
    as [(Hf & Hr)|[(f & Hf & Hn & Hr)|[(f & Hf & Hn & Hi & Hr)|
        [(f & Hf & Hn & Hi & Hr)|(f & d & img & buf & Hf & Hn & Hi & _ & Hr)]]]];
    rewrite Hr; simpl; try discriminate; intros [= <- <-]; auto.
Qed.

(** X17: a success of [detect_image] answers for the detections drawn
    on the decoded upload: [count] is their number, [faces] has one
    item per detection with the ids 1, 2, ... in order and the [w] and
    [h] of the detection as width and height.  An upload whose bytes do
    not decode gets the 500 of the [except], not a 400, once its name
    passed the checks. *)
Theorem detect_image_success_shape req cache :
  (forall image_b64 count faces,
     fst (fst (detect_image Detector secure_filename models_dir path_join
     resolve exists_path YOLO yolo_of cv2_resize cv2_rectangle cv2_putText
     cv2_getTextSize format_percent imdecode imencode b64encode
     format_percent2 format_position req cache)) = JsonDetections image_b64 count faces ->
     exists f detector img,
       file req = Some f /\ is_image (filename f) = Returns true /\
       imdecode (data f) = Some img /\
       count = length (returned (if contains "webcam" (lower (filename f))
               then detect_faces_optimized (yolo_of detector) cv2_resize img
                      (35 # 100) 480
               else detect_faces (yolo_of detector) img (35 # 100))) /\
       length faces = count /\
       map face_id faces = seqZ 1 (Z.of_nat count) /\
       map face_width faces = map w (returned (if contains "webcam" (lower (filename f))
               then detect_faces_optimized (yolo_of detector) cv2_resize img
                      (35 # 100) 480
               else detect_faces (yolo_of detector) img (35 # 100))) /\
       map face_height faces = map h (returned (if contains "webcam" (lower (filename f))
               then detect_faces_optimized (yolo_of detector) cv2_resize img
                      (35 # 100) 480
               else detect_faces (yolo_of detector) img (35 # 100)))) /\
  (forall f, file req = Some f -> filename f <> "" ->
     is_image (filename f) = Returns true -> imdecode (data f) = None ->
     fst (fst (detect_image Detector secure_filename models_dir path_join
     resolve exists_path YOLO yolo_of cv2_resize cv2_rectangle cv2_putText
     cv2_getTextSize format_percent imdecode imencode b64encode
     format_percent2 format_position req cache)) = internal_error).
Proof.
  destruct (detect_image_cases req cache)
    as [(Hf & Hr)|[(f & Hf & Hn & Hr)|[(f & Hf & Hn & Hi & Hr)|
        [(f & Hf & Hn & Hi & Hr)|(f & d & img & buf & Hf & Hn & Hi & Hd & Hr)]]]];
    rewrite Hr; simpl.
  - split; [discriminate|]. intros; congruence.
  - split; [discriminate|]. intros; same_upload; congruence.
  - split; [discriminate|]. intros; same_upload; congruence.
  - split; [discriminate|]. reflexivity.
  - split; [|intros; same_upload; congruence].
    intros image_b64 count faces [= <- <- <-].
    exists f, d, img.
    destruct (faces_from_spec format_percent2 format_position
                (returned (if contains "webcam" (lower (filename f))
               then detect_faces_optimized (yolo_of d) cv2_resize img
                      (35 # 100) 480
               else detect_faces (yolo_of d) img (35 # 100))) 0) as (H1 & H2 & H3 & H4).
    repeat split; auto.
Qed.

End DetectImageAnswers.

Lemma detect_image_checks_before_loading_witness :
  sample_detect_image text_request ∅
  = (JsonError "Only image files allowed" 400, ∅, []).
Proof.
  eapply (detect_image_checks_before_loading string secure_filename_ascii
            sample_models_dir sample_path_join sample_resolve sample_exists
            sample_YOLO (fun _ => one_face_yolo) sample_resize stroke_rectangle
            stroke_putText fixed_getTextSize fixed_percent sample_imdecode
            sample_imencode sample_b64encode fixed_percent
            sample_format_position text_request ∅);
    [reflexivity | discriminate | discriminate].
Defined.

Lemma detect_image_errors_are_fixed_witness :
  (400 = 400 /\
   ("Only image files allowed" = "No file provided" \/
    "Only image files allowed" = "No file selected" \/
    "Only image files allowed" = "Only image files allowed")) \/
  (400 = 500 /\
   "Only image files allowed" = "Internal server error during image detection").
Proof.
  apply (detect_image_errors_are_fixed string secure_filename_ascii
           sample_models_dir sample_path_join sample_resolve sample_exists
           sample_YOLO (fun _ => one_face_yolo) sample_resize stroke_rectangle
           stroke_putText fixed_getTextSize fixed_percent sample_imdecode
           sample_imencode sample_b64encode fixed_percent
           sample_format_position text_request ∅).
  reflexivity.
Defined.

Lemma detect_image_success_shape_witness :
  exists f detector img,
    file webcam_request = Some f /\ is_image (filename f) = Returns true /\
    sample_imdecode (data f) = Some img /\
    1%nat = length (returned
              (if contains "webcam" (lower (filename f))
               then detect_faces_optimized ((fun _ : string => one_face_yolo) detector)
                      sample_resize img (35 # 100) 480
               else detect_faces ((fun _ : string => one_face_yolo) detector) img
                      (35 # 100))).
Proof.
  destruct (detect_image_success_shape string secure_filename_ascii
              sample_models_dir sample_path_join sample_resolve sample_exists
              sample_YOLO (fun _ : string => one_face_yolo) sample_resize
              stroke_rectangle stroke_putText fixed_getTextSize fixed_percent
              sample_imdecode sample_imencode sample_b64encode fixed_percent
              sample_format_position webcam_request ∅) as [H _].
  destruct (H _ _ _ eq_refl) as (f & d & img & H1 & H2 & H3 & H4 & _).
  exists f, d, img. auto.
Defined.

(** ** Processing a video file *)

Section VideoFacts.

Variable Detector : Type.
Variable YOLO : string -> outcome Detector.
Variable yolo_of : Detector -> image -> Q -> outcome (list (list box)).
Variable cv2_rectangle : image -> Z * Z -> Z * Z -> color -> Z -> outcome image.
Variable cv2_putText : image -> string -> Z * Z -> Q -> color -> Z -> outcome image.
Variable cv2_getTextSize : string -> Q -> Z -> (Z * Z) * Z.
Variable format_percent : Q -> string.

Hypothesis rectangle_returns :
  forall im p1 p2 c0 t, exists im', cv2_rectangle im p1 p2 c0 t = Returns im'.
Hypothesis putText_returns :
  forall im tx o sc c0 t, exists im', cv2_putText im tx o sc c0 t = Returns im'.

Lemma annotate_returns detector frame conf :
  exists result,
    annotate Detector yolo_of cv2_rectangle cv2_putText cv2_getTextSize
      format_percent detector frame conf = Returns result.
Proof.
  unfold annotate.
  destruct (detect_faces_returns (yolo_of detector) frame conf) as [ds ->].
  simpl.
  pose proof (draw_faces_result_held cv2_rectangle cv2_putText cv2_getTextSize
                format_percent {[ 0%nat := frame ]} 0%nat ds (0, 255, 0) 2 true)
    as Hheld.
  assert (exists l,
            fst (draw_faces cv2_rectangle cv2_putText cv2_getTextSize
                   format_percent {[ 0%nat := frame ]} 0%nat ds (0, 255, 0) 2 true)
            = Returns l) as [l Hl].
  { unfold draw_faces, copy. rewrite lookup_singleton_eq.
    pose proof (draw_all_total cv2_rectangle cv2_putText cv2_getTextSize
                  format_percent (fresh (dom ({[ 0%nat := frame ]} : gmap loc image)))
                  (0, 255, 0) 2 true ds
                  (<[fresh (dom ({[ 0%nat := frame ]} : gmap loc image)) := frame]>
                     {[ 0%nat := frame ]})) as Ht.
    rewrite lookup_insert_eq in Ht.
    specialize (Ht ltac:(eauto) rectangle_returns putText_returns).
    destruct (draw_all _ _ _ _ _ _ _ _ _ _) as [o σ']. simpl in Ht. subst o.
    simpl. eauto. }
  specialize (Hheld l Hl).
  destruct (draw_faces cv2_rectangle cv2_putText cv2_getTextSize format_percent
              {[ 0%nat := frame ]} 0%nat ds (0, 255, 0) 2 true) as [r σ].
  simpl in *. subst r. destruct Hheld as [img ->]. eauto.
Qed.

Lemma video_loop_total detector writer frames conf :
  exists results,
    Forall2 (fun frame result =>
               annotate Detector yolo_of cv2_rectangle cv2_putText
                 cv2_getTextSize format_percent detector frame conf
               = Returns result) frames results /\
    video_loop Detector yolo_of cv2_rectangle cv2_putText cv2_getTextSize
      format_percent detector writer frames conf
    = (None, if writer then map WriterWrite results else []).
Proof.
  induction frames as [|frame rest (results & HF & IH)]; simpl.
  - exists []. split; [constructor|]. destruct writer; reflexivity.
  - destruct (annotate_returns detector frame conf) as [result Hr].
    exists (result :: results). split; [constructor; assumption|].
    rewrite Hr, IH. destruct writer; reflexivity.
Qed.

End VideoFacts.

Section VideoLeak.

Variable Detector : Type.
Variable YOLO : string -> outcome Detector.
Variable yolo_of : Detector -> image -> Q -> outcome (list (list box)).
Variable cv2_rectangle : image -> Z * Z -> Z * Z -> color -> Z -> outcome image.
Variable cv2_putText : image -> string -> Z * Z -> Q -> color -> Z -> outcome image.
Variable cv2_getTextSize : string -> Q -> Z -> (Z * Z) * Z.
Variable format_percent : Q -> string.

(** The loop calls nothing but [write]. *)
Lemma video_loop_no_release detector writer frames conf :
  Forall no_release
    (snd (video_loop Detector yolo_of cv2_rectangle cv2_putText cv2_getTextSize
            format_percent detector writer frames conf)).
Proof.
  induction frames as [|frame rest IH]; simpl; [constructor|].
  destruct (annotate _ _ _ _ _ _ detector frame conf) as [result|e];
    [|constructor].
  destruct (video_loop _ _ _ _ _ _ detector writer rest conf) as [r evs].
  simpl in *. apply Forall_app. split; [|exact IH].
  destruct writer; repeat constructor; discriminate.
Qed.

End VideoLeak.

(** X18: [detect_from_video] on a video that does not open does
    nothing at all.  On one that opens, with a model that loads and
    drawing calls that do not raise, it writes one annotated frame per
    frame read, in order (none without an output path), then releases
    the capture once and the writer once if there is one.  When it
    raises, because the model does not load or a drawing call fails,
    neither the capture nor the writer has been released. *)
Theorem video_written_frame_per_frame_read
    (Detector : Type) (YOLO : string -> outcome Detector)
    (yolo_of : Detector -> image -> Q -> outcome (list (list box)))
    (cv2_rectangle : image -> Z * Z -> Z * Z -> color -> Z -> outcome image)
    (cv2_putText : image -> string -> Z * Z -> Q -> color -> Z -> outcome image)
    (cv2_getTextSize : string -> Q -> Z -> (Z * Z) * Z)
    (format_percent : Q -> string)
    (frames : list image) (model_path : string) (output_path : option string)
    (conf : Q) :
  detect_from_video Detector YOLO yolo_of cv2_rectangle cv2_putText
    cv2_getTextSize format_percent false frames model_path output_path conf
  = (Returns tt, []) /\
  (forall detector,
     load_detector Detector YOLO model_path = Returns detector ->
     (forall im p1 p2 c0 t, exists im', cv2_rectangle im p1 p2 c0 t = Returns im') ->
     (forall im tx o sc c0 t, exists im', cv2_putText im tx o sc c0 t = Returns im') ->
     exists results,
       Forall2 (fun frame result =>
                  annotate Detector yolo_of cv2_rectangle cv2_putText
                    cv2_getTextSize format_percent detector frame conf
                  = Returns result) frames results /\
       detect_from_video Detector YOLO yolo_of cv2_rectangle cv2_putText
         cv2_getTextSize format_percent true frames model_path output_path conf
       = (Returns tt,
          (if truthy output_path then map WriterWrite results else [])
          ++ [CaptureRelease]
          ++ (if truthy output_path then [WriterRelease] else [])
          ++ [VideoPrint "Video processing complete"])) /\
  (forall opened e,
     fst (detect_from_video Detector YOLO yolo_of cv2_rectangle cv2_putText
            cv2_getTextSize format_percent opened frames model_path
            output_path conf) = Raises e ->
     Forall no_release
       (snd (detect_from_video Detector YOLO yolo_of cv2_rectangle cv2_putText
               cv2_getTextSize format_percent opened frames model_path
               output_path conf))).
Proof.
  split; [reflexivity|]. split.
  - intros detector Hload Hrect Hput.
    destruct (video_loop_total Detector yolo_of cv2_rectangle cv2_putText
                cv2_getTextSize format_percent Hrect Hput detector
                (truthy output_path) frames conf) as (results & HF & Hloop).
    exists results. split; [exact HF|].
    unfold detect_from_video. simpl. rewrite Hload, Hloop. reflexivity.
  - intros opened e. unfold detect_from_video.
    destruct opened; simpl; [|discriminate].
    destruct (load_detector Detector YOLO model_path) as [detector|e0];
      [|intros _; constructor].
    pose proof (video_loop_no_release Detector yolo_of cv2_rectangle cv2_putText
                  cv2_getTextSize format_percent detector (truthy output_path)
                  frames conf) as Hn.
    destruct (video_loop _ _ _ _ _ _ detector (truthy output_path) frames conf)
      as [[e1|] evs]; simpl in *; [intros _; exact Hn|discriminate].
Qed.

Lemma video_written_frame_per_frame_read_witness :
  written (snd (detect_from_video string sample_YOLO (fun _ => one_face_yolo)
                  stroke_rectangle stroke_putText fixed_getTextSize fixed_percent
                  true [frame_320; frame_1280] "yolov12n-face.pt"
                  (Some "output_video.mp4") (35 # 100)))
  <> [] /\
  length (written (snd (detect_from_video string sample_YOLO
                          (fun _ => one_face_yolo) stroke_rectangle
                          stroke_putText fixed_getTextSize fixed_percent
                          true [frame_320; frame_1280] "yolov12n-face.pt"
                          (Some "output_video.mp4") (35 # 100)))) = 2%nat.
Proof.
  destruct (video_written_frame_per_frame_read string sample_YOLO
              (fun _ => one_face_yolo) stroke_rectangle stroke_putText
              fixed_getTextSize fixed_percent [frame_320; frame_1280]
              "yolov12n-face.pt" (Some "output_video.mp4") (35 # 100))
    as (_ & H & _).
  destruct (H "yolov12n-face.pt" eq_refl) as (results & HF & ->).
  - intros. eexists. reflexivity.
  - intros. eexists. reflexivity.
  - apply Forall2_length in HF. simpl in HF.
    destruct results as [|r1 [|r2 [|]]]; try discriminate HF.
    split; [discriminate|reflexivity].
Defined.

(** ** The menu of the YOLOv12 script *)

Lemma mapping_names key model_name :
  dict_get mapping key = Some model_name -> model_name ∈ ALLOWED_MODELS.
Proof.
  unfold mapping, ALLOWED_MODELS. cbn [dict_get].
  rewrite !elem_of_union, !elem_of_singleton.
  repeat (destruct (String.eqb _ key); [intros [= <-]; tauto|]).
  discriminate.
Qed.

Section MenuFacts.

Variable script_dir : string.
Variable path_join : string -> string -> string.
Variable exists_path : string -> bool.

Lemma select_loop_spec inputs : forall path rest out,
  select_loop script_dir path_join exists_path inputs = (Returns path, rest, out) ->
  exists turned_down line model_name,
    inputs = turned_down ++ line :: rest /\
    Forall2 (turned_down_with script_dir path_join exists_path) turned_down out /\
    dict_get mapping (answer line) = Some model_name /\
    path = path_join script_dir model_name /\
    exists_path path = true.
Proof.
  induction inputs as [|line more IH]; intros path rest out;
    cbn [select_loop]; [discriminate|].
  fold (answer line).
  destruct (dict_get mapping (answer line)) as [model_name|] eqn:Ek.
  - destruct (exists_path (path_join script_dir model_name)) eqn:Ex.
    + intros H. injection H as <- <- <-.
      exists [], line, model_name. repeat split; auto.
    + destruct (select_loop script_dir path_join exists_path more)
        as [[r rest'] out'] eqn:El.
      intros H. injection H as -> -> <-.
      destruct (IH path rest out' eq_refl)
        as (td & l & m & -> & Hall & Hm & Hp & He).
      exists (line :: td), l, m. cbn [app]. repeat split; auto.
      constructor; [|exact Hall].
      unfold turned_down_with. rewrite Ek. auto.
  - destruct (select_loop script_dir path_join exists_path more)
      as [[r rest'] out'] eqn:El.
    intros H. injection H as -> -> <-.
    destruct (IH path rest out' eq_refl)
      as (td & l & m & -> & Hall & Hm & Hp & He).
    exists (line :: td), l, m. cbn [app]. repeat split; auto.
    constructor; [|exact Hall].
    unfold turned_down_with. rewrite Ek. reflexivity.
Qed.

End MenuFacts.

(** X19: [select_model_level] returns only the path of one of the four
    model files of [mapping] (the names of [ALLOWED_MODELS]) that
    exists in the script's folder: the one chosen by the first line,
    stripped and with the empty answer standing for "2", that names an
    existing model.  Every line before it was turned down, because its
    answer is no key of [mapping] or names a model whose file is
    missing, with the one message printed for that reason, in order
    after the menu; the lines after it are left unread. *)
Theorem select_model_level_returns_existing_model
    (script_dir : string) (path_join : string -> string -> string)
    (exists_path : string -> bool)
    (inputs : list string) (path : string) (rest : list string)
    (out : list menu_line) :
  select_model_level script_dir path_join exists_path inputs
    = (Returns path, rest, out) ->
  exists turned_down printed line model_name,
    inputs = turned_down ++ line :: rest /\
    out = MenuHeader :: printed /\
    Forall2 (turned_down_with script_dir path_join exists_path)
            turned_down printed /\
    dict_get mapping (answer line) = Some model_name /\
    model_name ∈ ALLOWED_MODELS /\
    path = path_join script_dir model_name /\
    exists_path path = true.
Proof.
  unfold select_model_level.
  destruct (select_loop script_dir path_join exists_path inputs)
    as [[r rest'] out'] eqn:El.
  intros [= -> -> <-].
  destruct (select_loop_spec script_dir path_join exists_path inputs
              path rest out' El)
    as (td & l & m & Hin & Hall & Hm & Hp & He).
  exists td, out', l, m.
  pose proof (mapping_names _ _ Hm). repeat split; auto.
Qed.

Lemma select_model_level_returns_existing_model_witness :
  exists turned_down printed line model_name,
    ["9"; " 3 "; "  "; "4"; "1"] = turned_down ++ line :: ["1"] /\
    [MenuHeader; InvalidChoice; FileNotFound "yolov12m-face.pt";
     FileNotFound "yolov12s-face.pt"] = MenuHeader :: printed /\
    Forall2 (turned_down_with sample_models_dir sample_path_join only_large)
            turned_down printed /\
    dict_get mapping (answer line) = Some model_name /\
    model_name ∈ ALLOWED_MODELS /\
    "/app/models/yolov12l-face.pt" = sample_path_join sample_models_dir model_name /\
    only_large "/app/models/yolov12l-face.pt" = true.
Proof.
  apply (select_model_level_returns_existing_model sample_models_dir
           sample_path_join only_large ["9"; " 3 "; "  "; "4"; "1"]).
  vm_compute. reflexivity.
Defined.

Lemma contains_append (needle pre s : string) :
  contains needle s = true -> contains needle (pre +:+ s) = true.
Proof.
  intros H. induction pre as [|c pre IH]; simpl; [exact H|].
  rewrite IH. apply orb_true_r.
Qed.

(** X20: the webcam task of the menu starts its session with
    [skip_frames] 1 or 3, never 0, and with 3 for the medium and the
    large model wherever the models are kept; so the test
    [frame_count % skip_frames] of such a session never raises
    [ZeroDivisionError], and its first tick, when it returns after
    showing a frame, has run the detector. *)
Theorem menu_webcam_skip_is_positive
    (yolo : image -> Q -> outcome (list (list box)))
    (cv2_resize : image -> Z * Z -> outcome image)
    (model_path folder : string) (now : Q) (tk : tick)
    (s' : gui) (out : shown) :
  update_frame yolo cv2_resize
    (init_gui (35 # 100) (webcam_skip model_path) 640 now) tk
  = Returns (s', Some out) ->
  (webcam_skip model_path = 1 \/ webcam_skip model_path = 3) /\
  webcam_skip (folder +:+ "yolov12m-face.pt") = 3 /\
  webcam_skip (folder +:+ "yolov12l-face.pt") = 3 /\
  (forall frame_count,
     py_mod frame_count (webcam_skip model_path)
     = Returns (frame_count mod webcam_skip model_path)) /\
  invoked out = true.
Proof.
  intros Hu.
  assert (webcam_skip model_path = 1 \/ webcam_skip model_path = 3) as Hs.
  { unfold webcam_skip.
    destruct (contains "l-face" model_path || contains "m-face" model_path); auto. }
  split; [exact Hs|]. split; [|split; [|split]].
  - unfold webcam_skip.
    rewrite (contains_append "m-face" folder "yolov12m-face.pt") by reflexivity.
    rewrite orb_true_r. reflexivity.
  - unfold webcam_skip.
    rewrite (contains_append "l-face" folder "yolov12l-face.pt") by reflexivity.
    reflexivity.
  - intros fc. unfold py_mod. destruct Hs as [E|E]; rewrite E; reflexivity.
  - destruct (render_clock tk) as [[r1 r2] r3] eqn:Hr.
    destruct (detection_clock tk) as [[d1 d2] d3] eqn:Hd.
    destruct (update_frame_effect yolo cv2_resize _ tk s' out r1 r2 r3 d1 d2 d3
                Hu Hr Hd) as (_ & Hinv & _).
    rewrite Hinv. unfold init_gui. cbn [frame_count skip_frames].
    destruct Hs as [E|E]; rewrite E; reflexivity.
Qed.

Lemma menu_webcam_skip_is_positive_witness :
  webcam_skip ("/home/user/models/" +:+ "yolov12m-face.pt") = 3 /\
  exists s' out,
    update_frame one_face_yolo sample_resize
      (init_gui (35 # 100) (webcam_skip "/home/user/models/yolov12n-face.pt") 640 0)
      (tick_at (1 # 2))
    = Returns (s', Some out) /\
    invoked out = true.
Proof.
  split; [reflexivity|]. eexists _, _. split; [vm_compute; reflexivity|].
  apply (menu_webcam_skip_is_positive one_face_yolo sample_resize
           "/home/user/models/yolov12n-face.pt" "/home/user/models/" 0
           (tick_at (1 # 2)) _ _ eq_refl).
Defined.
